(** * homer-mcp: the device control core

    A shallow embedding of the smart-home control core:
    - [Cipher]   : the autokey XOR framing of [KasaDevice.encrypt] / [KasaDevice.decrypt]
                   (packages/shared/src/types.ts, second document: devices/kasa.ts);
    - [Js]       : the fragment of JavaScript values the adapter inspects
                   (parsed JSON, optional chaining, truthiness, strict equality);
    - [Core]     : the world (registry map, network log, snapshot log, clock),
                   a state-and-exception monad, the Kasa adapter, the device
                   registry (services/device-registry.ts) and the HTTP handlers
                   of the control surface (the express application).

    Conventions.
    - A JavaScript [number] is modelled by [Z]: every number the modelled code
      compares or sends is an integer in the cases considered.
    - A JavaScript string is a [string] of code units below 256, except in
      [Cipher], where a string is the list of its UTF-16 code units.
    - A [Buffer] is the list of its bytes. *)

From Stdlib Require Import ZArith List String Ascii Bool Lia.
Import ListNotations.
Local Open Scope Z_scope.
Set Warnings "-register-all".

(* ================================================================== *)
(** * The autokey XOR cipher *)
(* ================================================================== *)

Module Cipher.

(** [result[i] = v] on a Buffer keeps the low eight bits of [v]. *)
Definition store_byte (v : Z) : Z := Z.land v 255.

(** [String.fromCharCode(v)] keeps the low sixteen bits of [v]. *)
Definition fromCharCode (v : Z) : Z := Z.land v 65535.

(** [Buffer.writeUInt32BE(value, 0)]: a [RangeError] (here [None]) outside
    [0, 2^32 - 1], otherwise the four bytes, most significant first. *)
Definition writeUInt32BE (value : Z) : option (list Z) :=
  if (0 <=? value) && (value <=? 4294967295) then
    Some [ Z.land (Z.shiftr value 24) 255;
           Z.land (Z.shiftr value 16) 255;
           Z.land (Z.shiftr value 8) 255;
           Z.land value 255 ]
  else None.

(** [Buffer.readUInt32BE(0)] on a buffer of at least four bytes. *)
Definition readUInt32BE (buffer : list Z) : Z :=
  match buffer with
  | b0 :: b1 :: b2 :: b3 :: _ => b0 * 2 ^ 24 + b1 * 2 ^ 16 + b2 * 2 ^ 8 + b3
  | _ => 0
  end.

(** The body of the [for] loop of [encrypt]; [key] is the loop-carried
    variable, which receives the untruncated [encrypted] value. *)
Fixpoint encrypt_loop (key : Z) (buffer : list Z) : list Z :=
  match buffer with
  | [] => []
  | c :: rest =>
      let encrypted := Z.lxor c key in
      store_byte encrypted :: encrypt_loop encrypted rest
  end.

(** [KasaDevice.encrypt]: header, then the enciphered payload. *)
Definition encrypt (buffer : list Z) : option (list Z) :=
  let key := 171 in
  match writeUInt32BE (Z.of_nat (List.length buffer)) with
  | Some header => Some (header ++ encrypt_loop key buffer)
  | None => None
  end.

(** The body of the [for] loop of [decrypt]. *)
Fixpoint decrypt_loop (key : Z) (buffer : list Z) : list Z :=
  match buffer with
  | [] => []
  | b :: rest =>
      let decrypted := Z.lxor b key in
      fromCharCode decrypted :: decrypt_loop b rest
  end.

(** [KasaDevice.decrypt]: the header is skipped when the buffer is longer
    than four bytes and its first four bytes announce the remaining length. *)
Definition decrypt (buffer : list Z) : list Z :=
  let key := 171 in
  let len := Z.of_nat (List.length buffer) in
  let start :=
    if (4 <? len) && (readUInt32BE buffer =? len - 4) then 4%nat else 0%nat in
  decrypt_loop key (skipn start buffer).

(** A byte sequence: every code unit is below 256. *)
Definition is_byte (c : Z) : Prop := 0 <= c < 256.
Definition bytes (s : list Z) : Prop := Forall is_byte s.

End Cipher.

(* ================================================================== *)
(** * JavaScript values as the adapter sees them *)
(* ================================================================== *)

Module Js.

(** The result of [JSON.parse]. *)
Inductive value : Type :=
| JNull
| JBool (b : bool)
| JNum (n : Z)
| JStr (s : string)
| JArr (items : list value)
| JObj (fields : list (string * value)).

(** An expression that may evaluate to [undefined] is an [option value];
    [None] is [undefined]. *)
Definition jsval : Type := option value.

Fixpoint assoc (key : string) (fields : list (string * value)) : jsval :=
  match fields with
  | [] => None
  | (k, v) :: rest => if String.eqb key k then Some v else assoc key rest
  end.

(** [v.key] for a [v] that is neither [null] nor [undefined]: primitives
    and arrays have none of the keys the adapter reads. *)
Definition get (v : value) (key : string) : jsval :=
  match v with
  | JObj fields => assoc key fields
  | _ => None
  end.

(** [o?.key]. *)
Definition get_opt (o : jsval) (key : string) : jsval :=
  match o with
  | None | Some JNull => None
  | Some v => get v key
  end.

(** Truthiness, as tested by [if (x)], [!x] and [x || y]. *)
Definition truthy (o : jsval) : bool :=
  match o with
  | None | Some JNull => false
  | Some (JBool b) => b
  | Some (JNum n) => negb (n =? 0)
  | Some (JStr s) => negb (String.eqb s EmptyString)
  | Some (JArr _) | Some (JObj _) => true
  end.

(** [a || b]. *)
Definition or (a b : jsval) : jsval := if truthy a then a else b.

(** [o === n] for a number literal [n]. *)
Definition is_num (o : jsval) (n : Z) : bool :=
  match o with
  | Some (JNum m) => m =? n
  | _ => false
  end.

End Js.

(* ================================================================== *)
(** * The shared data model (packages/shared/src/types.ts) *)
(* ================================================================== *)

Inductive DeviceType : Type := light | plug | switch.
Inductive Brand : Type := kasa | tuya | unknown.
Inductive DeviceCapability : Type :=
  cap_power | cap_brightness | cap_color | cap_color_temp.
Inductive PowerState : Type := power_on | power_off.
Inductive Action : Type := action_on | action_off | action_toggle.

Definition DeviceCapability_eqb (a b : DeviceCapability) : bool :=
  match a, b with
  | cap_power, cap_power | cap_brightness, cap_brightness
  | cap_color, cap_color | cap_color_temp, cap_color_temp => true
  | _, _ => false
  end.

Definition DeviceType_eqb (a b : DeviceType) : bool :=
  match a, b with
  | light, light | plug, plug | switch, switch => true
  | _, _ => false
  end.

Definition Brand_eqb (a b : Brand) : bool :=
  match a, b with
  | kasa, kasa | tuya, tuya | unknown, unknown => true
  | _, _ => false
  end.

Definition DeviceType_name (t : DeviceType) : string :=
  match t with light => "light" | plug => "plug" | switch => "switch" end.

Definition Brand_name (b : Brand) : string :=
  match b with kasa => "kasa" | tuya => "tuya" | unknown => "unknown" end.

(** [capabilities.includes(c)]. *)
Definition includes_capability (caps : list DeviceCapability)
  (c : DeviceCapability) : bool :=
  existsb (DeviceCapability_eqb c) caps.

Record RGB : Type := mkRGB { r : Z; g : Z; b : Z }.

Record DeviceFeatures : Type := mkFeatures {
  is_dimmable : option bool;
  is_color : option bool;
  is_variable_color_temp : option bool
}.

Module DeviceState.
(** The numeric fields hold whatever the device reported ([getState]
    copies them unchecked). *)
Record t : Type := mk {
  power : option PowerState;
  brightness : Js.jsval;
  color : option RGB;
  hue : Js.jsval;
  saturation : Js.jsval;
  color_temp : Js.jsval
}.
Definition empty : t := mk None None None None None None.
End DeviceState.

Module Device.
Record t : Type := mk {
  id : string;
  mac : option string;
  name : string;
  alias : option string;
  type : DeviceType;
  brand : Brand;
  model : option string;
  ip : string;
  capabilities : list DeviceCapability;
  room : option string;
  deviceId : option string;
  sw_ver : option string;
  hw_ver : option string;
  features : option DeviceFeatures;
  note : option string;
  online : option bool;
  lastSeen : option Z;
  state : option DeviceState.t
}.

(** [device.online = v], [device.lastSeen = v], [device.state = v]. *)
Definition set_online (v : option bool) (d : t) : t :=
  mk (id d) (mac d) (name d) (alias d) (type d) (brand d) (model d) (ip d)
     (capabilities d) (room d) (deviceId d) (sw_ver d) (hw_ver d)
     (features d) (note d) v (lastSeen d) (state d).
Definition set_lastSeen (v : option Z) (d : t) : t :=
  mk (id d) (mac d) (name d) (alias d) (type d) (brand d) (model d) (ip d)
     (capabilities d) (room d) (deviceId d) (sw_ver d) (hw_ver d)
     (features d) (note d) (online d) v (state d).
Definition set_state (v : option DeviceState.t) (d : t) : t :=
  mk (id d) (mac d) (name d) (alias d) (type d) (brand d) (model d) (ip d)
     (capabilities d) (room d) (deviceId d) (sw_ver d) (hw_ver d)
     (features d) (note d) (online d) (lastSeen d) v.
End Device.

(** [Partial<Device>]: a field is [None] when the object has no such own
    property, and [Some v] when it has, [v] being the property's value. *)
Module PartialDevice.
Record t : Type := mk {
  id : option string;
  mac : option (option string);
  name : option string;
  alias : option (option string);
  type : option DeviceType;
  brand : option Brand;
  model : option (option string);
  ip : option string;
  capabilities : option (list DeviceCapability);
  room : option (option string);
  deviceId : option (option string);
  sw_ver : option (option string);
  hw_ver : option (option string);
  features : option (option DeviceFeatures);
  note : option (option string);
  online : option (option bool);
  lastSeen : option (option Z);
  state : option (option DeviceState.t)
}.
Definition empty : t :=
  mk None None None None None None None None None
     None None None None None None None None None.
End PartialDevice.

Definition override {A : Type} (base : A) (update : option A) : A :=
  match update with
  | Some v => v
  | None => base
  end.

(** [{ ...device, ...updates }]. *)
Definition spread (device : Device.t) (updates : PartialDevice.t) : Device.t :=
  Device.mk
    (override (Device.id device) (PartialDevice.id updates))
    (override (Device.mac device) (PartialDevice.mac updates))
    (override (Device.name device) (PartialDevice.name updates))
    (override (Device.alias device) (PartialDevice.alias updates))
    (override (Device.type device) (PartialDevice.type updates))
    (override (Device.brand device) (PartialDevice.brand updates))
    (override (Device.model device) (PartialDevice.model updates))
    (override (Device.ip device) (PartialDevice.ip updates))
    (override (Device.capabilities device) (PartialDevice.capabilities updates))
    (override (Device.room device) (PartialDevice.room updates))
    (override (Device.deviceId device) (PartialDevice.deviceId updates))
    (override (Device.sw_ver device) (PartialDevice.sw_ver updates))
    (override (Device.hw_ver device) (PartialDevice.hw_ver updates))
    (override (Device.features device) (PartialDevice.features updates))
    (override (Device.note device) (PartialDevice.note updates))
    (override (Device.online device) (PartialDevice.online updates))
    (override (Device.lastSeen device) (PartialDevice.lastSeen updates))
    (override (Device.state device) (PartialDevice.state updates)).

Module DeviceControlRequest.
Record t : Type := mk {
  action : Action;
  brightness : option Z;
  color : option RGB;
  color_temp : option Z;
  hue : option Z;
  saturation : option Z;
  transition : option Z
}.
End DeviceControlRequest.

(** What a property of a plain object used as a counter holds: a number,
    or, once [+ 1] has been applied to something that is not a number, a
    string.  [Text k] is the source text of a built-in function (which is
    implementation-defined) followed by [k] characters '1'. *)
Inductive Tally : Type :=
| Count (n : Z)
| Text (appended : nat).

(** A plain object used as [Record<string, number>]: its own properties,
    in the order in which JavaScript enumerates them. *)
Definition Counter : Type := list (string * Tally).

(** The result of [getStats]. *)
Module Stats.
Record t : Type := mk {
  total : Z;
  byType : Counter;
  byBrand : Counter;
  byRoom : Counter;
  online : Z;
  offline : Z
}.
End Stats.

(** What a handler puts in the [data] field of its envelope. *)
Inductive Payload : Type :=
| ControlData (device : string) (action : Action) (state : DeviceState.t)
| BrightnessData (device : string) (brightness : Z)
    (currentState : DeviceState.t).

Record ApiResponse : Type := mkApiResponse {
  success : bool;
  data : option Payload;
  error : option string;
  timestamp : Z
}.

(** [res.status(s).json(body)]; [res.json(body)] has status 200. *)
Record HttpResponse : Type := mkHttp {
  status : Z;
  body : ApiResponse
}.

(* ================================================================== *)
(** * The world: registry map, network, snapshot file, clock *)
(* ================================================================== *)

(** A JavaScript [Map<string, Device>]: entries in insertion order, keys
    distinct.  [set] on a present key keeps the entry's position. *)
Definition Registry : Type := list (string * Device.t).

Fixpoint map_get (key : string) (m : Registry) : option Device.t :=
  match m with
  | [] => None
  | (k, v) :: rest => if String.eqb key k then Some v else map_get key rest
  end.

Fixpoint map_set (key : string) (v : Device.t) (m : Registry) : Registry :=
  match m with
  | [] => [(key, v)]
  | (k, v') :: rest =>
      if String.eqb key k then (k, v) :: rest
      else (k, v') :: map_set key v rest
  end.

(** [Map.delete]: the map without the key, and whether it was present. *)
Fixpoint map_delete (key : string) (m : Registry) : Registry * bool :=
  match m with
  | [] => ([], false)
  | (k, v) :: rest =>
      if String.eqb key k then (rest, true)
      else let (rest', deleted) := map_delete key rest in
           ((k, v) :: rest', deleted)
  end.

(** [Array.from(map.values())]. *)
Definition map_values (m : Registry) : list Device.t := List.map snd m.

(** What [saveRegistry] hands to [writeFileSync] (the constant [notes]
    array is left out). *)
Record Snapshot : Type := mkSnapshot {
  snap_devices : list Device.t;
  last_updated : Z
}.

(** How one protocol exchange of [sendCommand] settles.  An exchange that
    never settles (the peer closes the connection without data) is outside
    the model. *)
Inductive NetOutcome : Type :=
| NetReply (response : Js.value)       (* 'data', decrypted and parsed *)
| NetUnparsable (message : string)     (* 'data', [JSON.parse] threw *)
| NetError (message : string)          (* 'error' *)
| NetTimeout.                          (* 'timeout' *)

Record World : Type := mkWorld {
  devices : Registry;                  (* [registry.devices] *)
  net_log : list (string * Js.value);  (* commands handed to [sendCommand] *)
  disk_log : list Snapshot;            (* calls of [writeFileSync] *)
  disk : option Snapshot;              (* the snapshot file *)
  ticks : nat                          (* evaluations of [new Date()] *)
}.

(** Everything outside the program: the clock, the devices on the network,
    the file system, and the floating-point colour conversion
    [KasaDevice.rgbToHsv], whose hue and saturation are taken as given. *)
Class Environment : Type := mkEnvironment {
  clock : nat -> Z;
  exchange : list (string * Js.value) -> string -> Js.value -> NetOutcome;
  disk_ok : nat -> bool;
  rgbToHsv : Z -> Z -> Z -> Z * Z
}.

(** ** A state-and-exception monad *)

Inductive result (A : Type) : Type :=
| Ok (a : A)
| Throw (message : string).
Arguments Ok {A} a.
Arguments Throw {A} message.

Definition M (A : Type) : Type := World -> result A * World.

Definition ret {A : Type} (a : A) : M A := fun w => (Ok a, w).

Definition throw {A : Type} (message : string) : M A :=
  fun w => (Throw message, w).

Definition bind {A B : Type} (c : M A) (k : A -> M B) : M B :=
  fun w =>
    match c w with
    | (Ok a, w') => k a w'
    | (Throw e, w') => (Throw e, w')
    end.

(** [try { body } catch (error) { handler(error.message) }]. *)
Definition try_catch {A : Type} (body : M A) (handler : string -> M A) : M A :=
  fun w =>
    match body w with
    | (Ok a, w') => (Ok a, w')
    | (Throw e, w') => handler e w'
    end.

Declare Scope monad_scope.
Delimit Scope monad_scope with monad.
Notation "x <- c ;; k" := (bind c (fun x => k))
  (at level 61, c at next level, right associativity) : monad_scope.
Notation "c ;;; k" := (bind c (fun _ => k))
  (at level 61, right associativity) : monad_scope.
Local Open Scope monad_scope.

Section Program.

Context {env : Environment}.

(** [new Date()]. *)
Definition new_Date : M Z :=
  fun w =>
    (Ok (clock (ticks w)),
     mkWorld (devices w) (net_log w) (disk_log w) (disk w) (S (ticks w))).

(* ================================================================== *)
(** * The Kasa adapter (devices/kasa.ts) *)
(* ================================================================== *)

Record KasaDevice : Type := mkKasaDevice {
  kasa_ip : string;
  kasa_port : Z;
  kasa_timeout : Z
}.

Definition new_KasaDevice (ip : string) : KasaDevice :=
  mkKasaDevice ip 9999 5000.

(** [sendCommand]: one exchange with the device at [this.ip].  The command
    is logged, then the promise settles as the network decides. *)
Definition sendCommand (self : KasaDevice) (command : Js.value) : M Js.value :=
  fun w =>
    let w' := mkWorld (devices w) (net_log w ++ [(kasa_ip self, command)])
                      (disk_log w) (disk w) (ticks w) in
    match exchange (net_log w) (kasa_ip self) command with
    | NetReply response => (Ok response, w')
    | NetUnparsable message =>
        (Throw ("Failed to parse response: " ++ message)%string, w')
    | NetError message => (Throw ("Connection error: " ++ message)%string, w')
    | NetTimeout => (Throw "Connection timeout"%string, w')
    end.

(** [response.system]: a [TypeError] when [response] is [null]. *)
Definition member (v : Js.value) (key : string) : M Js.jsval :=
  match v with
  | Js.JNull =>
      throw ("Cannot read properties of null (reading '" ++ key ++ "')")%string
  | _ => ret (Js.get v key)
  end.

Definition cmd_get_sysinfo : Js.value :=
  Js.JObj [("system"%string, Js.JObj [("get_sysinfo"%string, Js.JObj [])])].

Definition cmd_set_relay_state (state : Z) : Js.value :=
  Js.JObj [("system"%string,
            Js.JObj [("set_relay_state"%string,
                      Js.JObj [("state"%string, Js.JNum state)])])].

Definition cmd_transition_light_state (fields : list (string * Js.value))
  : Js.value :=
  Js.JObj [("smartlife.iot.smartbulb.lightingservice"%string,
            Js.JObj [("transition_light_state"%string, Js.JObj fields)])].

Definition getDeviceInfo (self : KasaDevice) : M Js.value :=
  sendCommand self cmd_get_sysinfo.

Definition turnOn (self : KasaDevice) : M unit :=
  response <- sendCommand self (cmd_set_relay_state 1) ;;
  system <- member response "system" ;;
  if negb (Js.is_num
             (Js.get_opt (Js.get_opt system "set_relay_state") "err_code") 0)
  then throw "Failed to turn on device"
  else ret tt.

Definition turnOff (self : KasaDevice) : M unit :=
  response <- sendCommand self (cmd_set_relay_state 0) ;;
  system <- member response "system" ;;
  if negb (Js.is_num
             (Js.get_opt (Js.get_opt system "set_relay_state") "err_code") 0)
  then throw "Failed to turn off device"
  else ret tt.

Definition setBrightness (self : KasaDevice) (brightness : Z) : M unit :=
  if (brightness <? 0) || (brightness >? 100)
  then throw "Brightness must be between 0 and 100"
  else
    sendCommand self
      (cmd_transition_light_state
         [("brightness"%string, Js.JNum brightness);
          ("ignore_default"%string, Js.JNum 1)]) ;;;
    ret tt.

(** The tail shared by [setColor] and [setColorTemperature]: the optional
    brightness is validated, added to the command, and the command sent. *)
Definition send_light_state (self : KasaDevice)
  (fields : list (string * Js.value)) (brightness : option Z) : M unit :=
  match brightness with
  | Some level =>
      if (level <? 0) || (level >? 100)
      then throw "Brightness must be between 0 and 100"
      else
        sendCommand self
          (cmd_transition_light_state
             (fields ++ [("brightness"%string, Js.JNum level)])) ;;;
        ret tt
  | None =>
      sendCommand self (cmd_transition_light_state fields) ;;;
      ret tt
  end.

Definition setColor (self : KasaDevice) (hue saturation : Z)
  (brightness : option Z) : M unit :=
  if (hue <? 0) || (hue >? 360)
  then throw "Hue must be between 0 and 360"
  else if (saturation <? 0) || (saturation >? 100)
  then throw "Saturation must be between 0 and 100"
  else
    send_light_state self
      [("hue"%string, Js.JNum hue);
       ("saturation"%string, Js.JNum saturation);
       ("ignore_default"%string, Js.JNum 1)]
      brightness.

Definition setColorTemperature (self : KasaDevice) (colorTemp : Z)
  (brightness : option Z) : M unit :=
  if (colorTemp <? 2500) || (colorTemp >? 9000)
  then throw "Color temperature must be between 2500K and 9000K"
  else
    send_light_state self
      [("color_temp"%string, Js.JNum colorTemp);
       ("ignore_default"%string, Js.JNum 1)]
      brightness.

Definition setRGBColor (self : KasaDevice) (r g b : Z)
  (brightness : option Z) : M unit :=
  if (r <? 0) || (r >? 255) || (g <? 0) || (g >? 255)
     || (b <? 0) || (b >? 255)
  then throw "RGB values must be between 0 and 255"
  else
    let (h, s) := rgbToHsv r g b in
    setColor self h s brightness.

(** The part of [control] after the [switch]: "Apply additional settings
    for bulbs". *)
Definition apply_settings (self : KasaDevice)
  (request : DeviceControlRequest.t) : M unit :=
  let brightness := DeviceControlRequest.brightness request in
  match DeviceControlRequest.color request with
  | Some c => setRGBColor self (r c) (g c) (b c) brightness
  | None =>
      match DeviceControlRequest.hue request,
            DeviceControlRequest.saturation request with
      | Some hue, Some saturation => setColor self hue saturation brightness
      | _, _ =>
          match DeviceControlRequest.color_temp request with
          | Some color_temp =>
              if negb (color_temp =? 0)
              then setColorTemperature self color_temp brightness
              else match brightness with
                   | Some level => setBrightness self level
                   | None => ret tt
                   end
          | None =>
              match brightness with
              | Some level => setBrightness self level
              | None => ret tt
              end
          end
      end
  end.

(** [control]: the [switch] on the action; [return] leaves the function,
    [break] falls through to [apply_settings]. *)
Definition control (self : KasaDevice) (request : DeviceControlRequest.t)
  : M unit :=
  match DeviceControlRequest.action request with
  | action_on =>
      turnOn self ;;;
      apply_settings self request
  | action_off =>
      turnOff self
  | action_toggle =>
      info <- getDeviceInfo self ;;
      system <- member info "system" ;;
      let sysinfo := Js.get_opt system "get_sysinfo" in
      let currentState :=
        Js.or (Js.get_opt sysinfo "relay_state")
              (Js.get_opt (Js.get_opt sysinfo "light_state") "on_off") in
      if Js.is_num currentState 1
      then turnOff self
      else turnOn self ;;;
           apply_settings self request
  end.

(** The decoding done by [getState] once [sysinfo] is known to be truthy. *)
Definition decode_state (sysinfo : Js.jsval) : DeviceState.t :=
  match Js.get_opt sysinfo "relay_state" with
  | Some relay_state =>
      DeviceState.mk
        (Some (if Js.is_num (Some relay_state) 1 then power_on else power_off))
        None None None None None
  | None =>
      let light_state := Js.get_opt sysinfo "light_state" in
      if Js.truthy light_state then
        DeviceState.mk
          (Some (if Js.is_num (Js.get_opt light_state "on_off") 1
                 then power_on else power_off))
          (Js.get_opt light_state "brightness")
          None
          (Js.get_opt light_state "hue")
          (Js.get_opt light_state "saturation")
          (Js.get_opt light_state "color_temp")
      else DeviceState.empty
  end.

Definition getState (self : KasaDevice) : M DeviceState.t :=
  info <- getDeviceInfo self ;;
  system <- member info "system" ;;
  let sysinfo := Js.get_opt system "get_sysinfo" in
  if negb (Js.truthy sysinfo)
  then throw "Unable to get device info"
  else ret (decode_state sysinfo).

Definition testConnection (self : KasaDevice) : M bool :=
  try_catch (getDeviceInfo self ;;; ret true) (fun _ => ret false).

(* ================================================================== *)
(** * The device registry (services/device-registry.ts) *)
(* ================================================================== *)

Definition get_devices : M Registry := fun w => (Ok (devices w), w).

Definition put_devices (m : Registry) : M unit :=
  fun w => (Ok tt, mkWorld m (net_log w) (disk_log w) (disk w) (ticks w)).

(** [writeFileSync(this.registryPath, JSON.stringify(registry, null, 2))]:
    the attempt is logged; it replaces the file or throws. *)
Definition writeFileSync (registry : Snapshot) : M unit :=
  fun w =>
    if disk_ok (List.length (disk_log w)) then
      (Ok tt, mkWorld (devices w) (net_log w) (disk_log w ++ [registry])
                      (Some registry) (ticks w))
    else
      (Throw "writeFileSync failed"%string,
       mkWorld (devices w) (net_log w) (disk_log w ++ [registry])
               (disk w) (ticks w)).

(** [saveRegistry]: a failed write is caught and only logged to the console. *)
Definition saveRegistry : M unit :=
  try_catch
    (m <- get_devices ;;
     now <- new_Date ;;
     writeFileSync (mkSnapshot (map_values m) now))
    (fun _ => ret tt).

Definition getAllDevices (m : Registry) : list Device.t := map_values m.

Definition getDevice (id : string) : M (option Device.t) :=
  m <- get_devices ;;
  ret (map_get id m).

(** [s.toLowerCase()] on code units below 256, as far as
    [replace(/[^a-z0-9]/g, '')] can tell: only A-Z become a-z. *)
Definition lower_ascii (c : ascii) : ascii :=
  let n := nat_of_ascii c in
  if (65 <=? n)%nat && (n <=? 90)%nat then ascii_of_nat (n + 32) else c.

Fixpoint toLowerCase (s : string) : string :=
  match s with
  | EmptyString => EmptyString
  | String c rest => String (lower_ascii c) (toLowerCase rest)
  end.

(** The character class [[a-z0-9]]. *)
Definition is_alnum (c : ascii) : bool :=
  let n := nat_of_ascii c in
  ((97 <=? n)%nat && (n <=? 122)%nat) || ((48 <=? n)%nat && (n <=? 57)%nat).

(** [s.replace(/[^a-z0-9]/g, '')]. *)
Fixpoint strip_non_alnum (s : string) : string :=
  match s with
  | EmptyString => EmptyString
  | String c rest =>
      if is_alnum c then String c (strip_non_alnum rest)
      else strip_non_alnum rest
  end.

Definition normalize (s : string) : string := strip_non_alnum (toLowerCase s).

Fixpoint startsWith (s sub : string) : bool :=
  match sub, s with
  | EmptyString, _ => true
  | String _ _, EmptyString => false
  | String a sub', String c s' => Ascii.eqb a c && startsWith s' sub'
  end.

(** [s.includes(sub)]. *)
Fixpoint includes (s sub : string) : bool :=
  startsWith s sub ||
  match s with
  | EmptyString => false
  | String _ s' => includes s' sub
  end.

(** The predicate passed to [find] by [getDeviceByName]. *)
Definition name_matches (normalizedName : string) (device : Device.t) : bool :=
  let deviceName := normalize (Device.name device) in
  let deviceAlias :=
    match Device.alias device with
    | Some alias => normalize alias
    | None => EmptyString
    end in
  let deviceId := normalize (Device.id device) in
  includes deviceName normalizedName ||
  includes deviceAlias normalizedName ||
  includes deviceId normalizedName ||
  includes normalizedName deviceName ||
  includes normalizedName deviceAlias ||
  includes normalizedName deviceId.

Definition getDeviceByName (name : string) (m : Registry) : option Device.t :=
  let normalizedName := normalize name in
  List.find (name_matches normalizedName) (map_values m).

(** [device.online === false]. *)
Definition online_is_false (device : Device.t) : bool :=
  match Device.online device with
  | Some false => true
  | _ => false
  end.

Definition getOnlineDevices (m : Registry) : list Device.t :=
  List.filter (fun device => negb (online_is_false device)) (map_values m).

Definition addDevice (device : Device.t) : M unit :=
  m <- get_devices ;;
  now <- new_Date ;;
  put_devices
    (map_set (Device.id device) (Device.set_lastSeen (Some now) device) m) ;;;
  saveRegistry.

Definition updateDevice (id : string) (updates : PartialDevice.t) : M bool :=
  m <- get_devices ;;
  match map_get id m with
  | None => ret false
  | Some device =>
      now <- new_Date ;;
      put_devices
        (map_set id (Device.set_lastSeen (Some now) (spread device updates)) m) ;;;
      saveRegistry ;;;
      ret true
  end.

Definition removeDevice (id : string) : M bool :=
  m <- get_devices ;;
  let (m', deleted) := map_delete id m in
  put_devices m' ;;;
  (if deleted then saveRegistry else ret tt) ;;;
  ret deleted.

Definition setDeviceOnlineStatus (id : string) (online : bool) : M bool :=
  m <- get_devices ;;
  match map_get id m with
  | None => ret false
  | Some device =>
      let device := Device.set_online (Some online) device in
      now <- new_Date ;;
      let device := Device.set_lastSeen (Some now) device in
      put_devices (map_set id device m) ;;;
      saveRegistry ;;;
      ret true
  end.

Definition updateDeviceState (id : string) (state : DeviceState.t) : M bool :=
  m <- get_devices ;;
  match map_get id m with
  | None => ret false
  | Some device =>
      let device := Device.set_state (Some state) device in
      now <- new_Date ;;
      let device := Device.set_lastSeen (Some now) device in
      put_devices (map_set id device m) ;;;
      saveRegistry ;;;
      ret true
  end.

(** ** Aggregate statistics *)

(** The properties holding a function that every plain object inherits
    from [Object.prototype]. *)
Definition prototype_functions : list string :=
  ["constructor"; "__defineGetter__"; "__defineSetter__"; "hasOwnProperty";
   "__lookupGetter__"; "__lookupSetter__"; "isPrototypeOf";
   "propertyIsEnumerable"; "toString"; "valueOf"; "toLocaleString"]%string.

Definition is_prototype_function (key : string) : bool :=
  existsb (String.eqb key) prototype_functions.

(** The own property [key] of a plain object. *)
Fixpoint own (key : string) (record : Counter) : option Tally :=
  match record with
  | [] => None
  | (k, v) :: rest => if String.eqb key k then Some v else own key rest
  end.

(** The number spelled by a string of decimal digits. *)
Fixpoint digits_value (s : string) (acc : N) : option N :=
  match s with
  | EmptyString => Some acc
  | String c rest =>
      let n := nat_of_ascii c in
      if (48 <=? n)%nat && (n <=? 57)%nat
      then digits_value rest (10 * acc + N.of_nat (n - 48))%N
      else None
  end.

(** A key is an array index when it is the canonical decimal form of an
    integer from 0 to 2^32 - 2. *)
Definition array_index (key : string) : option N :=
  match key with
  | EmptyString => None
  | String c rest =>
      if Ascii.eqb c "0" && negb (String.eqb rest EmptyString) then None
      else match digits_value key 0 with
           | Some n => if (n <=? 4294967294)%N then Some n else None
           | None => None
           end
  end.

(** A new own property whose key is the array index [i]: array indices
    come first, in ascending order. *)
Fixpoint insert_index (i : N) (key : string) (value : Tally)
  (record : Counter) : Counter :=
  match record with
  | [] => [(key, value)]
  | (k, v) :: rest =>
      match array_index k with
      | Some j =>
          if (j <? i)%N then (k, v) :: insert_index i key value rest
          else (key, value) :: (k, v) :: rest
      | None => (key, value) :: (k, v) :: rest
      end
  end.

(** An own property that exists gets a new value where it stands. *)
Fixpoint replace (key : string) (value : Tally) (record : Counter) : Counter :=
  match record with
  | [] => []
  | (k, v) :: rest =>
      if String.eqb key k then (k, value) :: rest
      else (k, v) :: replace key value rest
  end.

(** [record[key] = value] for a key other than ['__proto__']: an own
    property is replaced; a new one is created, after the other keys in
    order of creation unless the key is an array index. *)
Definition define (key : string) (value : Tally) (record : Counter) : Counter :=
  match own key record with
  | Some _ => replace key value record
  | None =>
      match array_index key with
      | Some i => insert_index i key value record
      | None => record ++ [(key, value)]
      end
  end.

(** [record[key] = (record[key] || 0) + 1] on a plain object.
    - ['__proto__'] reads as the prototype object, which is truthy; [+ 1]
      makes a string of it, and the setter ignores a string: nothing is
      stored.
    - An own number [n] becomes [(n || 0) + 1]; an own string gets one
      more character.
    - Without own property the read goes to [Object.prototype]: for the
      name of an inherited function the function is truthy and [+ 1] makes
      a string of it; for any other key the read is [undefined] and the
      result is [0 + 1]. *)
Definition bump (key : string) (record : Counter) : Counter :=
  if String.eqb key "__proto__" then record
  else
    match own key record with
    | Some (Count n) => define key (Count ((if n =? 0 then 0 else n) + 1)) record
    | Some (Text k) => define key (Text (S k)) record
    | None =>
        if is_prototype_function key then define key (Text 1) record
        else define key (Count (0 + 1)) record
    end.

(** One iteration of the [for] loop of [getStats]. *)
Definition count_device (stats : Stats.t) (device : Device.t) : Stats.t :=
  let room :=
    match Device.room device with
    | Some room => if String.eqb room EmptyString then "unknown"%string else room
    | None => "unknown"%string
    end in
  Stats.mk
    (Stats.total stats)
    (bump (DeviceType_name (Device.type device)) (Stats.byType stats))
    (bump (Brand_name (Device.brand device)) (Stats.byBrand stats))
    (bump room (Stats.byRoom stats))
    (if online_is_false device then Stats.online stats
     else Stats.online stats + 1)
    (if online_is_false device then Stats.offline stats + 1
     else Stats.offline stats).

Definition getStats (m : Registry) : Stats.t :=
  let devices := map_values m in
  let stats := Stats.mk (Z.of_nat (List.length devices)) [] [] [] 0 0 in
  List.fold_left count_device devices stats.

(* ================================================================== *)
(** * The control surface (the express application) *)
(* ================================================================== *)

Definition createResponse (success : bool) (data : option Payload)
  (error : option string) : M ApiResponse :=
  now <- new_Date ;;
  ret (mkApiResponse success data error now).

(** [res.status(code).json(createResponse(success, data, error))]. *)
Definition respond (code : Z) (success : bool) (data : option Payload)
  (error : option string) : M HttpResponse :=
  envelope <- createResponse success data error ;;
  ret (mkHttp code envelope).

Definition getDeviceController (device : Device.t) : M KasaDevice :=
  match Device.brand device with
  | kasa => ret (new_KasaDevice (Device.ip device))
  | tuya => throw "Tuya devices not yet supported"
  | unknown =>
      throw ("Unsupported device brand: " ++ Brand_name (Device.brand device))%string
  end.

(** [POST /api/devices/:id/control]; [id] is [req.params.id] and
    [controlRequest] is [req.body]. *)
Definition control_handler (id : string)
  (controlRequest : DeviceControlRequest.t) : M HttpResponse :=
  try_catch
    (device <- getDevice id ;;
     match device with
     | None => respond 404 false None (Some "Device not found"%string)
     | Some device =>
         controller <- getDeviceController device ;;
         control controller controlRequest ;;;
         state <- getState controller ;;
         updateDeviceState (Device.id device) state ;;;
         setDeviceOnlineStatus (Device.id device) true ;;;
         respond 200 true
           (Some (ControlData (Device.name device)
                    (DeviceControlRequest.action controlRequest) state))
           None
     end)
    (fun message =>
       setDeviceOnlineStatus id false ;;;
       respond 500 false None (Some message)).

(** [level] of [POST /api/devices/:id/brightness] when [typeof level] is
    ['number'] and the level is within range. *)
Definition valid_level (level : Js.jsval) : option Z :=
  match level with
  | Some (Js.JNum n) => if (n <? 0) || (n >? 100) then None else Some n
  | _ => None
  end.

(** [POST /api/devices/:id/brightness]; [level] is [req.body.level]. *)
Definition brightness_handler (id : string) (level : Js.jsval)
  : M HttpResponse :=
  try_catch
    (device <- getDevice id ;;
     match device with
     | None => respond 404 false None (Some "Device not found"%string)
     | Some device =>
         if negb (includes_capability (Device.capabilities device)
                    cap_brightness)
         then respond 400 false None
                (Some "Device does not support brightness control"%string)
         else
           match valid_level level with
           | None =>
               respond 400 false None
                 (Some "Brightness level must be between 0 and 100"%string)
           | Some level =>
               controller <- getDeviceController device ;;
               setBrightness controller level ;;;
               currentState <- getState controller ;;
               updateDeviceState (Device.id device) currentState ;;;
               setDeviceOnlineStatus (Device.id device) true ;;;
               respond 200 true
                 (Some (BrightnessData (Device.name device) level
                          currentState))
                 None
           end
     end)
    (fun message =>
       setDeviceOnlineStatus id false ;;;
       respond 500 false None (Some message)).

End Program.


(* ================================================================== *)
(** * The rest of the registry, the adapter and the control surface *)
(* ================================================================== *)

(** ** Strings *)

(** [s.toLowerCase()] on code units below 256: A-Z and the capital letters
    of Latin-1 (U+00C0 to U+00DE, without the multiplication sign) move up
    by 32. *)
Definition lower_latin1 (c : ascii) : ascii :=
  let n := nat_of_ascii c in
  if ((65 <=? n)%nat && (n <=? 90)%nat)
     || ((192 <=? n)%nat && (n <=? 214)%nat)
     || ((216 <=? n)%nat && (n <=? 222)%nat)
  then ascii_of_nat (n + 32) else c.

Fixpoint toLowerCase_latin1 (s : string) : string :=
  match s with
  | EmptyString => EmptyString
  | String c rest => String (lower_latin1 c) (toLowerCase_latin1 rest)
  end.

(** The double quote, for messages that contain one. *)
Definition dquote : string := String (ascii_of_nat 34) EmptyString.

(** ** Registry queries *)

Definition getDeviceByIP (ip : string) (m : Registry) : option Device.t :=
  List.find (fun device => String.eqb (Device.ip device) ip) (map_values m).

(** [device.room?.toLowerCase() === room.toLowerCase()]. *)
Definition room_is (room : string) (device : Device.t) : bool :=
  match Device.room device with
  | Some r => String.eqb (toLowerCase_latin1 r) (toLowerCase_latin1 room)
  | None => false
  end.

Definition getDevicesByRoom (room : string) (m : Registry) : list Device.t :=
  List.filter (room_is room) (map_values m).

Definition getDevicesByType (type : DeviceType) (m : Registry)
  : list Device.t :=
  List.filter (fun device => DeviceType_eqb (Device.type device) type)
              (map_values m).

Definition getDevicesByBrand (brand : Brand) (m : Registry) : list Device.t :=
  List.filter (fun device => Brand_eqb (Device.brand device) brand)
              (map_values m).

(** [field?.toLowerCase().includes(normalizedQuery)], [undefined] (falsy)
    for an absent field. *)
Definition optional_includes (field : option string) (normalizedQuery : string)
  : bool :=
  match field with
  | Some s => includes (toLowerCase_latin1 s) normalizedQuery
  | None => false
  end.

(** The predicate passed to [filter] by [searchDevices]. *)
Definition search_matches (normalizedQuery : string) (device : Device.t)
  : bool :=
  includes (toLowerCase_latin1 (Device.name device)) normalizedQuery ||
  optional_includes (Device.alias device) normalizedQuery ||
  includes (toLowerCase_latin1 (Device.id device)) normalizedQuery ||
  optional_includes (Device.room device) normalizedQuery ||
  optional_includes (Device.model device) normalizedQuery ||
  includes (toLowerCase_latin1 (DeviceType_name (Device.type device)))
           normalizedQuery ||
  includes (toLowerCase_latin1 (Brand_name (Device.brand device)))
           normalizedQuery.

Definition searchDevices (query : string) (m : Registry) : list Device.t :=
  let normalizedQuery := toLowerCase_latin1 query in
  List.filter (search_matches normalizedQuery) (map_values m).

(** ** Loading the snapshot *)

(** The [for] loop of [loadRegistry]: [this.devices.set(device.id, device)]
    for each device of the snapshot. *)
Definition load_devices (snapshot : list Device.t) (m : Registry) : Registry :=
  List.fold_left (fun m device => map_set (Device.id device) device m)
                 snapshot m.

(** [loadRegistry]: a missing file makes [readFileSync] throw, which is
    caught and leaves the map as it is.  The JSON text is not modelled: the
    file holds the devices that [saveRegistry] wrote. *)
Definition loadRegistry : M unit :=
  fun w =>
    match disk w with
    | Some registry =>
        (Ok tt,
         mkWorld (load_devices (snap_devices registry) (devices w))
                 (net_log w) (disk_log w) (disk w) (ticks w))
    | None => (Ok tt, w)
    end.

(** [new DeviceRegistry()]: an empty map, then [loadRegistry]. *)
Definition new_DeviceRegistry : M unit :=
  fun w =>
    loadRegistry (mkWorld [] (net_log w) (disk_log w) (disk w) (ticks w)).

(** ** [KasaDevice.fromDeviceInfo] *)

(** The object that [fromDeviceInfo] returns; the fields copied from the
    reply hold whatever the device sent. *)
Module DiscoveredDevice.
Record t : Type := mk {
  mac : Js.jsval;
  name : Js.jsval;
  alias : Js.jsval;
  type : DeviceType;
  brand : Brand;
  model : Js.jsval;
  ip : string;
  capabilities : list DeviceCapability;
  deviceId : Js.jsval;
  sw_ver : Js.jsval;
  hw_ver : Js.jsval;
  features : DeviceFeatures
}.
End DiscoveredDevice.

(** [xs.includes('SMARTBULB')] on an array. *)
Fixpoint array_includes (needle : string) (items : list Js.value) : bool :=
  match items with
  | [] => false
  | Js.JStr s :: rest => String.eqb s needle || array_includes needle rest
  | _ :: rest => array_includes needle rest
  end.

(** [sysinfo.mic_type?.includes('SMARTBULB') ? 'light' : 'plug']: a string
    or an array has an [includes] method, [null] and [undefined] stop the
    chain, anything else makes the call a [TypeError]. *)
Definition type_of_mic_type (mic_type : Js.jsval) : result DeviceType :=
  match mic_type with
  | None | Some Js.JNull => Ok plug
  | Some (Js.JStr s) => Ok (if includes s "SMARTBULB" then light else plug)
  | Some (Js.JArr items) =>
      Ok (if array_includes "SMARTBULB" items then light else plug)
  | Some (Js.JBool _) | Some (Js.JNum _) | Some (Js.JObj _) =>
      Throw "sysinfo.mic_type?.includes is not a function"
  end.

(** The [capabilities] array: ['power'], then one [push] per flag. *)
Definition capabilities_of (sysinfo : Js.jsval) : list DeviceCapability :=
  [cap_power]
  ++ (if Js.is_num (Js.get_opt sysinfo "is_dimmable") 1
      then [cap_brightness] else [])
  ++ (if Js.is_num (Js.get_opt sysinfo "is_color") 1
      then [cap_color] else [])
  ++ (if Js.is_num (Js.get_opt sysinfo "is_variable_color_temp") 1
      then [cap_color_temp] else []).

Definition fromDeviceInfo (ip : string) (info : Js.value)
  : result DiscoveredDevice.t :=
  match info with
  | Js.JNull => Throw "Cannot read properties of null (reading 'system')"
  | _ =>
      let sysinfo := Js.get_opt (Js.get info "system") "get_sysinfo" in
      if negb (Js.truthy sysinfo)
      then Throw "Invalid device info response"
      else
        let capabilities := capabilities_of sysinfo in
        match type_of_mic_type (Js.get_opt sysinfo "mic_type") with
        | Throw message => Throw message
        | Ok type =>
            Ok (DiscoveredDevice.mk
                  (Js.get_opt sysinfo "mac")
                  (Js.or (Js.get_opt sysinfo "alias")
                         (Js.get_opt sysinfo "dev_name"))
                  (Js.get_opt sysinfo "alias")
                  type
                  kasa
                  (Js.get_opt sysinfo "model")
                  ip
                  capabilities
                  (Js.get_opt sysinfo "deviceId")
                  (Js.get_opt sysinfo "sw_ver")
                  (Js.get_opt sysinfo "hw_ver")
                  (mkFeatures
                     (Some (Js.is_num (Js.get_opt sysinfo "is_dimmable") 1))
                     (Some (Js.is_num (Js.get_opt sysinfo "is_color") 1))
                     (Some (Js.is_num
                              (Js.get_opt sysinfo "is_variable_color_temp")
                              1))))
        end
  end.

(** ** The other endpoints *)

(** [ApiResponse<T>] and the response that carries it, for the endpoints
    whose [data] is not a [Payload]. *)
Record ApiResponseOf (T : Type) : Type := mkApiResponseOf {
  success_of : bool;
  data_of : option T;
  error_of : option string;
  timestamp_of : Z
}.
Arguments mkApiResponseOf {T} _ _ _ _.
Arguments success_of {T} _.
Arguments data_of {T} _.
Arguments error_of {T} _.
Arguments timestamp_of {T} _.

Record HttpResponseOf (T : Type) : Type := mkHttpOf {
  status_of : Z;
  body_of : ApiResponseOf T
}.
Arguments mkHttpOf {T} _ _.
Arguments status_of {T} _.
Arguments body_of {T} _.

(** [data] of [POST /api/devices/:id/power]. *)
Record PowerData : Type := mkPowerData {
  power_device : string;
  power_state : PowerState;
  power_currentState : DeviceState.t
}.

(** [data] of [POST /api/devices/:id/color]. *)
Record ColorData : Type := mkColorData {
  color_device : string;
  color_color : RGB;
  color_brightness : option Z;
  color_currentState : DeviceState.t
}.

(** A query parameter that is present and not the empty string. *)
Definition given (parameter : option string) : option string :=
  match parameter with
  | Some s => if String.eqb s EmptyString then None else Some s
  | None => None
  end.

(** [d.online === isOnline]. *)
Definition online_equals (isOnline : bool) (device : Device.t) : bool :=
  match Device.online device with
  | Some flag => Bool.eqb flag isOnline
  | None => false
  end.

(** The filters of [GET /api/devices], applied in the order of the source. *)
Definition list_filters (room type brand online : option string)
  (devices : list Device.t) : list Device.t :=
  let devices :=
    match given room with
    | Some room => List.filter (room_is room) devices
    | None => devices
    end in
  let devices :=
    match given type with
    | Some type =>
        List.filter
          (fun d => String.eqb (DeviceType_name (Device.type d)) type) devices
    | None => devices
    end in
  let devices :=
    match given brand with
    | Some brand =>
        List.filter
          (fun d => String.eqb (Brand_name (Device.brand d)) brand) devices
    | None => devices
    end in
  match online with
  | Some online =>
      let isOnline := String.eqb online "true" in
      List.filter (online_equals isOnline) devices
  | None => devices
  end.

(** [state] of the power request when it is ['on'] or ['off']. *)
Definition valid_power (state : Js.jsval) : option PowerState :=
  match state with
  | Some (Js.JStr s) =>
      if String.eqb s "on" then Some power_on
      else if String.eqb s "off" then Some power_off
      else None
  | _ => None
  end.

(** A colour channel of the colour request when it is a number in
    [0, 255]. *)
Definition valid_channel (v : Js.jsval) : option Z :=
  match v with
  | Some (Js.JNum n) => if (n <? 0) || (n >? 255) then None else Some n
  | _ => None
  end.

(** The three channels of the colour request when all are valid. *)
Definition valid_rgb (r g b : Js.jsval) : option RGB :=
  match valid_channel r, valid_channel g, valid_channel b with
  | Some r, Some g, Some b => Some (mkRGB r g b)
  | _, _, _ => None
  end.

(** The optional brightness of the colour request: [None] when it is
    present and not a number in [0, 100]. *)
Definition valid_optional_brightness (brightness : Js.jsval)
  : option (option Z) :=
  match brightness with
  | None => Some None
  | Some (Js.JNum n) =>
      if (n <? 0) || (n >? 100) then None else Some (Some n)
  | Some _ => None
  end.

Section Endpoints.

Context {env : Environment}.

Definition respond_with {T : Type} (code : Z) (success : bool)
  (data : option T) (error : option string) : M (HttpResponseOf T) :=
  now <- new_Date ;;
  ret (mkHttpOf code (mkApiResponseOf success data error now)).

(** [GET /api/devices]. *)
Definition list_handler (room type brand online : option string)
  : M (HttpResponseOf (list Device.t)) :=
  try_catch
    (m <- get_devices ;;
     respond_with 200 true
       (Some (list_filters room type brand online (getAllDevices m))) None)
    (fun message => respond_with 500 false None (Some message)).

(** [GET /api/devices/search/:query]. *)
Definition search_handler (query : string)
  : M (HttpResponseOf (list Device.t)) :=
  try_catch
    (m <- get_devices ;;
     respond_with 200 true (Some (searchDevices query m)) None)
    (fun message => respond_with 500 false None (Some message)).

(** [GET /api/registry/stats]. *)
Definition stats_handler : M (HttpResponseOf Stats.t) :=
  try_catch
    (m <- get_devices ;;
     respond_with 200 true (Some (getStats m)) None)
    (fun message => respond_with 500 false None (Some message)).

(** An assignment to a field of [device], the object that the map holds
    under [id]: the map entry changes with it, nothing is saved. *)
Definition assign (id : string) (device : Device.t) : M unit :=
  m <- get_devices ;;
  put_devices (map_set id device m).

(** [GET /api/devices/:id].  [device] is the object stored under [id].
    After a successful poll it is assigned the state and [online = true],
    and [updateDevice] puts a fresh object in the map, so the response
    shows the assigned object.  After a failed poll it is assigned
    [online = false] and [setDeviceOnlineStatus] works on the object stored
    under [device.id]; the response shows the object stored under [id] as
    it is then. *)
Definition get_device_handler (id : string)
  : M (HttpResponseOf Device.t) :=
  try_catch
    (device <- getDevice id ;;
     match device with
     | None => respond_with 404 false None (Some "Device not found"%string)
     | Some device =>
         shown <-
           try_catch
             (controller <- getDeviceController device ;;
              state <- getState controller ;;
              let device :=
                Device.set_online (Some true)
                  (Device.set_state (Some state) device) in
              assign id device ;;;
              updateDevice (Device.id device)
                (PartialDevice.mk None None None None None None None None
                   None None None None None None None
                   (Some (Some true)) None (Some (Some state))) ;;;
              ret device)
             (fun _ =>
                let device := Device.set_online (Some false) device in
                assign id device ;;;
                setDeviceOnlineStatus (Device.id device) false ;;;
                stored <- getDevice id ;;
                ret (match stored with
                     | Some stored => stored
                     | None => device
                     end)) ;;
         respond_with 200 true (Some shown) None
     end)
    (fun message => respond_with 500 false None (Some message)).

(** [POST /api/devices/:id/power]; [state] is [req.body.state]. *)
Definition power_handler (id : string) (state : Js.jsval)
  : M (HttpResponseOf PowerData) :=
  try_catch
    (device <- getDevice id ;;
     match device with
     | None => respond_with 404 false None (Some "Device not found"%string)
     | Some device =>
         match valid_power state with
         | None =>
             respond_with 400 false None
               (Some ("State must be " ++ dquote ++ "on" ++ dquote ++ " or "
                      ++ dquote ++ "off" ++ dquote)%string)
         | Some state =>
             controller <- getDeviceController device ;;
             match state with
             | power_on => turnOn controller
             | power_off => turnOff controller
             end ;;;
             currentState <- getState controller ;;
             updateDeviceState (Device.id device) currentState ;;;
             setDeviceOnlineStatus (Device.id device) true ;;;
             respond_with 200 true
               (Some (mkPowerData (Device.name device) state currentState))
               None
         end
     end)
    (fun message =>
       setDeviceOnlineStatus id false ;;;
       respond_with 500 false None (Some message)).

(** [POST /api/devices/:id/color]; [r], [g], [b] and [brightness] are the
    fields of [req.body]. *)
Definition color_handler (id : string) (r g b brightness : Js.jsval)
  : M (HttpResponseOf ColorData) :=
  try_catch
    (device <- getDevice id ;;
     match device with
     | None => respond_with 404 false None (Some "Device not found"%string)
     | Some device =>
         if negb (includes_capability (Device.capabilities device) cap_color)
         then respond_with 400 false None
                (Some "Device does not support color control"%string)
         else
           match valid_rgb r g b with
           | None =>
               respond_with 400 false None
                 (Some "RGB values must be between 0 and 255"%string)
           | Some rgb =>
               match valid_optional_brightness brightness with
               | None =>
                   respond_with 400 false None
                     (Some "Brightness must be between 0 and 100"%string)
               | Some brightness =>
                   controller <- getDeviceController device ;;
                   (let (red, green, blue) := rgb in
                    setRGBColor controller red green blue brightness) ;;;
                   currentState <- getState controller ;;
                   updateDeviceState (Device.id device) currentState ;;;
                   setDeviceOnlineStatus (Device.id device) true ;;;
                   respond_with 200 true
                     (Some (mkColorData (Device.name device) rgb brightness
                              currentState))
                     None
               end
           end
     end)
    (fun message =>
       setDeviceOnlineStatus id false ;;;
       respond_with 500 false None (Some message)).

End Endpoints.

(* ================================================================== *)
(** * Vocabulary of the statements *)
(* ================================================================== *)

Definition cmd_power_on : Js.value := cmd_set_relay_state 1.
Definition cmd_power_off : Js.value := cmd_set_relay_state 0.


(** [info.system?.get_sysinfo] of a response that is not [null]. *)
Definition sysinfo_of (info : Js.value) : Js.jsval :=
  Js.get_opt (Js.get info "system") "get_sysinfo".




(** [w'] differs from [w] at most by its network log. *)
Definition same_registry (w w' : World) : Prop :=
  devices w' = devices w /\
  disk_log w' = disk_log w /\
  disk w' = disk w /\
  ticks w' = ticks w.

(** [c] changes nothing but the network log, which it only extends. *)
Definition network_only {A : Type} (c : M A) : Prop :=
  forall w, same_registry w (snd (c w)) /\
            exists sent, net_log (snd (c w)) = net_log w ++ sent.

(** A computation that touches nothing but the network, on which it sends
    lighting-service commands to [ip], at most one, and no relay command. *)
Definition light_only (ip : string) (sent : list (string * Js.value)) : Prop :=
  sent = [] \/
  exists fields, sent = [(ip, cmd_transition_light_state fields)].

(** The steps that the control handler runs under its [try]: construct the
    adapter, execute the command, poll the state. *)
Definition control_execution {env : Environment} (device : Device.t)
  (request : DeviceControlRequest.t) : M DeviceState.t :=
  (controller <- getDeviceController device ;;
   control controller request ;;;
   getState controller)%monad.


(** Some step of the control handler's execution fails with [message],
    leaving the world [w1]: the construction of the adapter, the command,
    or the state poll that follows it. *)
Definition control_step_fails {env : Environment} (device : Device.t)
  (request : DeviceControlRequest.t) (w : World) (message : string)
  (w1 : World) : Prop :=
  getDeviceController device w = (Throw message, w1) \/
  (exists controller w0,
      getDeviceController device w = (Ok controller, w0) /\
      control controller request w0 = (Throw message, w1)) \/
  (exists controller w0 w0',
      getDeviceController device w = (Ok controller, w0) /\
      control controller request w0 = (Ok tt, w0') /\
      getState controller w0' = (Throw message, w1)).


(** The world after one more reading of the clock. *)
Definition ticked (w : World) : World :=
  mkWorld (devices w) (net_log w) (disk_log w) (disk w) (S (ticks w)).

(** The failure envelope built at clock tick [t]. *)
Definition failure (code : Z) (message : string) {env : Environment}
  (t : nat) : HttpResponse :=
  mkHttp code (mkApiResponse false None (Some message) (clock t)).

(** The keys of a registry are distinct, as in any [Map]. *)
Definition wf_registry (m : Registry) : Prop := NoDup (List.map fst m).

(** [w'] differs from [w] by a registry content [m] and one run of
    [saveRegistry] that read the clock at tick [t]: the whole of [m] was
    handed to [writeFileSync], and reached the file if the write went
    through. *)
Definition saved_at {env : Environment} (t : nat) (m : Registry)
  (w w' : World) : Prop :=
  let snapshot := mkSnapshot (map_values m) (clock t) in
  devices w' = m /\
  disk_log w' = disk_log w ++ [snapshot] /\
  disk w' = (if disk_ok (List.length (disk_log w)) then Some snapshot
             else disk w) /\
  ticks w' = S t /\
  net_log w' = net_log w.

(** The claim of a refreshed last-seen stamp: after the operation the
    registry still holds the device, stamped with the clock reading taken
    during the operation. *)
Definition refreshes_lastSeen {env : Environment} (id : string)
  (w w' : World) : Prop :=
  exists device,
    map_get id (devices w') = Some device /\
    Device.lastSeen device = Some (clock (ticks w)).

(** [device.online !== false], the filter of [getOnlineDevices]. *)
Definition is_online (d : Device.t) : bool := negb (online_is_false d).

(** ** The fuzzy match, in the words of the specification *)

Definition substring (sub s : string) : Prop :=
  exists pre post, s = (pre ++ sub ++ post)%string.

(** Each of the two normalized strings may be the one contained. *)
Definition spec_related (normalized_q field : string) : Prop :=
  substring normalized_q (normalize field) \/
  substring (normalize field) normalized_q.

Definition spec_fuzzy_match (q : string) (d : Device.t) : Prop :=
  spec_related (normalize q) (Device.name d) \/
  (exists alias, Device.alias d = Some alias /\
                 spec_related (normalize q) alias) \/
  spec_related (normalize q) (Device.id d).

Definition has_alias (d : Device.t) : Prop := Device.alias d <> None.

(* ================================================================== *)
(** * Concrete devices, registries and environments *)
(* ================================================================== *)

Module Scenario.

Definition device (id name : string) (alias : option string) (brand : Brand)
  (capabilities : list DeviceCapability) (online : option bool) : Device.t :=
  Device.mk id None name alias light brand None "192.168.87.20"
            capabilities None None None None None None online None None.

Definition lamp : Device.t :=
  device "lamp" "Desk Lamp" (Some "Lamp"%string) kasa
         [cap_power; cap_brightness] None.

Definition world_of (m : Registry) : World := mkWorld m [] [] None 0.

Definition home : World := world_of [("lamp"%string, lamp)].

(** The reply of a bulb that is switched on. *)
Definition sysinfo_bulb_on : Js.value :=
  Js.JObj [("system"%string,
    Js.JObj [("get_sysinfo"%string,
      Js.JObj [("alias"%string, Js.JStr "Desk Lamp");
               ("light_state"%string,
                Js.JObj [("on_off"%string, Js.JNum 1);
                         ("brightness"%string, Js.JNum 50)]);
               ("err_code"%string, Js.JNum 0)])])].

(** The reply of a plug that is switched off. *)
Definition sysinfo_plug_off : Js.value :=
  Js.JObj [("system"%string,
    Js.JObj [("get_sysinfo"%string,
      Js.JObj [("alias"%string, Js.JStr "Heater Plug");
               ("relay_state"%string, Js.JNum 0);
               ("err_code"%string, Js.JNum 0)])])].

Definition relay_ok : Js.value :=
  Js.JObj [("system"%string,
    Js.JObj [("set_relay_state"%string,
      Js.JObj [("err_code"%string, Js.JNum 0)])])].

(** A well-formed reply of the lighting service that carries a vendor
    error code. *)
Definition light_state_error : Js.value :=
  Js.JObj [("smartlife.iot.smartbulb.lightingservice"%string,
    Js.JObj [("transition_light_state"%string,
      Js.JObj [("err_code"%string, Js.JNum (-10000));
               ("err_msg"%string, Js.JStr "Invalid parameter value")])])].

(** A well-formed reply to the relay command that carries a vendor error
    code. *)
Definition relay_error : Js.value :=
  Js.JObj [("system"%string,
    Js.JObj [("set_relay_state"%string,
      Js.JObj [("err_code"%string, Js.JNum (-1));
               ("err_msg"%string, Js.JStr "module not support")])])].

(** The operation named by a command: the key below its namespace. *)
Definition operation (command : Js.value) : string :=
  match command with
  | Js.JObj ((_, Js.JObj ((op, _) :: _)) :: _) => op
  | _ => EmptyString
  end.

(** A device that answers every command, reporting [info] when polled and
    [light] to lighting-service commands. *)
Definition answering (info light : Js.value)
  (log : list (string * Js.value)) (ip : string) (command : Js.value)
  : NetOutcome :=
  if String.eqb (operation command) "get_sysinfo" then NetReply info
  else if String.eqb (operation command) "set_relay_state"
  then NetReply relay_ok
  else NetReply light.

Definition no_conversion (r g b : Z) : Z * Z := (0, 0).

(** A bulb that is on and refuses lighting commands with an error code. *)
Definition refusing_bulb : Environment :=
  mkEnvironment Z.of_nat (answering sysinfo_bulb_on light_state_error)
                (fun _ => true) no_conversion.

(** A device that answers every command with a vendor error code. *)
Definition failing_device : Environment :=
  mkEnvironment Z.of_nat (fun _ _ _ => NetReply relay_error)
                (fun _ => true) no_conversion.

(** A plug that is off. *)
Definition idle_plug : Environment :=
  mkEnvironment Z.of_nat (answering sysinfo_plug_off light_state_error)
                (fun _ => true) no_conversion.

(** A network on which every exchange times out, and a disk that refuses
    every write. *)
Definition unreachable : Environment :=
  mkEnvironment Z.of_nat (fun _ _ _ => NetTimeout) (fun _ => false)
                no_conversion.

Definition controller : KasaDevice := new_KasaDevice "192.168.87.20".

Definition toggle_request : DeviceControlRequest.t :=
  DeviceControlRequest.mk action_toggle (Some 40) None None None None None.

Definition off_request : DeviceControlRequest.t :=
  DeviceControlRequest.mk action_off (Some 40) (Some (mkRGB 255 0 0))
                          (Some 2700) (Some 120) (Some 80) None.

(** Two lamps; both names contain the query "lamp". *)
Definition two_lamps : Registry :=
  [("desk"%string,
    device "desk" "Desk Lamp" (Some "Desk"%string) kasa [cap_power] None);
   ("floor"%string,
    device "floor" "Floor Lamp" (Some "Floor"%string) kasa [cap_power] None)].

(** A plug without alias ahead of a lamp. *)
Definition plug_then_lamp : Registry :=
  [("kitchen"%string,
    device "kitchen" "Kitchen Plug" None kasa [cap_power] None);
   ("bedroom"%string,
    device "bedroom" "Bedroom Lamp" (Some "Bed"%string) kasa [cap_power] None)].

End Scenario.

(* ================================================================== *)
(** * More vocabulary and concrete cases *)
(* ================================================================== *)

(** [w] after [sendCommand] handed [command] for [ip] to the network. *)
Definition sent_to (ip : string) (command : Js.value) (w : World) : World :=
  mkWorld (devices w) (net_log w ++ [(ip, command)]) (disk_log w) (disk w)
          (ticks w).

(** The error code of the relay section of a reply. *)
Definition relay_err_code (response : Js.value) : Js.jsval :=
  Js.get_opt (Js.get_opt (Js.get response "system") "set_relay_state")
             "err_code".

(** Every device is stored under its own id. *)
Definition keyed_by_id (m : Registry) : Prop :=
  Forall (fun entry => fst entry = Device.id (snd entry)) m.

(** What one more [bump] of [key] makes of the own property [key]. *)
Definition next_tally (key : string) (current : option Tally) : option Tally :=
  if String.eqb key "__proto__" then current
  else
    Some (match current with
          | Some (Count n) => Count (n + 1)
          | Some (Text k) => Text (S k)
          | None => if is_prototype_function key then Text 1 else Count 1
          end).

(** The own property [key] of a counter that started empty, after [n]
    occurrences of [key]: nothing before the first occurrence and nothing
    ever for ['__proto__']; a string for the name of an inherited
    function; the number [n] for every other key. *)
Definition tally_after (key : string) (n : nat) : option Tally :=
  match n with
  | O => None
  | S _ =>
      if String.eqb key "__proto__" then None
      else if is_prototype_function key then Some (Text n)
      else Some (Count (Z.of_nat n))
  end.

(** [device.room || 'unknown'], the key of [byRoom]. *)
Definition room_key (device : Device.t) : string :=
  match Device.room device with
  | Some room => if String.eqb room EmptyString then "unknown"%string else room
  | None => "unknown"%string
  end.

(** The number of devices of [ds] whose key is [key]. *)
Definition counted (key_of : Device.t -> string) (key : string)
  (ds : list Device.t) : nat :=
  List.length (List.filter (fun d => String.eqb key (key_of d)) ds).

(** The poll of [GET /api/devices/:id]: construct the adapter, get the
    state. *)
Definition poll {env : Environment} (device : Device.t) : M DeviceState.t :=
  (controller <- getDeviceController device ;;
   getState controller)%monad.

(** The failure envelope of the endpoints whose data is not a [Payload],
    built at clock tick [t]. *)
Definition failure_of {T : Type} (code : Z) (message : string)
  {env : Environment} (t : nat) : HttpResponseOf T :=
  mkHttpOf code (mkApiResponseOf false None (Some message) (clock t)).

(** Their success envelope. *)
Definition success_with {T : Type} (data : T) {env : Environment} (t : nat)
  : HttpResponseOf T :=
  mkHttpOf 200 (mkApiResponseOf true (Some data) None (clock t)).

(** The update that [GET /api/devices/:id] passes to [updateDevice]. *)
Definition polled_update (state : DeviceState.t) : PartialDevice.t :=
  PartialDevice.mk None None None None None None None None None None None
                   None None None None (Some (Some true)) None
                   (Some (Some state)).

Module Scenario2.

(** The reply of a dimmable colour bulb. *)
Definition sysinfo_color_bulb : Js.value :=
  Js.JObj [("system"%string,
    Js.JObj [("get_sysinfo"%string,
      Js.JObj [("alias"%string, Js.JStr "Desk Lamp");
               ("mic_type"%string, Js.JStr "IOT.SMARTBULB");
               ("model"%string, Js.JStr "KL130(EU)");
               ("is_dimmable"%string, Js.JNum 1);
               ("is_color"%string, Js.JNum 1);
               ("is_variable_color_temp"%string, Js.JNum 0);
               ("light_state"%string,
                Js.JObj [("on_off"%string, Js.JNum 0)]);
               ("err_code"%string, Js.JNum 0)])])].

(** A request to switch on at 2700 K and 40 percent. *)
Definition warm_request : DeviceControlRequest.t :=
  DeviceControlRequest.mk action_on (Some 40) None (Some 2700) None None None.

(** A device of a brand without adapter. *)
Definition tuya_plug : Device.t :=
  Scenario.device "strip" "Power Strip" (Some "Strip"%string) tuya
                  [cap_power] None.

Definition mixed_home : World :=
  Scenario.world_of
    [("lamp"%string, Scenario.lamp); ("strip"%string, tuya_plug)].

(** A plug that is off, on a disk that accepts every write. *)
Definition working : Environment := Scenario.idle_plug.





(** A plug in a given room. *)
Definition in_room (id : string) (room : option string) : Device.t :=
  Device.mk id None id None plug kasa None "192.168.87.30" [cap_power] room
            None None None None None None None None.

(** Rooms named like inherited properties, like array indices, and no
    room. *)
Definition odd_rooms : Registry :=
  [("a"%string, in_room "a" (Some "constructor"%string));
   ("b"%string, in_room "b" (Some "10"%string));
   ("c"%string, in_room "c" (Some "__proto__"%string));
   ("d"%string, in_room "d" (Some "constructor"%string));
   ("e"%string, in_room "e" None);
   ("f"%string, in_room "f" (Some "2"%string))].


End Scenario2.

(** The invariant of the registry: distinct keys, each device under its
    own id. *)
Definition registry_ok (m : Registry) : Prop :=
  wf_registry m /\ keyed_by_id m.

(** The value of [deviceAlias] in [getDeviceByName]. *)
Definition alias_key (device : Device.t) : string :=
  match Device.alias device with
  | Some alias => normalize alias
  | None => EmptyString
  end.
(* ================================================================== *)
(** * Properties of the cipher *)
(* ================================================================== *)

Module CipherFacts.
Import Cipher.

(** The frame of the two-character command [{}]. *)
Example encrypt_braces : encrypt [123; 125] = Some [0; 0; 0; 2; 208; 173].
Proof. reflexivity. Qed.

Example decrypt_braces : decrypt [0; 0; 0; 2; 208; 173] = [123; 125].
Proof. reflexivity. Qed.

Lemma lxor_is_byte (c k : Z) : is_byte c -> is_byte k -> is_byte (Z.lxor c k).
Proof.
  unfold is_byte. intros Hc Hk. split.
  - apply Z.lxor_nonneg. lia.
  - destruct (Z.eq_dec (Z.lxor c k) 0) as [E | NE]; [lia |].
    assert (Hpos : 0 < Z.lxor c k).
    { assert (0 <= Z.lxor c k) by (apply Z.lxor_nonneg; lia). lia. }
    change 256 with (2 ^ 8). apply Z.log2_lt_pow2; [exact Hpos |].
    assert (Hlog : forall x, 0 <= x < 256 -> Z.log2 x < 8).
    { intros x Hx. destruct (Z.eq_dec x 0) as [-> | Hx0]; [reflexivity |].
      apply Z.log2_lt_pow2; lia. }
    pose proof (Z.log2_lxor c k (proj1 Hc) (proj1 Hk)) as Hmax.
    pose proof (Hlog c Hc). pose proof (Hlog k Hk). lia.
Qed.

Lemma store_byte_id (v : Z) : is_byte v -> store_byte v = v.
Proof.
  unfold is_byte, store_byte. intros Hv.
  change 255 with (Z.ones 8). rewrite Z.land_ones by lia.
  apply Z.mod_small. exact Hv.
Qed.

Lemma fromCharCode_id (v : Z) : is_byte v -> fromCharCode v = v.
Proof.
  unfold is_byte, fromCharCode. intros Hv.
  change 65535 with (Z.ones 16). rewrite Z.land_ones by lia.
  apply Z.mod_small. lia.
Qed.

Lemma lxor_cancel (c k : Z) : Z.lxor (Z.lxor c k) k = c.
Proof.
  rewrite Z.lxor_assoc, Z.lxor_nilpotent. apply Z.lxor_0_r.
Qed.

(** The two loops are inverse on byte sequences, whatever byte the key
    starts from. *)
Lemma decrypt_loop_encrypt_loop (s : list Z) :
  bytes s ->
  forall key, is_byte key -> decrypt_loop key (encrypt_loop key s) = s.
Proof.
  induction 1 as [| c rest Hc Hrest IH]; intros key Hkey; simpl.
  - reflexivity.
  - pose proof (lxor_is_byte c key Hc Hkey) as Hx.
    rewrite (store_byte_id _ Hx), lxor_cancel, (fromCharCode_id _ Hc).
    f_equal. apply IH. exact Hx.
Qed.

Lemma encrypt_loop_length (s : list Z) :
  forall key, List.length (encrypt_loop key s) = List.length s.
Proof.
  induction s as [| c rest IH]; intros key; simpl; [reflexivity |].
  f_equal. apply IH.
Qed.

(** The header written by [encrypt] reads back as the payload length. *)
Lemma read_write_UInt32BE (n : Z) (payload : list Z) :
  0 <= n <= 4294967295 ->
  exists header,
    writeUInt32BE n = Some header /\
    List.length header = 4%nat /\
    readUInt32BE (header ++ payload) = n.
Proof.
  intros Hn. unfold writeUInt32BE.
  replace ((0 <=? n) && (n <=? 4294967295)) with true
    by (symmetry; apply andb_true_iff; split; apply Z.leb_le; lia).
  eexists. split; [reflexivity |]. split; [reflexivity |].
  cbn [app readUInt32BE].
  change 255 with (Z.ones 8).
  rewrite !Z.land_ones, !Z.shiftr_div_pow2 by lia.
  change (2 ^ 24) with 16777216. change (2 ^ 16) with 65536.
  change (2 ^ 8) with 256.
  pose proof (Z.div_mod n 256 ltac:(lia)).
  pose proof (Z.div_mod (n / 256) 256 ltac:(lia)).
  pose proof (Z.div_mod (n / 256 / 256) 256 ltac:(lia)).
  rewrite Z.div_div in * by lia.
  change (256 * 256) with 65536 in *.
  rewrite Z.div_div in * by lia.
  change (65536 * 256) with 16777216 in *.
  assert (n / 16777216 < 256) by (apply Z.div_lt_upper_bound; lia).
  assert (0 <= n / 16777216) by (apply Z.div_pos; lia).
  rewrite (Z.mod_small (n / 16777216) 256) by lia.
  lia.
Qed.

(** [encrypt] fails only on a payload too long for the header. *)
Lemma encrypt_defined (s : list Z) :
  Z.of_nat (List.length s) <= 4294967295 ->
  exists header,
    List.length header = 4%nat /\
    readUInt32BE (header ++ encrypt_loop 171 s) = Z.of_nat (List.length s) /\
    encrypt s = Some (header ++ encrypt_loop 171 s).
Proof.
  intros Hlen. unfold encrypt.
  destruct (read_write_UInt32BE (Z.of_nat (List.length s))
              (encrypt_loop 171 s) ltac:(lia)) as (header & Hw & Hl & Hr).
  exists header. rewrite Hw. auto.
Qed.

(** X1. Round trip on every non-empty byte sequence short enough for the
    header: [decrypt] returns what [encrypt] was given. *)
Theorem decrypt_encrypt_nonempty (s : list Z) :
  bytes s ->
  s <> [] ->
  Z.of_nat (List.length s) <= 4294967295 ->
  exists frame, encrypt s = Some frame /\ decrypt frame = s.
Proof.
  intros Hbytes Hne Hlen.
  destruct (encrypt_defined s Hlen) as (header & Hl & Hr & He).
  exists (header ++ encrypt_loop 171 s). split; [exact He |].
  unfold decrypt. rewrite Hr.
  rewrite length_app, encrypt_loop_length, Hl.
  assert (Hpos : (0 < List.length s)%nat).
  { destruct s; [congruence | simpl; lia]. }
  replace (4 <? Z.of_nat (4 + List.length s)) with true
    by (symmetry; apply Z.ltb_lt; lia).
  replace (Z.of_nat (List.length s) =? Z.of_nat (4 + List.length s) - 4)
    with true by (symmetry; apply Z.eqb_eq; lia).
  cbn [andb].
  replace (skipn 4 (header ++ encrypt_loop 171 s)) with (encrypt_loop 171 s).
  - apply decrypt_loop_encrypt_loop; [exact Hbytes | unfold is_byte; lia].
  - rewrite <- Hl. rewrite skipn_app, skipn_all, Nat.sub_diag. reflexivity.
Qed.

Lemma decrypt_encrypt_nonempty_witness :
  exists frame,
    encrypt [123; 125] = Some frame /\ decrypt frame = [123; 125].
Proof.
  apply decrypt_encrypt_nonempty.
  - repeat constructor; unfold is_byte; lia.
  - discriminate.
  - simpl; lia.
Defined.

(** C1. The round trip claimed for every byte sequence fails on the empty
    one: [encrypt] frames the empty payload as the four header bytes
    [0 0 0 0], and [decrypt], which skips the header only when the buffer is
    longer than four bytes, deciphers that header as payload and returns
    four characters instead of none. *)
Theorem decrypt_encrypt_empty :
  bytes [] /\
  encrypt [] = Some [0; 0; 0; 0] /\
  decrypt [0; 0; 0; 0] = [171; 0; 0; 0] /\
  (forall frame, encrypt [] = Some frame -> decrypt frame <> []).
Proof.
  split; [constructor |].
  split; [reflexivity |].
  split; [reflexivity |].
  intros frame H. cbv in H. injection H as <-. discriminate.
Qed.

End CipherFacts.

(* ================================================================== *)
(** * Properties of the registry *)
(* ================================================================== *)

Section RegistryFacts.

Context {env : Environment}.

Lemma world_eta (w : World) :
  mkWorld (devices w) (net_log w) (disk_log w) (disk w) (ticks w) = w.
Proof. destruct w; reflexivity. Qed.

(** ** The map *)

Lemma map_get_set_same (key : string) (v : Device.t) (m : Registry) :
  map_get key (map_set key v m) = Some v.
Proof.
  induction m as [| [k v'] rest IH]; simpl.
  - rewrite String.eqb_refl. reflexivity.
  - destruct (String.eqb key k) eqn:E; simpl; rewrite E; auto.
Qed.

Lemma map_delete_absent (key : string) (m : Registry) :
  map_get key m = None -> map_delete key m = (m, false).
Proof.
  induction m as [| [k v] rest IH]; simpl; intros H; [reflexivity |].
  destruct (String.eqb key k); [discriminate |].
  rewrite (IH H). reflexivity.
Qed.

Lemma map_delete_present (key : string) (m : Registry) (v : Device.t) :
  map_get key m = Some v -> snd (map_delete key m) = true.
Proof.
  induction m as [| [k v'] rest IH]; simpl; intros H; [discriminate |].
  destruct (String.eqb key k); [reflexivity |].
  specialize (IH H). destruct (map_delete key rest). exact IH.
Qed.

Lemma map_get_absent_keys (key : string) (m : Registry) :
  ~ In key (List.map fst m) -> map_get key m = None.
Proof.
  induction m as [| [k v] rest IH]; simpl; intros H; [reflexivity |].
  destruct (String.eqb key k) eqn:E.
  - apply String.eqb_eq in E. subst. exfalso. apply H. left. reflexivity.
  - apply IH. intros Hin. apply H. right. exact Hin.
Qed.

Lemma map_delete_keys (key : string) (m : Registry) (k : string) :
  In k (List.map fst (fst (map_delete key m))) -> In k (List.map fst m).
Proof.
  induction m as [| [k' v] rest IH]; simpl; [tauto |].
  destruct (String.eqb key k').
  - simpl. auto.
  - destruct (map_delete key rest) as [rest' deleted]. simpl in *.
    intros [H | H]; auto.
Qed.

(** Deleting from a well-formed map leaves no entry under the key. *)
Lemma map_get_delete (key : string) (m : Registry) :
  wf_registry m -> map_get key (fst (map_delete key m)) = None.
Proof.
  unfold wf_registry.
  induction m as [| [k v] rest IH]; simpl; intros Hwf; [reflexivity |].
  inversion Hwf as [| ? ? Hnotin Hrest]; subst.
  destruct (String.eqb key k) eqn:E.
  - apply String.eqb_eq in E. subst. simpl.
    apply map_get_absent_keys. exact Hnotin.
  - specialize (IH Hrest). destruct (map_delete key rest) as [rest' deleted].
    simpl in *. rewrite E. exact IH.
Qed.

(** [set] and [delete] keep the keys distinct. *)
Lemma map_set_keys (key : string) (v : Device.t) (m : Registry) (k : string) :
  In k (List.map fst (map_set key v m)) -> k = key \/ In k (List.map fst m).
Proof.
  induction m as [| [k' v'] rest IH]; simpl.
  - intros [H | []]. auto.
  - destruct (String.eqb key k'); simpl; intros [H | H]; auto.
    destruct (IH H); auto.
Qed.

Lemma map_set_wf (key : string) (v : Device.t) (m : Registry) :
  wf_registry m -> wf_registry (map_set key v m).
Proof.
  unfold wf_registry.
  induction m as [| [k v'] rest IH]; simpl; intros Hwf.
  - constructor; [intros [] | constructor].
  - inversion Hwf as [| ? ? Hnotin Hrest]; subst.
    destruct (String.eqb key k) eqn:E; simpl.
    + constructor; assumption.
    + constructor; [| apply IH; exact Hrest].
      intros Hin. destruct (map_set_keys _ _ _ _ Hin) as [-> | Hin'].
      * rewrite String.eqb_refl in E. discriminate.
      * contradiction.
Qed.

Lemma map_delete_wf (key : string) (m : Registry) :
  wf_registry m -> wf_registry (fst (map_delete key m)).
Proof.
  unfold wf_registry.
  induction m as [| [k v] rest IH]; simpl; intros Hwf; [constructor |].
  inversion Hwf as [| ? ? Hnotin Hrest]; subst.
  destruct (String.eqb key k); [exact Hrest |].
  specialize (IH Hrest).
  pose proof (map_delete_keys key rest k) as Hkeys.
  destruct (map_delete key rest) as [rest' deleted]. simpl in *.
  constructor; [| exact IH]. intros Hin. apply Hnotin, Hkeys, Hin.
Qed.

(** ** Persistence *)

(** [saveRegistry] always returns normally, having handed the whole
    registry to the disk, and changes nothing else but the clock. *)
Lemma saveRegistry_saves (w : World) :
  exists w',
    saveRegistry w = (Ok tt, w') /\
    saved_at (ticks w) (devices w) w w'.
Proof.
  unfold saveRegistry, try_catch, bind, get_devices, new_Date, writeFileSync,
    saved_at, ret. cbn [devices net_log disk_log disk ticks].
  destruct (disk_ok (List.length (disk_log w))); eexists; split;
    try reflexivity; cbn [devices net_log disk_log disk ticks]; auto.
Qed.

(** The same after the registry content was replaced by [m]. *)
Lemma put_then_save (m : Registry) (t : nat) (w : World) :
  exists w',
    saveRegistry (mkWorld m (net_log w) (disk_log w) (disk w) t)
      = (Ok tt, w') /\
    saved_at t m w w'.
Proof.
  destruct (saveRegistry_saves (mkWorld m (net_log w) (disk_log w) (disk w) t))
    as (w' & Hs & Hp).
  exists w'. split; [exact Hs | exact Hp].
Qed.

(** ** The mutating operations *)

Ltac run_registry :=
  unfold addDevice, updateDevice, removeDevice, setDeviceOnlineStatus,
    updateDeviceState, getDevice, bind, get_devices, put_devices, new_Date, ret;
  cbn [devices net_log disk_log disk ticks].

Lemma addDevice_runs (device : Device.t) (w : World) :
  let stamped := Device.set_lastSeen (Some (clock (ticks w))) device in
  exists w',
    addDevice device w = (Ok tt, w') /\
    saved_at (S (ticks w)) (map_set (Device.id device) stamped (devices w)) w w'.
Proof.
  intros stamped. run_registry.
  destruct (put_then_save
              (map_set (Device.id device) stamped (devices w)) (S (ticks w)) w)
    as (w' & Hs & Hp).
  exists w'. fold stamped. rewrite Hs. auto.
Qed.

Lemma updateDevice_runs (id : string) (updates : PartialDevice.t)
  (device : Device.t) (w : World) :
  map_get id (devices w) = Some device ->
  let stamped :=
    Device.set_lastSeen (Some (clock (ticks w))) (spread device updates) in
  exists w',
    updateDevice id updates w = (Ok true, w') /\
    saved_at (S (ticks w)) (map_set id stamped (devices w)) w w'.
Proof.
  intros Hget stamped. run_registry. rewrite Hget.
  run_registry.
  destruct (put_then_save (map_set id stamped (devices w)) (S (ticks w)) w)
    as (w' & Hs & Hp).
  exists w'. fold stamped. rewrite Hs. auto.
Qed.

Lemma setDeviceOnlineStatus_runs (id : string) (online : bool)
  (device : Device.t) (w : World) :
  map_get id (devices w) = Some device ->
  let stamped :=
    Device.set_lastSeen (Some (clock (ticks w)))
      (Device.set_online (Some online) device) in
  exists w',
    setDeviceOnlineStatus id online w = (Ok true, w') /\
    saved_at (S (ticks w)) (map_set id stamped (devices w)) w w'.
Proof.
  intros Hget stamped. run_registry. rewrite Hget.
  run_registry.
  destruct (put_then_save (map_set id stamped (devices w)) (S (ticks w)) w)
    as (w' & Hs & Hp).
  exists w'. fold stamped. rewrite Hs. auto.
Qed.

Lemma updateDeviceState_runs (id : string) (state : DeviceState.t)
  (device : Device.t) (w : World) :
  map_get id (devices w) = Some device ->
  let stamped :=
    Device.set_lastSeen (Some (clock (ticks w)))
      (Device.set_state (Some state) device) in
  exists w',
    updateDeviceState id state w = (Ok true, w') /\
    saved_at (S (ticks w)) (map_set id stamped (devices w)) w w'.
Proof.
  intros Hget stamped. run_registry. rewrite Hget.
  run_registry.
  destruct (put_then_save (map_set id stamped (devices w)) (S (ticks w)) w)
    as (w' & Hs & Hp).
  exists w'. fold stamped. rewrite Hs. auto.
Qed.

Lemma removeDevice_runs (id : string) (device : Device.t) (w : World) :
  map_get id (devices w) = Some device ->
  exists w',
    removeDevice id w = (Ok true, w') /\
    saved_at (ticks w) (fst (map_delete id (devices w))) w w'.
Proof.
  intros Hget. run_registry.
  pose proof (map_delete_present id (devices w) device Hget) as Hdel.
  destruct (map_delete id (devices w)) as [m' deleted]. simpl in Hdel.
  subst deleted. run_registry.
  destruct (put_then_save m' (ticks w) w) as (w' & Hs & Hp).
  exists w'. rewrite Hs. auto.
Qed.

(** On an unknown id each of the four operations returns [false] and
    leaves the world as it was. *)
Lemma updateDevice_unknown (id : string) (updates : PartialDevice.t)
  (w : World) :
  map_get id (devices w) = None -> updateDevice id updates w = (Ok false, w).
Proof. intros H. run_registry. rewrite H. reflexivity. Qed.

Lemma setDeviceOnlineStatus_unknown (id : string) (online : bool) (w : World) :
  map_get id (devices w) = None ->
  setDeviceOnlineStatus id online w = (Ok false, w).
Proof. intros H. run_registry. rewrite H. reflexivity. Qed.

Lemma updateDeviceState_unknown (id : string) (state : DeviceState.t)
  (w : World) :
  map_get id (devices w) = None ->
  updateDeviceState id state w = (Ok false, w).
Proof. intros H. run_registry. rewrite H. reflexivity. Qed.

Lemma removeDevice_unknown (id : string) (w : World) :
  map_get id (devices w) = None -> removeDevice id w = (Ok false, w).
Proof.
  intros H. run_registry. rewrite (map_delete_absent _ _ H).
  run_registry. rewrite world_eta. reflexivity.
Qed.

Lemma saved_at_refreshes (id : string) (device : Device.t) (stamp : Z)
  (t : nat) (w w' : World) :
  saved_at t (map_set id (Device.set_lastSeen (Some stamp) device) (devices w))
           w w' ->
  exists stored,
    map_get id (devices w') = Some stored /\
    Device.lastSeen stored = Some stamp.
Proof.
  intros (Hdev & _). rewrite Hdev, map_get_set_same.
  eexists. split; reflexivity.
Qed.

(** C5. For an id that the registry does not hold, update, remove,
    set-online-status and update-state each return [false] and leave the
    whole world untouched: the device map is the same, nothing was handed
    to [writeFileSync] (the log of write attempts and the file are the
    same), and not even the clock was read. *)
Theorem unknown_id_changes_nothing (id : string) (w : World) :
  map_get id (devices w) = None ->
  (forall updates, updateDevice id updates w = (Ok false, w)) /\
  removeDevice id w = (Ok false, w) /\
  (forall online, setDeviceOnlineStatus id online w = (Ok false, w)) /\
  (forall state, updateDeviceState id state w = (Ok false, w)).
Proof.
  intros H. repeat split; intros.
  - apply updateDevice_unknown, H.
  - apply removeDevice_unknown, H.
  - apply setDeviceOnlineStatus_unknown, H.
  - apply updateDeviceState_unknown, H.
Qed.

(** C7, as amended.  Every successful add, update, set-online-status and
    update-state stores the device stamped with the clock reading taken by
    the operation and then hands the whole device set to the disk; a
    successful remove deletes the entry (no stamp is left to refresh) and
    hands the remaining device set to the disk.  The result ([true], or
    nothing for add) and the new device map do not depend on whether the
    write went through: when it did not, only the file keeps its old
    content. *)
Theorem successful_mutation_is_stamped_and_saved (id : string)
  (device : Device.t) (w : World) :
  map_get id (devices w) = Some device ->
  let now := clock (ticks w) in
  let stamp := Device.set_lastSeen (Some now) in
  (forall added, exists w',
      addDevice added w = (Ok tt, w') /\
      refreshes_lastSeen (Device.id added) w w' /\
      saved_at (S (ticks w))
        (map_set (Device.id added) (stamp added) (devices w)) w w') /\
  (forall updates, exists w',
      updateDevice id updates w = (Ok true, w') /\
      refreshes_lastSeen id w w' /\
      saved_at (S (ticks w))
        (map_set id (stamp (spread device updates)) (devices w)) w w') /\
  (forall online, exists w',
      setDeviceOnlineStatus id online w = (Ok true, w') /\
      refreshes_lastSeen id w w' /\
      saved_at (S (ticks w))
        (map_set id (stamp (Device.set_online (Some online) device))
           (devices w)) w w') /\
  (forall state, exists w',
      updateDeviceState id state w = (Ok true, w') /\
      refreshes_lastSeen id w w' /\
      saved_at (S (ticks w))
        (map_set id (stamp (Device.set_state (Some state) device))
           (devices w)) w w') /\
  (exists w',
      removeDevice id w = (Ok true, w') /\
      (wf_registry (devices w) -> map_get id (devices w') = None) /\
      saved_at (ticks w) (fst (map_delete id (devices w))) w w').
Proof.
  intros Hget now stamp. unfold refreshes_lastSeen.
  split; [| split; [| split; [| split]]].
  - intros added.
    destruct (addDevice_runs added w) as (w' & Hrun & Hsaved).
    exists w'. split; [exact Hrun |]. split; [| exact Hsaved].
    exact (saved_at_refreshes _ _ _ _ _ _ Hsaved).
  - intros updates.
    destruct (updateDevice_runs id updates device w Hget) as (w' & Hrun & Hsaved).
    exists w'. split; [exact Hrun |]. split; [| exact Hsaved].
    exact (saved_at_refreshes _ _ _ _ _ _ Hsaved).
  - intros online.
    destruct (setDeviceOnlineStatus_runs id online device w Hget)
      as (w' & Hrun & Hsaved).
    exists w'. split; [exact Hrun |]. split; [| exact Hsaved].
    exact (saved_at_refreshes _ _ _ _ _ _ Hsaved).
  - intros state.
    destruct (updateDeviceState_runs id state device w Hget)
      as (w' & Hrun & Hsaved).
    exists w'. split; [exact Hrun |]. split; [| exact Hsaved].
    exact (saved_at_refreshes _ _ _ _ _ _ Hsaved).
  - destruct (removeDevice_runs id device w Hget) as (w' & Hrun & Hsaved).
    exists w'. split; [exact Hrun |]. split; [| exact Hsaved].
    intros Hwf. destruct Hsaved as (Hdev & _). rewrite Hdev.
    apply map_get_delete, Hwf.
Qed.

End RegistryFacts.

Lemma unknown_id_changes_nothing_witness :
  map_get "ghost" (devices Scenario.home) = None /\
  @removeDevice Scenario.unreachable "ghost" Scenario.home
    = (Ok false, Scenario.home) /\
  @setDeviceOnlineStatus Scenario.unreachable "ghost" false Scenario.home
    = (Ok false, Scenario.home).
Proof.
  pose proof (@unknown_id_changes_nothing Scenario.unreachable "ghost"
                Scenario.home eq_refl) as (_ & Hremove & Honline & _).
  split; [reflexivity |]. split; [exact Hremove | exact (Honline false)].
Defined.

Lemma successful_mutation_is_stamped_and_saved_witness :
  map_get "lamp" (devices Scenario.home) = Some Scenario.lamp /\
  exists w',
    @setDeviceOnlineStatus Scenario.unreachable "lamp" false Scenario.home
      = (Ok true, w') /\
    @refreshes_lastSeen Scenario.unreachable "lamp" Scenario.home w'.
Proof.
  split; [reflexivity |].
  pose proof (@successful_mutation_is_stamped_and_saved Scenario.unreachable
                "lamp" Scenario.lamp Scenario.home eq_refl)
    as (_ & _ & Honline & _).
  destruct (Honline false) as (w' & Hrun & Hstamp & _).
  exists w'. split; [exact Hrun | exact Hstamp].
Defined.

(** C7, as stated, fails for remove: the operation succeeds on the lamp,
    yet no entry stamped with a fresh last-seen is left under its id. *)
Lemma remove_refreshes_no_lastSeen :
  exists w',
    @removeDevice Scenario.idle_plug "lamp" Scenario.home = (Ok true, w') /\
    ~ @refreshes_lastSeen Scenario.idle_plug "lamp" Scenario.home w'.
Proof.
  eexists. split; [reflexivity |].
  intros (stored & Hget & _). cbn in Hget. discriminate.
Qed.

(* ================================================================== *)
(** * Properties of the registry queries *)
(* ================================================================== *)

Section QueryFacts.

(** ** Online devices and statistics *)

Lemma online_is_false_iff (d : Device.t) :
  online_is_false d = false <-> Device.online d <> Some false.
Proof.
  unfold online_is_false. destruct (Device.online d) as [[|] |]; split;
    intros H; try reflexivity; try congruence; try discriminate.
Qed.

Lemma fold_count_device (ds : list Device.t) :
  forall stats,
    let stats' := List.fold_left count_device ds stats in
    Stats.total stats' = Stats.total stats /\
    Stats.online stats'
      = Stats.online stats + Z.of_nat (List.length (List.filter is_online ds)) /\
    Stats.offline stats'
      = Stats.offline stats
        + Z.of_nat (List.length (List.filter online_is_false ds)).
Proof.
  induction ds as [| d rest IH]; intros stats; cbn [List.fold_left].
  - cbn. repeat split; lia.
  - destruct (IH (count_device stats d)) as (Ht & Hon & Hoff).
    cbv zeta in *. rewrite Ht, Hon, Hoff.
    cbn [List.filter]. unfold is_online, count_device.
    cbn [Stats.total Stats.online Stats.offline].
    destruct (online_is_false d); cbn [negb List.length];
      repeat split; lia.
Qed.

Lemma filter_partition_length (ds : list Device.t) :
  (List.length (List.filter is_online ds)
   + List.length (List.filter online_is_false ds) = List.length ds)%nat.
Proof.
  induction ds as [| d rest IH]; cbn [List.filter List.length]; [reflexivity |].
  unfold is_online at 1. destruct (online_is_false d); cbn; lia.
Qed.

(** C10. [getOnlineDevices] returns exactly the devices whose [online]
    field is not [false], so a device whose flag was never set is among
    them; [getStats] counts exactly those devices as online, and its
    online and offline totals add up to the total, which is the number of
    devices. *)
Theorem unset_online_counts_as_online (m : Registry) :
  (forall d, In d (getOnlineDevices m) <->
             In d (getAllDevices m) /\ Device.online d <> Some false) /\
  (forall d, In d (getAllDevices m) -> Device.online d = None ->
             In d (getOnlineDevices m)) /\
  Stats.online (getStats m) = Z.of_nat (List.length (getOnlineDevices m)) /\
  Stats.online (getStats m) + Stats.offline (getStats m)
    = Stats.total (getStats m) /\
  Stats.total (getStats m) = Z.of_nat (List.length (getAllDevices m)).
Proof.
  assert (Hin : forall d, In d (getOnlineDevices m) <->
                          In d (getAllDevices m) /\
                          Device.online d <> Some false).
  { intros d. unfold getOnlineDevices, getAllDevices.
    rewrite filter_In, negb_true_iff, online_is_false_iff. reflexivity. }
  split; [exact Hin |]. split.
  { intros d Hd Hnone. apply Hin. split; [exact Hd | congruence]. }
  unfold getStats, getAllDevices.
  destruct (fold_count_device (map_values m)
              (Stats.mk (Z.of_nat (List.length (map_values m))) [] [] [] 0 0))
    as (Ht & Hon & Hoff).
  cbv zeta in Ht, Hon, Hoff. cbn [Stats.total Stats.online Stats.offline] in *.
  pose proof (filter_partition_length (map_values m)) as Hlen.
  repeat split.
  - rewrite Hon. unfold getOnlineDevices. reflexivity.
  - rewrite Hon, Hoff, Ht. lia.
  - exact Ht.
Qed.

End QueryFacts.

(* ================================================================== *)
(** * The fuzzy lookup by name *)
(* ================================================================== *)

Section FuzzyFacts.

Local Open Scope string_scope.

Lemma startsWith_spec (sub : string) :
  forall s, startsWith s sub = true <-> exists post, s = sub ++ post.
Proof.
  induction sub as [| a sub' IH]; intros s.
  - destruct s; simpl; split; intros _; try reflexivity; eexists; reflexivity.
  - destruct s as [| c s']; simpl.
    + split; [discriminate | intros (post & H); discriminate].
    + rewrite andb_true_iff, Ascii.eqb_eq, IH. split.
      * intros (-> & post & ->). exists post. reflexivity.
      * intros (post & H). injection H as -> ->. split; [reflexivity |].
        exists post. reflexivity.
Qed.

Lemma includes_unfold (s sub : string) :
  includes s sub =
  startsWith s sub ||
  match s with
  | EmptyString => false
  | String _ s' => includes s' sub
  end.
Proof. destruct s; reflexivity. Qed.

(** [includes] decides the substring relation. *)
Lemma includes_spec (sub : string) :
  forall s, includes s sub = true <-> substring sub s.
Proof.
  unfold substring.
  induction s as [| c s' IH]; rewrite includes_unfold, orb_true_iff,
    startsWith_spec.
  - split.
    + intros [(post & H) | H]; [| discriminate].
      exists "", post. exact H.
    + intros (pre & post & H). left.
      destruct pre; simpl in H; [| discriminate]. exists post. exact H.
  - rewrite IH. split.
    + intros [(post & H) | (pre & post & H)].
      * exists "", post. exact H.
      * exists (String c pre), post. simpl. rewrite H. reflexivity.
    + intros (pre & post & H). destruct pre as [| c' pre']; simpl in H.
      * left. exists post. exact H.
      * right. injection H as -> ->. exists pre', post. reflexivity.
Qed.

Lemma includes_empty (s : string) : includes s "" = true.
Proof. destruct s; reflexivity. Qed.

(** On a device that has an alias, the predicate of [getDeviceByName] is
    the match of the specification. *)
Lemma name_matches_spec (q : string) (d : Device.t) :
  has_alias d ->
  name_matches (normalize q) d = true <-> spec_fuzzy_match q d.
Proof.
  unfold has_alias, name_matches, spec_fuzzy_match, spec_related.
  destruct (Device.alias d) as [alias |]; [intros _ | congruence].
  rewrite !orb_true_iff, !includes_spec. split.
  - intros [[[[[H | H] | H] | H] | H] | H]; eauto 6.
  - intros [[H | H] | [(a & Ha & [H | H]) | [H | H]]]; auto 7;
      injection Ha as <-; auto 7.
Qed.

(** A device without alias matches every query. *)
Lemma name_matches_without_alias (normalizedName : string) (d : Device.t) :
  Device.alias d = None -> name_matches normalizedName d = true.
Proof.
  unfold name_matches. intros ->. rewrite includes_empty.
  rewrite !orb_true_iff. auto.
Qed.

(** [Array.prototype.find]: the first element that satisfies the
    predicate. *)
Lemma find_first {A : Type} (p : A -> bool) (l : list A) (x : A) :
  List.find p l = Some x <->
  exists before after,
    l = (before ++ x :: after)%list /\ p x = true /\
    Forall (fun y => p y = false) before.
Proof.
  induction l as [| y rest IH]; simpl.
  - split; [discriminate |].
    intros (before & after & H & _). destruct before; discriminate.
  - destruct (p y) eqn:Hy.
    + split.
      * intros [= ->]. exists [], rest. auto.
      * intros (before & after & H & Hx & Hbefore).
        destruct before as [| z before']; simpl in H.
        -- injection H as -> _. reflexivity.
        -- injection H as -> _. inversion Hbefore; congruence.
    + rewrite IH. split.
      * intros (before & after & -> & Hx & Hbefore).
        exists (y :: before), after. auto.
      * intros (before & after & H & Hx & Hbefore).
        destruct before as [| z before']; simpl in H.
        -- injection H as -> _. congruence.
        -- injection H as -> ->. inversion Hbefore; subst.
           exists before', after. auto.
Qed.

Lemma find_none {A : Type} (p : A -> bool) (l : list A) :
  List.find p l = None <-> Forall (fun y => p y = false) l.
Proof.
  induction l as [| y rest IH]; simpl.
  - split; auto.
  - destruct (p y) eqn:Hy.
    + split; [discriminate | intros H; inversion H; congruence].
    + rewrite IH. split; [auto | intros H; inversion H; auto].
Qed.

Lemma Forall_no_match (q : string) (l : list Device.t) :
  Forall has_alias l ->
  Forall (fun y => name_matches (normalize q) y = false) l <->
  Forall (fun y => ~ spec_fuzzy_match q y) l.
Proof.
  intros Halias. rewrite !Forall_forall. rewrite Forall_forall in Halias.
  split; intros H y Hy.
  - rewrite <- (name_matches_spec q y (Halias y Hy)).
    rewrite (H y Hy). discriminate.
  - destruct (name_matches (normalize q) y) eqn:E; [| reflexivity].
    exfalso. apply (H y Hy). apply name_matches_spec; auto.
Qed.

(** C4, as amended.  In a registry whose devices all have an alias,
    [getDeviceByName] returns [d] exactly when [d] is the first device, in
    insertion order, that matches the query after normalization (the
    normalized query is a substring of the normalized name, alias or id,
    or one of these is a substring of the normalized query); it returns
    nothing exactly when no device matches. *)
Theorem getDeviceByName_returns_first_match (q : string) (m : Registry) :
  Forall has_alias (getAllDevices m) ->
  (forall d,
      getDeviceByName q m = Some d <->
      exists before after,
        getAllDevices m = (before ++ d :: after)%list /\
        spec_fuzzy_match q d /\
        Forall (fun d' => ~ spec_fuzzy_match q d') before) /\
  (getDeviceByName q m = None <->
   Forall (fun d => ~ spec_fuzzy_match q d) (getAllDevices m)).
Proof.
  unfold getDeviceByName, getAllDevices. intros Halias. split.
  - intros d. rewrite find_first. split.
    + intros (before & after & Heq & Hd & Hbefore).
      exists before, after. rewrite Heq in Halias.
      apply Forall_app in Halias. destruct Halias as (Hb & Hrest).
      inversion Hrest; subst.
      split; [exact Heq |]. split.
      * apply name_matches_spec; assumption.
      * apply Forall_no_match; assumption.
    + intros (before & after & Heq & Hd & Hbefore).
      exists before, after. rewrite Heq in Halias.
      apply Forall_app in Halias. destruct Halias as (Hb & Hrest).
      inversion Hrest; subst.
      split; [exact Heq |]. split.
      * apply name_matches_spec; assumption.
      * apply Forall_no_match; assumption.
  - rewrite find_none. apply Forall_no_match, Halias.
Qed.

End FuzzyFacts.

Lemma getDeviceByName_returns_first_match_witness :
  Forall has_alias (getAllDevices Scenario.two_lamps) /\
  (getDeviceByName "Floor Lamp" Scenario.two_lamps
     = Some (Scenario.device "floor" "Floor Lamp" (Some "Floor"%string) kasa
               [cap_power] None) <->
   exists before after,
     getAllDevices Scenario.two_lamps
       = (before ++
          Scenario.device "floor" "Floor Lamp" (Some "Floor"%string) kasa
            [cap_power] None :: after)%list /\
     spec_fuzzy_match "Floor Lamp"
       (Scenario.device "floor" "Floor Lamp" (Some "Floor"%string) kasa
          [cap_power] None) /\
     Forall (fun d' => ~ spec_fuzzy_match "Floor Lamp" d') before).
Proof.
  assert (Halias : Forall has_alias (getAllDevices Scenario.two_lamps)).
  { repeat constructor; discriminate. }
  split; [exact Halias |].
  exact (proj1 (getDeviceByName_returns_first_match "Floor Lamp"
                  Scenario.two_lamps Halias) _).
Defined.

(** C4, as stated, fails when two devices match: the floor lamp matches
    the query "lamp" but the desk lamp, registered first, is returned.  It
    fails as well on a device without alias, which is returned for a query
    that none of its fields matches. *)
Lemma getDeviceByName_not_every_match :
  (exists d,
      In d (getAllDevices Scenario.two_lamps) /\
      spec_fuzzy_match "lamp" d /\
      getDeviceByName "lamp" Scenario.two_lamps <> Some d) /\
  (exists d,
      getDeviceByName "Bedroom Lamp" Scenario.plug_then_lamp = Some d /\
      ~ spec_fuzzy_match "Bedroom Lamp" d).
Proof.
  split.
  - exists (Scenario.device "floor" "Floor Lamp" (Some "Floor"%string) kasa
              [cap_power] None).
    split; [right; left; reflexivity |]. split.
    + left. left. apply includes_spec. reflexivity.
    + discriminate.
  - eexists. split; [reflexivity |].
    unfold spec_fuzzy_match, spec_related.
    intros [[H | H] | [(alias & Ha & _) | [H | H]]];
      try discriminate Ha;
      apply includes_spec in H; discriminate H.
Qed.

(* ================================================================== *)
(** * Properties of the adapter *)
(* ================================================================== *)

Section AdapterFacts.

Context {env : Environment}.

(** ** What a computation leaves untouched *)

Lemma same_registry_refl (w : World) : same_registry w w.
Proof. unfold same_registry. auto. Qed.

Lemma same_registry_trans (w1 w2 w3 : World) :
  same_registry w1 w2 -> same_registry w2 w3 -> same_registry w1 w3.
Proof.
  unfold same_registry. intros (A1 & B1 & C1 & D1) (A2 & B2 & C2 & D2).
  repeat split; congruence.
Qed.

Lemma network_only_ret {A : Type} (a : A) : network_only (ret a).
Proof.
  intros w. split; [apply same_registry_refl |].
  exists []. simpl. rewrite app_nil_r. reflexivity.
Qed.

Lemma network_only_throw {A : Type} (e : string) : network_only (@throw A e).
Proof.
  intros w. split; [apply same_registry_refl |].
  exists []. simpl. rewrite app_nil_r. reflexivity.
Qed.

Lemma network_only_bind {A B : Type} (c : M A) (k : A -> M B) :
  network_only c -> (forall a, network_only (k a)) -> network_only (bind c k).
Proof.
  intros Hc Hk w. unfold bind. destruct (Hc w) as (Hs & sent & Hn).
  destruct (c w) as [[a | e] w1]; simpl in *.
  - destruct (Hk a w1) as (Hs' & sent' & Hn'). split.
    + eapply same_registry_trans; eassumption.
    + exists (sent ++ sent'). rewrite Hn', Hn, app_assoc. reflexivity.
  - split; [exact Hs | exists sent; exact Hn].
Qed.

Lemma network_only_try_catch {A : Type} (c : M A) (h : string -> M A) :
  network_only c -> (forall e, network_only (h e)) ->
  network_only (try_catch c h).
Proof.
  intros Hc Hh w. unfold try_catch. destruct (Hc w) as (Hs & sent & Hn).
  destruct (c w) as [[a | e] w1]; simpl in *.
  - split; [exact Hs | exists sent; exact Hn].
  - destruct (Hh e w1) as (Hs' & sent' & Hn'). split.
    + eapply same_registry_trans; eassumption.
    + exists (sent ++ sent'). rewrite Hn', Hn, app_assoc. reflexivity.
Qed.

(** [sendCommand] adds its command to the log, however it settles. *)
Lemma sendCommand_log (self : KasaDevice) (command : Js.value) (w : World) :
  same_registry w (snd (sendCommand self command w)) /\
  net_log (snd (sendCommand self command w))
    = net_log w ++ [(kasa_ip self, command)].
Proof.
  unfold sendCommand, same_registry.
  destruct (exchange (net_log w) (kasa_ip self) command); simpl; auto.
Qed.

Lemma network_only_sendCommand (self : KasaDevice) (command : Js.value) :
  network_only (sendCommand self command).
Proof.
  intros w. destruct (sendCommand_log self command w) as (Hs & Hn).
  split; [exact Hs | eexists; exact Hn].
Qed.

Lemma network_only_member (v : Js.value) (key : string) :
  network_only (member v key).
Proof.
  destruct v; simpl; first [apply network_only_throw | apply network_only_ret].
Qed.

Ltac network_only :=
  repeat first
    [ apply network_only_bind; [| intro]
    | apply network_only_sendCommand
    | apply network_only_member
    | apply network_only_ret
    | apply network_only_throw
    | match goal with
      | |- network_only (if ?c then _ else _) => destruct c
      | |- network_only (match ?x with _ => _ end) => destruct x
      end ].

Lemma network_only_turnOn (self : KasaDevice) : network_only (turnOn self).
Proof. unfold turnOn. network_only. Qed.

Lemma network_only_turnOff (self : KasaDevice) : network_only (turnOff self).
Proof. unfold turnOff. network_only. Qed.


Lemma network_only_apply_settings (self : KasaDevice)
  (request : DeviceControlRequest.t) :
  network_only (apply_settings self request).
Proof.
  unfold apply_settings, setRGBColor, setColor, setColorTemperature,
    setBrightness, send_light_state.
  network_only.
Qed.

Lemma network_only_getState (self : KasaDevice) : network_only (getState self).
Proof. unfold getState, getDeviceInfo. network_only. Qed.

Lemma network_only_control (self : KasaDevice)
  (request : DeviceControlRequest.t) :
  network_only (control self request).
Proof.
  unfold control, getDeviceInfo.
  destruct (DeviceControlRequest.action request).
  - apply network_only_bind; [apply network_only_turnOn | intro].
    apply network_only_apply_settings.
  - apply network_only_turnOff.
  - apply network_only_bind; [apply network_only_sendCommand | intro].
    apply network_only_bind; [apply network_only_member | intro].
    match goal with |- network_only (if ?c then _ else _) => destruct c end.
    + apply network_only_turnOff.
    + apply network_only_bind; [apply network_only_turnOn | intro].
      apply network_only_apply_settings.
Qed.

Lemma network_only_getDeviceController (device : Device.t) :
  network_only (getDeviceController device).
Proof. unfold getDeviceController. network_only. Qed.

(** ** The commands that each operation issues *)

Lemma member_not_null (v : Js.value) (key : string) :
  v <> Js.JNull -> member v key = ret (Js.get v key).
Proof. destruct v; intros H; [congruence | reflexivity ..]. Qed.

(** The check of the reply to a relay command has no effect of its own. *)
Lemma relay_check_pure (failure : string) (response : Js.value) (w : World) :
  snd ((system <- member response "system" ;;
        if negb (Js.is_num
                   (Js.get_opt (Js.get_opt system "set_relay_state")
                      "err_code") 0)
        then throw failure
        else ret tt) w) = w.
Proof.
  unfold bind. destruct response; simpl;
    try reflexivity;
    match goal with |- snd ((if ?c then _ else _) _) = _ => destruct c end;
    reflexivity.
Qed.

Lemma turnOff_log (self : KasaDevice) (w : World) :
  net_log (snd (turnOff self w))
    = net_log w ++ [(kasa_ip self, cmd_power_off)].
Proof.
  unfold turnOff, bind at 1.
  pose proof (sendCommand_log self (cmd_set_relay_state 0) w) as (_ & Hlog).
  destruct (sendCommand self (cmd_set_relay_state 0) w) as [[response | e] w1];
    simpl in Hlog.
  - rewrite relay_check_pure. exact Hlog.
  - exact Hlog.
Qed.

Lemma turnOn_log (self : KasaDevice) (w : World) :
  net_log (snd (turnOn self w))
    = net_log w ++ [(kasa_ip self, cmd_power_on)].
Proof.
  unfold turnOn, bind at 1.
  pose proof (sendCommand_log self (cmd_set_relay_state 1) w) as (_ & Hlog).
  destruct (sendCommand self (cmd_set_relay_state 1) w) as [[response | e] w1];
    simpl in Hlog.
  - rewrite relay_check_pure. exact Hlog.
  - exact Hlog.
Qed.

Lemma send_light_log (self : KasaDevice) (fields : list (string * Js.value))
  (w : World) :
  net_log (snd ((sendCommand self (cmd_transition_light_state fields) ;;;
                 ret tt) w))
    = net_log w ++ [(kasa_ip self, cmd_transition_light_state fields)].
Proof.
  unfold bind.
  pose proof (sendCommand_log self (cmd_transition_light_state fields) w)
    as (_ & Hlog).
  destruct (sendCommand self (cmd_transition_light_state fields) w)
    as [[response | e] w1]; exact Hlog.
Qed.

Ltac light_log :=
  repeat match goal with
    | |- context [if ?c then _ else _] => destruct c
    | |- context [match ?x with Some _ => _ | None => _ end] => destruct x
    | |- context [let (_, _) := ?p in _] => destruct p
    end;
  first
    [ rewrite send_light_log; eexists; split;
      [reflexivity | right; eexists; reflexivity]
    | exists []; split; [simpl; rewrite app_nil_r; reflexivity | left; reflexivity] ].

(** The settings part of [control] sends at most one command, to the
    lighting service. *)
Lemma apply_settings_log (self : KasaDevice)
  (request : DeviceControlRequest.t) (w : World) :
  exists sent,
    net_log (snd (apply_settings self request w)) = net_log w ++ sent /\
    light_only (kasa_ip self) sent.
Proof.
  unfold apply_settings, setRGBColor, setColor, setColorTemperature,
    setBrightness, send_light_state, light_only.
  light_log.
Qed.


(** ** Toggle *)






(** C6. A request with action off runs [turnOff] and nothing else: the
    power-off command is the only command issued, whatever brightness,
    colour, hue, saturation or colour temperature the request carries. *)
Theorem off_issues_only_power_off (self : KasaDevice) (w : World)
  (brightness : option Z) (color : option RGB)
  (color_temp hue saturation transition : option Z) :
  let request :=
    DeviceControlRequest.mk action_off brightness color color_temp hue
      saturation transition in
  control self request w = turnOff self w /\
  net_log (snd (control self request w))
    = net_log w ++ [(kasa_ip self, cmd_power_off)].
Proof.
  intros request. split; [reflexivity |].
  change (control self request w) with (turnOff self w).
  apply turnOff_log.
Qed.

(** ** Vendor error codes *)

(** [turnOn] and [turnOff] succeed only on a reply whose relay section
    carries the error code zero. *)
Lemma turnOn_succeeds_only_on_code_zero (self : KasaDevice) (w w' : World) :
  turnOn self w = (Ok tt, w') ->
  exists response,
    exchange (net_log w) (kasa_ip self) cmd_power_on = NetReply response /\
    Js.get_opt (Js.get_opt (Js.get response "system") "set_relay_state")
      "err_code" = Some (Js.JNum 0).
Proof.
  unfold turnOn, bind, sendCommand, cmd_power_on.
  destruct (exchange (net_log w) (kasa_ip self) (cmd_set_relay_state 1))
    as [response | | |]; try discriminate.
  intros H. exists response. split; [reflexivity |].
  destruct response; simpl in H; try discriminate H;
    simpl;
    match type of H with
    | context [Js.is_num ?x 0] =>
        destruct x as [[| | n | | |] |] eqn:E; simpl in H; try discriminate H
    end;
    destruct (n =? 0) eqn:En; simpl in H; try discriminate H;
    apply Z.eqb_eq in En; subst; reflexivity.
Qed.

Lemma turnOff_succeeds_only_on_code_zero (self : KasaDevice) (w w' : World) :
  turnOff self w = (Ok tt, w') ->
  exists response,
    exchange (net_log w) (kasa_ip self) cmd_power_off = NetReply response /\
    Js.get_opt (Js.get_opt (Js.get response "system") "set_relay_state")
      "err_code" = Some (Js.JNum 0).
Proof.
  unfold turnOff, bind, sendCommand, cmd_power_off.
  destruct (exchange (net_log w) (kasa_ip self) (cmd_set_relay_state 0))
    as [response | | |]; try discriminate.
  intros H. exists response. split; [reflexivity |].
  destruct response; simpl in H; try discriminate H;
    simpl;
    match type of H with
    | context [Js.is_num ?x 0] =>
        destruct x as [[| | n | | |] |] eqn:E; simpl in H; try discriminate H
    end;
    destruct (n =? 0) eqn:En; simpl in H; try discriminate H;
    apply Z.eqb_eq in En; subst; reflexivity.
Qed.

(** The lighting operations never look at the reply: whatever the device
    answers, a valid request succeeds. *)
Lemma setBrightness_ignores_reply (self : KasaDevice) (level : Z)
  (response : Js.value) (w : World) :
  0 <= level <= 100 ->
  exchange (net_log w) (kasa_ip self)
    (cmd_transition_light_state
       [("brightness"%string, Js.JNum level);
        ("ignore_default"%string, Js.JNum 1)]) = NetReply response ->
  fst (setBrightness self level w) = Ok tt.
Proof.
  intros Hrange Hreply. unfold setBrightness.
  replace ((level <? 0) || (level >? 100)) with false
    by (symmetry; rewrite Z.gtb_ltb; apply orb_false_iff; split;
        apply Z.ltb_ge; lia).
  unfold bind, sendCommand. rewrite Hreply. reflexivity.
Qed.

End AdapterFacts.



(** C2. The lighting operations do not examine the reply.  A bulb that
    answers a brightness, colour or colour-temperature command with a
    well-formed reply carrying the vendor error code -10000 makes
    [setBrightness], [setColor] and [setColorTemperature] return normally,
    whereas [turnOn] and [turnOff] throw on a reply that carries a
    non-zero code. *)
Theorem light_commands_ignore_vendor_error :
  Js.get_opt
    (Js.get_opt
       (Js.get Scenario.light_state_error
          "smartlife.iot.smartbulb.lightingservice")
       "transition_light_state") "err_code" = Some (Js.JNum (-10000)) /\
  @setBrightness Scenario.refusing_bulb Scenario.controller 50 Scenario.home
    = (Ok tt,
       mkWorld (devices Scenario.home)
         [("192.168.87.20"%string,
           cmd_transition_light_state
             [("brightness"%string, Js.JNum 50);
              ("ignore_default"%string, Js.JNum 1)])]
         [] None 0) /\
  fst (@setColor Scenario.refusing_bulb Scenario.controller 120 80 None
         Scenario.home) = Ok tt /\
  fst (@setColorTemperature Scenario.refusing_bulb Scenario.controller 2700
         None Scenario.home) = Ok tt /\
  fst (@turnOn Scenario.failing_device Scenario.controller Scenario.home)
    = Throw "Failed to turn on device" /\
  fst (@turnOff Scenario.failing_device Scenario.controller Scenario.home)
    = Throw "Failed to turn off device".
Proof. repeat split; reflexivity. Qed.

(** A request to switch off that also carries brightness, colour, hue,
    saturation and colour temperature: one command on the wire. *)
Example off_request_sends_one_command :
  net_log (snd (@control Scenario.idle_plug Scenario.controller
                  Scenario.off_request Scenario.home))
    = [("192.168.87.20"%string, cmd_power_off)].
Proof. reflexivity. Qed.

(* ================================================================== *)
(** * Properties of the control surface *)
(* ================================================================== *)

Section SurfaceFacts.

Context {env : Environment}.

Lemma respond_runs (code : Z) (success : bool) (data : option Payload)
  (error : option string) (w : World) :
  respond code success data error w
    = (Ok (mkHttp code (mkApiResponse success data error (clock (ticks w)))),
       ticked w).
Proof. reflexivity. Qed.

Lemma getDevice_runs (id : string) (w : World) :
  getDevice id w = (Ok (map_get id (devices w)), w).
Proof. reflexivity. Qed.

(** [try] around a sequence: the first step, then the rest or the
    handler. *)
Lemma try_catch_bind {A B : Type} (c : M A) (k : A -> M B)
  (h : string -> M B) (w : World) :
  try_catch (bind c k) h w =
  match c w with
  | (Ok a, w1) => try_catch (k a) h w1
  | (Throw e, w1) => h e w1
  end.
Proof. unfold try_catch, bind. destruct (c w) as [[a | e] w1]; reflexivity. Qed.

(** [try] around three steps and a continuation: the three steps taken
    together, then the continuation or the handler. *)
Lemma try_catch_steps {A B C D : Type} (c1 : M A) (c2 : A -> M B)
  (c3 : A -> M C) (rest : C -> M D) (h : string -> M D) (w : World) :
  try_catch (a <- c1 ;; c2 a ;;; x <- c3 a ;; rest x) h w =
  match (a <- c1 ;; c2 a ;;; c3 a) w with
  | (Ok x, w1) => try_catch (rest x) h w1
  | (Throw e, w1) => h e w1
  end.
Proof.
  unfold try_catch, bind.
  destruct (c1 w) as [[a | e] w0]; [| reflexivity].
  destruct (c2 a w0) as [[b | e] w0']; [| reflexivity].
  destruct (c3 a w0') as [[x | e] w1]; reflexivity.
Qed.




(** What both handlers do in their [catch]: mark the device offline, then
    answer 500 with the error's message. *)
Lemma catch_marks_offline (id : string) (device : Device.t) (message : string)
  (w1 : World) :
  map_get id (devices w1) = Some device ->
  let stored :=
    Device.set_lastSeen (Some (clock (ticks w1)))
      (Device.set_online (Some false) device) in
  exists w',
    (setDeviceOnlineStatus id false ;;;
     respond 500 false None (Some message)) w1
      = (Ok (failure 500 message (S (S (ticks w1)))), w') /\
    devices w' = map_set id stored (devices w1) /\
    map_get id (devices w') = Some stored /\
    disk_log w'
      = disk_log w1
        ++ [mkSnapshot (map_values (devices w')) (clock (S (ticks w1)))] /\
    net_log w' = net_log w1 /\
    ticks w' = S (S (S (ticks w1))).
Proof.
  intros Hget stored. unfold bind.
  destruct (setDeviceOnlineStatus_runs id false device w1 Hget)
    as (w2 & Hrun & Hdev & Hlog & _ & Hticks & Hnet).
  rewrite Hrun, respond_runs. fold stored in Hdev, Hlog.
  exists (ticked w2). unfold failure. rewrite Hticks.
  split; [reflexivity |]. cbn [ticked devices disk_log net_log ticks].
  rewrite Hdev. split; [reflexivity |].
  split; [apply map_get_set_same |]. split; [exact Hlog |].
  split; [exact Hnet | rewrite Hticks; reflexivity].
Qed.

(** ** The control handler *)

Lemma control_execution_fails (device : Device.t)
  (request : DeviceControlRequest.t) (w : World) (message : string)
  (w1 : World) :
  control_step_fails device request w message w1 <->
  control_execution device request w = (Throw message, w1).
Proof.
  unfold control_step_fails, control_execution, bind. split.
  - intros [H | [(c & w0 & Hc & H) | (c & w0 & w0' & Hc & Hx & H)]].
    + rewrite H. reflexivity.
    + rewrite Hc, H. reflexivity.
    + rewrite Hc, Hx, H. reflexivity.
  - destruct (getDeviceController device w) as [[c | e] w0] eqn:Hc.
    + destruct (control c request w0) as [[[] | e] w0'] eqn:Hx.
      * intros H. right. right. exists c, w0, w0'. auto.
      * intros [= -> ->]. right. left. exists c, w0. auto.
    + intros [= -> ->]. left. reflexivity.
Qed.

Lemma network_only_control_execution (device : Device.t)
  (request : DeviceControlRequest.t) :
  network_only (control_execution device request).
Proof.
  unfold control_execution.
  apply network_only_bind; [apply network_only_getDeviceController | intro].
  apply network_only_bind; [apply network_only_control | intro].
  apply network_only_getState.
Qed.

(** The handler on a known device: the execution, then either the
    reconciliation or the [catch]. *)
Lemma control_handler_known (id : string) (device : Device.t)
  (request : DeviceControlRequest.t) (w : World) :
  map_get id (devices w) = Some device ->
  control_handler id request w =
  match control_execution device request w with
  | (Ok state, w1) =>
      try_catch
        (updateDeviceState (Device.id device) state ;;;
         setDeviceOnlineStatus (Device.id device) true ;;;
         respond 200 true
           (Some (ControlData (Device.name device)
                    (DeviceControlRequest.action request) state))
           None)
        (fun message =>
           setDeviceOnlineStatus id false ;;;
           respond 500 false None (Some message)) w1
  | (Throw message, w1) =>
      (setDeviceOnlineStatus id false ;;;
       respond 500 false None (Some message)) w1
  end.
Proof.
  intros Hget. unfold control_handler, control_execution.
  rewrite try_catch_bind, getDevice_runs, Hget.
  exact (try_catch_steps (getDeviceController device)
           (fun controller => control controller request) getState _ _ w).
Qed.

(** C8. When the control handler runs on a known device and a step of
    its execution fails (the construction of the adapter, the command, or
    the state poll after it), the device is stored with [online = false]
    and a fresh last-seen stamp, the registry holding it is handed to the
    disk, and only then the failure envelope is built: status 500, the
    error's message, and a timestamp read from the clock after the stamp
    and the snapshot were. *)
Theorem failed_control_marks_device_offline (id : string) (device : Device.t)
  (request : DeviceControlRequest.t) (message : string) (w w1 : World) :
  map_get id (devices w) = Some device ->
  control_step_fails device request w message w1 ->
  let t := ticks w1 in
  let stored :=
    Device.set_lastSeen (Some (clock t))
      (Device.set_online (Some false) device) in
  exists w',
    control_handler id request w = (Ok (failure 500 message (S (S t))), w') /\
    map_get id (devices w') = Some stored /\
    Device.online stored = Some false /\
    disk_log w'
      = disk_log w ++ [mkSnapshot (map_values (devices w')) (clock (S t))] /\
    ticks w' = S (S (S t)).
Proof.
  intros Hget Hfail t stored.
  apply control_execution_fails in Hfail.
  pose proof (network_only_control_execution device request w)
    as ((Hdev & Hdisk & _ & _) & _).
  rewrite (control_handler_known id device request w Hget).
  rewrite Hfail in *. cbn [snd] in Hdev, Hdisk.
  assert (Hget1 : map_get id (devices w1) = Some device)
    by (rewrite Hdev; exact Hget).
  destruct (catch_marks_offline id device message w1 Hget1)
    as (w' & Hrun & _ & Hstored & Hlog & _ & Hticks).
  exists w'. split; [exact Hrun |]. split; [exact Hstored |].
  split; [reflexivity |]. split; [rewrite Hlog, Hdisk; reflexivity |].
  exact Hticks.
Qed.

(** ** The brightness handler *)








End SurfaceFacts.

Lemma failed_control_marks_device_offline_witness :
  map_get "lamp" (devices Scenario.home) = Some Scenario.lamp /\
  exists w',
    @control_handler Scenario.unreachable "lamp" Scenario.toggle_request
      Scenario.home
      = (Ok (@failure 500 "Connection timeout" Scenario.unreachable 2), w') /\
    map_get "lamp" (devices w')
      = Some (Device.set_lastSeen (Some 0)
                (Device.set_online (Some false) Scenario.lamp)).
Proof.
  split; [reflexivity |].
  assert (Hfail : @control_step_fails Scenario.unreachable Scenario.lamp
                    Scenario.toggle_request Scenario.home "Connection timeout"
                    (mkWorld (devices Scenario.home)
                       [("192.168.87.20"%string, cmd_get_sysinfo)] [] None 0)).
  { right. left. exists Scenario.controller, Scenario.home.
    split; reflexivity. }
  destruct (@failed_control_marks_device_offline Scenario.unreachable "lamp"
              Scenario.lamp Scenario.toggle_request "Connection timeout"
              Scenario.home _ eq_refl Hfail) as (w' & Hrun & Hstored & _).
  exists w'. split; [exact Hrun | exact Hstored].
Defined.



(* ================================================================== *)
(** * More on the cipher *)
(* ================================================================== *)

Module CipherMore.
Import Cipher CipherFacts.

Lemma store_byte_is_byte (v : Z) : is_byte (store_byte v).
Proof.
  unfold is_byte, store_byte. change 255 with (Z.ones 8).
  rewrite Z.land_ones by lia. apply Z.mod_pos_bound. reflexivity.
Qed.

Lemma encrypt_loop_bytes (s : list Z) :
  forall key, bytes (encrypt_loop key s).
Proof.
  induction s as [| c rest IH]; intros key; simpl; constructor.
  - apply store_byte_is_byte.
  - apply IH.
Qed.

Lemma writeUInt32BE_bytes (n : Z) (header : list Z) :
  writeUInt32BE n = Some header -> bytes header /\ List.length header = 4%nat.
Proof.
  unfold writeUInt32BE. destruct ((0 <=? n) && (n <=? 4294967295));
    [| discriminate].
  intros [= <-]. split; [| reflexivity].
  repeat constructor; apply store_byte_is_byte.
Qed.

Lemma decrypt_loop_bytes (buffer : list Z) :
  bytes buffer ->
  forall key, is_byte key -> bytes (decrypt_loop key buffer).
Proof.
  induction 1 as [| x rest Hx Hrest IH]; intros key Hkey; simpl; constructor.
  - rewrite fromCharCode_id; apply lxor_is_byte; assumption.
  - apply IH. exact Hx.
Qed.

Lemma bytes_skipn (n : nat) (buffer : list Z) :
  bytes buffer -> bytes (skipn n buffer).
Proof.
  revert buffer. induction n as [| n IH]; intros buffer H; simpl; [exact H |].
  destruct buffer; [constructor |]. inversion H; subst. apply IH. assumption.
Qed.

(** Whatever bytes arrive, [decrypt] produces code units below 256. *)
Lemma decrypt_bytes (buffer : list Z) : bytes buffer -> bytes (decrypt buffer).
Proof.
  intros H. unfold decrypt. apply decrypt_loop_bytes.
  - apply bytes_skipn, H.
  - unfold is_byte. lia.
Qed.

Lemma encrypt_loop_decrypt_loop (buffer : list Z) :
  bytes buffer ->
  forall key, is_byte key -> encrypt_loop key (decrypt_loop key buffer) = buffer.
Proof.
  induction 1 as [| x rest Hx Hrest IH]; intros key Hkey; simpl.
  - reflexivity.
  - pose proof (lxor_is_byte x key Hx Hkey) as Hd.
    rewrite (fromCharCode_id _ Hd), lxor_cancel, (store_byte_id _ Hx).
    f_equal. apply IH. exact Hx.
Qed.

Lemma decrypt_loop_length (buffer : list Z) :
  forall key, List.length (decrypt_loop key buffer) = List.length buffer.
Proof.
  induction buffer as [| x rest IH]; intros key; simpl; [reflexivity |].
  f_equal. apply IH.
Qed.

(** Four bytes are the header of the number they spell. *)
Lemma write_read_UInt32BE (b0 b1 b2 b3 : Z) (rest : list Z) :
  is_byte b0 -> is_byte b1 -> is_byte b2 -> is_byte b3 ->
  writeUInt32BE (readUInt32BE (b0 :: b1 :: b2 :: b3 :: rest))
    = Some [b0; b1; b2; b3].
Proof.
  unfold is_byte. intros H0 H1 H2 H3. cbn [readUInt32BE].
  change (2 ^ 24) with 16777216. change (2 ^ 16) with 65536.
  change (2 ^ 8) with 256.
  set (n := b0 * 16777216 + b1 * 65536 + b2 * 256 + b3).
  assert (Hn : 0 <= n <= 4294967295) by (subst n; lia).
  unfold writeUInt32BE.
  replace ((0 <=? n) && (n <=? 4294967295)) with true
    by (symmetry; apply andb_true_iff; split; apply Z.leb_le; lia).
  change 255 with (Z.ones 8).
  rewrite !Z.land_ones, !Z.shiftr_div_pow2 by lia.
  change (2 ^ 24) with 16777216. change (2 ^ 16) with 65536.
  change (2 ^ 8) with 256.
  assert (E3 : n mod 256 = b3) by (subst n; Z.div_mod_to_equations; lia).
  assert (E2 : (n / 256) mod 256 = b2)
    by (subst n; Z.div_mod_to_equations; lia).
  assert (E1 : (n / 65536) mod 256 = b1)
    by (subst n; Z.div_mod_to_equations; lia).
  assert (E0 : (n / 16777216) mod 256 = b0)
    by (subst n; Z.div_mod_to_equations; lia).
  rewrite E0, E1, E2, E3. reflexivity.
Qed.

(** X2. [encrypt] fails only on a string too long for the 32-bit header.
    Otherwise the frame is four bytes longer than the string, its header
    reads back as the string's length, and every element of it is a byte,
    whatever code units the string holds. *)
Theorem encrypt_frame_shape (s : list Z) :
  (encrypt s = None <-> 4294967295 < Z.of_nat (List.length s)) /\
  (forall frame,
      encrypt s = Some frame ->
      List.length frame = (4 + List.length s)%nat /\
      readUInt32BE frame = Z.of_nat (List.length s) /\
      bytes frame).
Proof.
  split.
  - unfold encrypt, writeUInt32BE.
    destruct (Z.of_nat (List.length s) <=? 4294967295) eqn:E.
    + replace (0 <=? Z.of_nat (List.length s)) with true
        by (symmetry; apply Z.leb_le; lia).
      apply Z.leb_le in E. split; [discriminate | lia].
    + rewrite andb_false_r. apply Z.leb_gt in E. split; auto.
  - intros frame Hframe.
    destruct (Z_le_gt_dec (Z.of_nat (List.length s)) 4294967295) as [Hle | Hgt].
    + destruct (encrypt_defined s Hle) as (header & Hl & Hr & He).
      rewrite He in Hframe. injection Hframe as <-.
      split; [rewrite length_app, encrypt_loop_length, Hl; reflexivity |].
      split; [exact Hr |].
      unfold encrypt in He.
      destruct (writeUInt32BE (Z.of_nat (List.length s))) as [h |] eqn:Hw;
        [| discriminate].
      injection He as He. apply app_inv_tail in He. subst h.
      apply Forall_app. split.
      * apply (writeUInt32BE_bytes _ _ Hw).
      * apply encrypt_loop_bytes.
    + exfalso. unfold encrypt, writeUInt32BE in Hframe.
      replace (Z.of_nat (List.length s) <=? 4294967295) with false in Hframe
        by (symmetry; apply Z.leb_gt; lia).
      rewrite andb_false_r in Hframe. discriminate.
Qed.

(** X3. The round trip in the other direction: a frame of bytes that is
    longer than four bytes and whose header announces the rest is what
    [encrypt] makes of its decryption. *)
Theorem encrypt_decrypt_frame (frame : list Z) :
  bytes frame ->
  4 < Z.of_nat (List.length frame) ->
  readUInt32BE frame = Z.of_nat (List.length frame) - 4 ->
  encrypt (decrypt frame) = Some frame.
Proof.
  intros Hbytes Hlong Hheader.
  destruct frame as [| b0 [| b1 [| b2 [| b3 payload]]]];
    try (cbn [List.length] in Hlong; lia).
  inversion Hbytes as [| ? ? H0 Hb1]; subst.
  inversion Hb1 as [| ? ? H1 Hb2]; subst.
  inversion Hb2 as [| ? ? H2 Hb3]; subst.
  inversion Hb3 as [| ? ? H3 Hpayload]; subst.
  unfold decrypt.
  replace (4 <? Z.of_nat (List.length (b0 :: b1 :: b2 :: b3 :: payload)))
    with true by (symmetry; apply Z.ltb_lt; exact Hlong).
  rewrite Hheader, Z.eqb_refl. cbn [andb skipn].
  unfold encrypt. rewrite decrypt_loop_length.
  replace (Z.of_nat (List.length payload))
    with (readUInt32BE (b0 :: b1 :: b2 :: b3 :: payload))
    by (rewrite Hheader; cbn [List.length]; lia).
  rewrite (write_read_UInt32BE b0 b1 b2 b3 payload H0 H1 H2 H3).
  rewrite (encrypt_loop_decrypt_loop payload Hpayload 171)
    by (unfold is_byte; lia).
  reflexivity.
Qed.

Lemma encrypt_decrypt_frame_witness :
  encrypt (decrypt [0; 0; 0; 2; 208; 173]) = Some [0; 0; 0; 2; 208; 173].
Proof.
  apply encrypt_decrypt_frame.
  - repeat constructor; unfold is_byte; lia.
  - simpl; lia.
  - reflexivity.
Defined.

(** X4. A string that holds a code unit of 256 or more never survives the
    round trip: [encrypt] keeps only the low byte of each enciphered unit,
    and [decrypt] produces nothing but code units below 256. *)
Theorem wide_string_never_round_trips (s frame : list Z) :
  ~ bytes s ->
  encrypt s = Some frame ->
  decrypt frame <> s.
Proof.
  intros Hwide Hframe Heq. apply Hwide. rewrite <- Heq.
  apply decrypt_bytes.
  unfold encrypt in Hframe.
  destruct (writeUInt32BE (Z.of_nat (List.length s))) as [h |] eqn:Hw;
    [| discriminate].
  injection Hframe as <-. apply Forall_app. split.
  - apply (writeUInt32BE_bytes _ _ Hw).
  - apply encrypt_loop_bytes.
Qed.

Lemma wide_string_never_round_trips_witness :
  encrypt [256] = Some [0; 0; 0; 1; 171] /\
  decrypt [0; 0; 0; 1; 171] <> [256].
Proof.
  split; [reflexivity |].
  apply (wide_string_never_round_trips [256] [0; 0; 0; 1; 171]).
  - intros H. inversion H as [| ? ? Hb _]; subst. unfold is_byte in Hb. lia.
  - reflexivity.
Defined.

End CipherMore.

(* ================================================================== *)
(** * More on the adapter *)
(* ================================================================== *)

Section AdapterMore.

Context {env : Environment}.

Lemma range_check_true (lo hi v : Z) :
  v < lo \/ hi < v -> (v <? lo) || (v >? hi) = true.
Proof.
  intros H. rewrite Z.gtb_ltb. apply orb_true_iff.
  destruct H; [left | right]; apply Z.ltb_lt; assumption.
Qed.

Lemma range_check_false (lo hi v : Z) :
  lo <= v <= hi -> (v <? lo) || (v >? hi) = false.
Proof.
  intros H. rewrite Z.gtb_ltb. apply orb_false_iff.
  split; apply Z.ltb_ge; lia.
Qed.

(** X5. Every numeric setter of the adapter validates before it sends: on
    an argument out of range it throws its message and the world, network
    log included, is as before. *)
Theorem setters_validate_first (self : KasaDevice) (w : World) :
  (forall level,
      level < 0 \/ 100 < level ->
      setBrightness self level w
        = (Throw "Brightness must be between 0 and 100", w)) /\
  (forall hue saturation brightness,
      hue < 0 \/ 360 < hue ->
      setColor self hue saturation brightness w
        = (Throw "Hue must be between 0 and 360", w)) /\
  (forall hue saturation brightness,
      0 <= hue <= 360 ->
      saturation < 0 \/ 100 < saturation ->
      setColor self hue saturation brightness w
        = (Throw "Saturation must be between 0 and 100", w)) /\
  (forall hue saturation level,
      0 <= hue <= 360 -> 0 <= saturation <= 100 ->
      level < 0 \/ 100 < level ->
      setColor self hue saturation (Some level) w
        = (Throw "Brightness must be between 0 and 100", w)) /\
  (forall colorTemp brightness,
      colorTemp < 2500 \/ 9000 < colorTemp ->
      setColorTemperature self colorTemp brightness w
        = (Throw "Color temperature must be between 2500K and 9000K", w)) /\
  (forall colorTemp level,
      2500 <= colorTemp <= 9000 ->
      level < 0 \/ 100 < level ->
      setColorTemperature self colorTemp (Some level) w
        = (Throw "Brightness must be between 0 and 100", w)) /\
  (forall r g b brightness,
      (r < 0 \/ 255 < r) \/ (g < 0 \/ 255 < g) \/ (b < 0 \/ 255 < b) ->
      setRGBColor self r g b brightness w
        = (Throw "RGB values must be between 0 and 255", w)).
Proof.
  repeat split.
  - intros level H. unfold setBrightness.
    rewrite (range_check_true 0 100 level H). reflexivity.
  - intros hue saturation brightness H. unfold setColor.
    rewrite (range_check_true 0 360 hue H). reflexivity.
  - intros hue saturation brightness Hh H. unfold setColor.
    rewrite (range_check_false 0 360 hue Hh),
      (range_check_true 0 100 saturation H). reflexivity.
  - intros hue saturation level Hh Hs H. unfold setColor, send_light_state.
    rewrite (range_check_false 0 360 hue Hh),
      (range_check_false 0 100 saturation Hs),
      (range_check_true 0 100 level H). reflexivity.
  - intros colorTemp brightness H. unfold setColorTemperature.
    rewrite (range_check_true 2500 9000 colorTemp H). reflexivity.
  - intros colorTemp level Hc H. unfold setColorTemperature, send_light_state.
    rewrite (range_check_false 2500 9000 colorTemp Hc),
      (range_check_true 0 100 level H). reflexivity.
  - intros r g b brightness H. unfold setRGBColor.
    replace ((r <? 0) || (r >? 255) || (g <? 0) || (g >? 255)
             || (b <? 0) || (b >? 255)) with true; [reflexivity |].
    symmetry. rewrite <- !orb_assoc.
    change ((r <? 0) || ((r >? 255) || ((g <? 0) || ((g >? 255)
            || ((b <? 0) || (b >? 255))))) = true).
    rewrite !Z.gtb_ltb, !orb_true_iff, !Z.ltb_lt. lia.
Qed.

(** ** The relay commands *)

Lemma relay_code_not_null (response : Js.value) (code : Js.value) :
  relay_err_code response = Some code -> response <> Js.JNull.
Proof. intros H ->. discriminate H. Qed.

Lemma relay_check_passes (failure : string) (response : Js.value) (w : World) :
  relay_err_code response = Some (Js.JNum 0) ->
  (system <- member response "system" ;;
   if negb (Js.is_num
              (Js.get_opt (Js.get_opt system "set_relay_state") "err_code") 0)
   then throw failure
   else ret tt) w = (Ok tt, w).
Proof.
  intros H. unfold bind.
  rewrite (member_not_null _ _ (relay_code_not_null _ _ H)).
  unfold relay_err_code in H. cbn [ret]. rewrite H. reflexivity.
Qed.

(** X6. [turnOn] and [turnOff] return normally exactly when the exchange
    settles with a reply whose [system.set_relay_state.err_code] is the
    number 0; a reply without that code counts as a failure. *)
Theorem relay_command_succeeds_iff_code_zero (self : KasaDevice) (w : World) :
  (fst (turnOn self w) = Ok tt <->
   exists response,
     exchange (net_log w) (kasa_ip self) cmd_power_on = NetReply response /\
     relay_err_code response = Some (Js.JNum 0)) /\
  (fst (turnOff self w) = Ok tt <->
   exists response,
     exchange (net_log w) (kasa_ip self) cmd_power_off = NetReply response /\
     relay_err_code response = Some (Js.JNum 0)).
Proof.
  split; split.
  - intros H. destruct (turnOn self w) as [r w'] eqn:E. simpl in H. subst r.
    exact (turnOn_succeeds_only_on_code_zero self w w' E).
  - intros (response & Hreply & Hcode).
    unfold turnOn, bind at 1, sendCommand. unfold cmd_power_on in Hreply.
    rewrite Hreply.
    rewrite (relay_check_passes "Failed to turn on device" response _ Hcode).
    reflexivity.
  - intros H. destruct (turnOff self w) as [r w'] eqn:E. simpl in H. subst r.
    exact (turnOff_succeeds_only_on_code_zero self w w' E).
  - intros (response & Hreply & Hcode).
    unfold turnOff, bind at 1, sendCommand. unfold cmd_power_off in Hreply.
    rewrite Hreply.
    rewrite (relay_check_passes "Failed to turn off device" response _ Hcode).
    reflexivity.
Qed.

(** ** Polling *)

(** X7. [testConnection] never throws and sends the info query once; it
    answers [true] exactly when the exchange settles with a reply that
    parses, whatever the reply holds. *)
Theorem testConnection_probes_once (self : KasaDevice) (w : World) :
  testConnection self w
    = (Ok (match exchange (net_log w) (kasa_ip self) cmd_get_sysinfo with
           | NetReply _ => true
           | _ => false
           end),
       sent_to (kasa_ip self) cmd_get_sysinfo w).
Proof.
  unfold testConnection, try_catch, bind, getDeviceInfo, sendCommand, sent_to.
  destruct (exchange (net_log w) (kasa_ip self) cmd_get_sysinfo); reflexivity.
Qed.

Lemma getState_on_reply (self : KasaDevice) (info : Js.value) (w : World) :
  exchange (net_log w) (kasa_ip self) cmd_get_sysinfo = NetReply info ->
  getState self w
    = (if Js.truthy (sysinfo_of info)
       then Ok (decode_state (sysinfo_of info))
       else Throw (match info with
                   | Js.JNull =>
                       "Cannot read properties of null (reading 'system')"
                   | _ => "Unable to get device info"
                   end)%string,
       sent_to (kasa_ip self) cmd_get_sysinfo w).
Proof.
  intros H. unfold getState, bind at 1, getDeviceInfo, sendCommand. rewrite H.
  unfold sysinfo_of, sent_to, bind.
  destruct info; try reflexivity;
    cbn [member ret Js.get];
    match goal with
    | |- context [Js.truthy ?x] => destruct (Js.truthy x)
    end; reflexivity.
Qed.

Lemma getState_without_reply (self : KasaDevice) (w : World) :
  (forall info,
      exchange (net_log w) (kasa_ip self) cmd_get_sysinfo <> NetReply info) ->
  exists message,
    getState self w
      = (Throw message, sent_to (kasa_ip self) cmd_get_sysinfo w).
Proof.
  intros H. unfold getState, bind at 1, getDeviceInfo, sendCommand, sent_to.
  destruct (exchange (net_log w) (kasa_ip self) cmd_get_sysinfo) as [info | | |];
    [exfalso; apply (H info); reflexivity | eexists; reflexivity ..].
Qed.

(** X8. [getState] sends the info query once and touches nothing else.  It
    returns a state exactly when the exchange settles with a reply whose
    [system.get_sysinfo] is truthy, and the state is then the decoding of
    that structure; a failed exchange, a [null] reply and a reply without
    system information all make it throw. *)
Theorem getState_outcomes (self : KasaDevice) (w : World) :
  snd (getState self w) = sent_to (kasa_ip self) cmd_get_sysinfo w /\
  (forall state,
      fst (getState self w) = Ok state <->
      exists info,
        exchange (net_log w) (kasa_ip self) cmd_get_sysinfo = NetReply info /\
        Js.truthy (sysinfo_of info) = true /\
        state = decode_state (sysinfo_of info)).
Proof.
  destruct (exchange (net_log w) (kasa_ip self) cmd_get_sysinfo)
    as [info | m | m |] eqn:E.
  - rewrite (getState_on_reply self info w E). split; [reflexivity |].
    intros state. cbn [fst]. split.
    + destruct (Js.truthy (sysinfo_of info)) eqn:Et; [| discriminate].
      intros [= <-]. exists info. auto.
    + intros (info' & [= <-] & Ht & ->). rewrite Ht. reflexivity.
  - destruct (getState_without_reply self w) as (message & H).
    { intros info. rewrite E. discriminate. }
    rewrite H. split; [reflexivity |]. intros state. split; [discriminate |].
    intros (info & Hi & _). discriminate Hi.
  - destruct (getState_without_reply self w) as (message & H).
    { intros info. rewrite E. discriminate. }
    rewrite H. split; [reflexivity |]. intros state. split; [discriminate |].
    intros (info & Hi & _). discriminate Hi.
  - destruct (getState_without_reply self w) as (message & H).
    { intros info. rewrite E. discriminate. }
    rewrite H. split; [reflexivity |]. intros state. split; [discriminate |].
    intros (info & Hi & _). discriminate Hi.
Qed.

(** ** The unified request *)

(** X9. With action on, [control] issues the power-on command first.  If
    that fails the call fails with the same error and nothing else is
    sent; otherwise the settings follow, as at most one lighting-service
    command. *)
Theorem control_on_powers_first (self : KasaDevice)
  (request : DeviceControlRequest.t) (w : World) :
  DeviceControlRequest.action request = action_on ->
  let ip := kasa_ip self in
  (forall message w1,
      turnOn self w = (Throw message, w1) ->
      control self request w = (Throw message, w1) /\
      net_log w1 = net_log w ++ [(ip, cmd_power_on)]) /\
  (forall w1,
      turnOn self w = (Ok tt, w1) ->
      control self request w = apply_settings self request w1 /\
      exists sent,
        net_log (snd (control self request w))
          = net_log w ++ [(ip, cmd_power_on)] ++ sent /\
        light_only ip sent).
Proof.
  intros Haction ip. pose proof (turnOn_log self w) as Hlog.
  unfold control. rewrite Haction. unfold bind. split.
  - intros message w1 Hon. rewrite Hon in *. split; [reflexivity | exact Hlog].
  - intros w1 Hon. rewrite Hon in *. split; [reflexivity |].
    destruct (apply_settings_log self request w1) as (sent & Hs & Hl).
    exists sent. cbn [snd] in Hlog. rewrite Hs, Hlog, <- app_assoc.
    split; [reflexivity | exact Hl].
Qed.

(** X10. Settings given together travel in one command.  After a power-on
    that succeeded, a request without colour but with hue and saturation
    sends one lighting command carrying hue, saturation and the brightness,
    whatever colour temperature it also names; a request with neither
    colour nor hue but a colour temperature sends one command carrying the
    colour temperature and the brightness. *)
Theorem settings_are_merged (self : KasaDevice) (w w1 : World)
  (level : Z) (transition : option Z) :
  turnOn self w = (Ok tt, w1) ->
  0 <= level <= 100 ->
  let ip := kasa_ip self in
  (forall hue saturation color_temp,
      0 <= hue <= 360 -> 0 <= saturation <= 100 ->
      net_log (snd (control self
                      (DeviceControlRequest.mk action_on (Some level) None
                         color_temp (Some hue) (Some saturation) transition)
                      w))
        = net_log w
          ++ [(ip, cmd_power_on);
              (ip, cmd_transition_light_state
                     [("hue"%string, Js.JNum hue);
                      ("saturation"%string, Js.JNum saturation);
                      ("ignore_default"%string, Js.JNum 1);
                      ("brightness"%string, Js.JNum level)])]) /\
  (forall color_temp saturation,
      2500 <= color_temp <= 9000 ->
      net_log (snd (control self
                      (DeviceControlRequest.mk action_on (Some level) None
                         (Some color_temp) None saturation transition)
                      w))
        = net_log w
          ++ [(ip, cmd_power_on);
              (ip, cmd_transition_light_state
                     [("color_temp"%string, Js.JNum color_temp);
                      ("ignore_default"%string, Js.JNum 1);
                      ("brightness"%string, Js.JNum level)])]).
Proof.
  intros Hon Hlevel ip. pose proof (turnOn_log self w) as Hlog.
  rewrite Hon in Hlog. cbn [snd] in Hlog. split.
  - intros hue saturation color_temp Hh Hs.
    unfold control. cbn [DeviceControlRequest.action]. unfold bind at 1.
    rewrite Hon. unfold apply_settings.
    cbn [DeviceControlRequest.color DeviceControlRequest.hue
         DeviceControlRequest.saturation DeviceControlRequest.brightness].
    unfold setColor, send_light_state.
    rewrite (range_check_false 0 360 hue Hh),
      (range_check_false 0 100 saturation Hs),
      (range_check_false 0 100 level Hlevel).
    rewrite send_light_log, Hlog, <- app_assoc. reflexivity.
  - intros color_temp saturation Hc.
    unfold control. cbn [DeviceControlRequest.action]. unfold bind at 1.
    rewrite Hon. unfold apply_settings.
    cbn [DeviceControlRequest.color DeviceControlRequest.hue
         DeviceControlRequest.saturation DeviceControlRequest.brightness
         DeviceControlRequest.color_temp].
    replace (color_temp =? 0) with false by (symmetry; apply Z.eqb_neq; lia).
    cbn [negb]. unfold setColorTemperature, send_light_state.
    rewrite (range_check_false 2500 9000 color_temp Hc),
      (range_check_false 0 100 level Hlevel).
    rewrite send_light_log, Hlog, <- app_assoc. reflexivity.
Qed.

End AdapterMore.

Lemma setters_validate_first_witness :
  @setBrightness Scenario.refusing_bulb Scenario.controller 101 Scenario.home
    = (Throw "Brightness must be between 0 and 100", Scenario.home) /\
  @setRGBColor Scenario.refusing_bulb Scenario.controller 255 256 0 None
    Scenario.home
    = (Throw "RGB values must be between 0 and 255", Scenario.home).
Proof.
  pose proof (@setters_validate_first Scenario.refusing_bulb
                Scenario.controller Scenario.home)
    as (Hb & _ & _ & _ & _ & _ & Hrgb).
  split.
  - apply Hb. lia.
  - apply Hrgb. lia.
Defined.

Lemma control_on_powers_first_witness :
  DeviceControlRequest.action Scenario2.warm_request = action_on /\
  @control Scenario.failing_device Scenario.controller Scenario2.warm_request
    Scenario.home
    = (Throw "Failed to turn on device",
       sent_to "192.168.87.20" cmd_power_on Scenario.home).
Proof.
  split; [reflexivity |].
  pose proof (@control_on_powers_first Scenario.failing_device
                Scenario.controller Scenario2.warm_request Scenario.home
                eq_refl) as (Hfail & _).
  exact (proj1 (Hfail "Failed to turn on device"%string _ eq_refl)).
Defined.

Lemma settings_are_merged_witness :
  net_log (snd (@control Scenario2.working Scenario.controller
                  Scenario2.warm_request Scenario.home))
    = [("192.168.87.20"%string, cmd_power_on);
       ("192.168.87.20"%string,
        cmd_transition_light_state
          [("color_temp"%string, Js.JNum 2700);
           ("ignore_default"%string, Js.JNum 1);
           ("brightness"%string, Js.JNum 40)])].
Proof.
  pose proof (@settings_are_merged Scenario2.working Scenario.controller
                Scenario.home _ 40 None eq_refl ltac:(lia)) as (_ & Htemp).
  exact (Htemp 2700 None ltac:(lia)).
Defined.

(* ================================================================== *)
(** * Discovery: [fromDeviceInfo] *)
(* ================================================================== *)

Section DiscoveryFacts.

Lemma capabilities_of_spec (sysinfo : Js.jsval) :
  let caps := capabilities_of sysinfo in
  In cap_power caps /\
  NoDup caps /\
  (In cap_brightness caps <->
   Js.is_num (Js.get_opt sysinfo "is_dimmable") 1 = true) /\
  (In cap_color caps <-> Js.is_num (Js.get_opt sysinfo "is_color") 1 = true) /\
  (In cap_color_temp caps <->
   Js.is_num (Js.get_opt sysinfo "is_variable_color_temp") 1 = true).
Proof.
  unfold capabilities_of.
  destruct (Js.is_num (Js.get_opt sysinfo "is_dimmable") 1);
    destruct (Js.is_num (Js.get_opt sysinfo "is_color") 1);
    destruct (Js.is_num (Js.get_opt sysinfo "is_variable_color_temp") 1);
    cbn [app]; (split; [left; reflexivity |]); (split; [|]);
    try (repeat constructor; cbn [In]; intuition discriminate);
    repeat split; intros H; try reflexivity; try discriminate H;
    cbn [In] in *; intuition discriminate.
Qed.

(** X11. What [fromDeviceInfo] returns for a reply always lists the power
    capability, lists no capability twice, and lists brightness, colour
    and colour temperature exactly when the reply's [is_dimmable],
    [is_color] and [is_variable_color_temp] are the number 1, in agreement
    with the feature flags it returns; the brand is kasa and the address
    is the one given.  A reply without system information is refused. *)
Theorem fromDeviceInfo_capabilities (ip : string) (info : Js.value) :
  (Js.truthy (sysinfo_of info) = false ->
   exists message, fromDeviceInfo ip info = Throw message) /\
  (forall d,
      fromDeviceInfo ip info = Ok d ->
      let caps := DiscoveredDevice.capabilities d in
      let flags := DiscoveredDevice.features d in
      Js.truthy (sysinfo_of info) = true /\
      DiscoveredDevice.brand d = kasa /\
      DiscoveredDevice.ip d = ip /\
      In cap_power caps /\
      NoDup caps /\
      (In cap_brightness caps <-> is_dimmable flags = Some true) /\
      (In cap_color caps <-> is_color flags = Some true) /\
      (In cap_color_temp caps <-> is_variable_color_temp flags = Some true) /\
      (is_dimmable flags = Some true <->
       Js.get_opt (sysinfo_of info) "is_dimmable" = Some (Js.JNum 1))).
Proof.
  assert (Hnum : forall o, Js.is_num o 1 = true <-> o = Some (Js.JNum 1)).
  { intros [[| | n | | |] |]; cbn; split; try discriminate.
    - intros H. apply Z.eqb_eq in H. subst. reflexivity.
    - intros [= ->]. reflexivity. }
  assert (Hflag : forall flag : bool, Some flag = Some true <-> flag = true).
  { intros flag. split; [intros [= ->]; reflexivity | intros ->; reflexivity]. }
  split.
  - intros Hfalsy. unfold fromDeviceInfo.
    destruct info; try (eexists; reflexivity);
      unfold sysinfo_of in Hfalsy; rewrite Hfalsy; eexists; reflexivity.
  - intros d Hd caps flags. subst caps flags.
    unfold fromDeviceInfo in Hd. fold (sysinfo_of info) in Hd.
    assert (Hnot_null : info <> Js.JNull) by (intros ->; discriminate Hd).
    assert (Hbody :
      (if negb (Js.truthy (sysinfo_of info))
       then Throw "Invalid device info response"
       else
         match type_of_mic_type (Js.get_opt (sysinfo_of info) "mic_type") with
         | Throw message => Throw message
         | Ok type =>
             Ok (DiscoveredDevice.mk
                   (Js.get_opt (sysinfo_of info) "mac")
                   (Js.or (Js.get_opt (sysinfo_of info) "alias")
                          (Js.get_opt (sysinfo_of info) "dev_name"))
                   (Js.get_opt (sysinfo_of info) "alias")
                   type kasa
                   (Js.get_opt (sysinfo_of info) "model")
                   ip
                   (capabilities_of (sysinfo_of info))
                   (Js.get_opt (sysinfo_of info) "deviceId")
                   (Js.get_opt (sysinfo_of info) "sw_ver")
                   (Js.get_opt (sysinfo_of info) "hw_ver")
                   (mkFeatures
                      (Some (Js.is_num
                               (Js.get_opt (sysinfo_of info) "is_dimmable") 1))
                      (Some (Js.is_num
                               (Js.get_opt (sysinfo_of info) "is_color") 1))
                      (Some (Js.is_num
                               (Js.get_opt (sysinfo_of info)
                                  "is_variable_color_temp") 1))))
         end) = Ok d).
    { destruct info; try exact Hd. congruence. }
    clear Hd.
    destruct (Js.truthy (sysinfo_of info)) eqn:Et; [| discriminate Hbody].
    cbn [negb] in Hbody.
    destruct (type_of_mic_type (Js.get_opt (sysinfo_of info) "mic_type"));
      [| discriminate Hbody].
    injection Hbody as <-.
    cbn [DiscoveredDevice.capabilities DiscoveredDevice.features
         DiscoveredDevice.brand DiscoveredDevice.ip
         is_dimmable is_color is_variable_color_temp].
    destruct (capabilities_of_spec (sysinfo_of info))
      as (Hp & Hnd & Hb & Hc & Ht).
    rewrite !Hflag, <- Hnum.
    repeat split; auto; try apply Hb; try apply Hc; try apply Ht.
Qed.

End DiscoveryFacts.

Lemma fromDeviceInfo_capabilities_witness :
  exists d,
    fromDeviceInfo "192.168.87.20" Scenario2.sysinfo_color_bulb = Ok d /\
    DiscoveredDevice.type d = light /\
    DiscoveredDevice.capabilities d = [cap_power; cap_brightness; cap_color] /\
    (In cap_brightness (DiscoveredDevice.capabilities d) <->
     is_dimmable (DiscoveredDevice.features d) = Some true).
Proof.
  eexists. split; [reflexivity |]. split; [reflexivity |].
  split; [reflexivity |].
  pose proof (proj2 (fromDeviceInfo_capabilities "192.168.87.20"
                       Scenario2.sysinfo_color_bulb) _ eq_refl)
    as (_ & _ & _ & _ & _ & Hb & _).
  exact Hb.
Defined.

(* ================================================================== *)
(** * More on the registry *)
(* ================================================================== *)

Section RegistryMore.

Context {env : Environment}.

(** ** The map, continued *)

Lemma map_get_set_other (key other : string) (v : Device.t) (m : Registry) :
  other <> key -> map_get other (map_set key v m) = map_get other m.
Proof.
  intros Hne. induction m as [| [k v'] rest IH]; simpl.
  - destruct (String.eqb other key) eqn:E; [| reflexivity].
    apply String.eqb_eq in E. contradiction.
  - destruct (String.eqb key k) eqn:E; simpl.
    + apply String.eqb_eq in E. subst k.
      destruct (String.eqb other key) eqn:E'; [| reflexivity].
      apply String.eqb_eq in E'. contradiction.
    + destruct (String.eqb other k); [reflexivity | exact IH].
Qed.

Lemma map_set_present (key : string) (v old : Device.t) (m : Registry) :
  map_get key m = Some old ->
  List.map fst (map_set key v m) = List.map fst m.
Proof.
  induction m as [| [k v'] rest IH]; simpl; [discriminate |].
  destruct (String.eqb key k) eqn:E; simpl.
  - reflexivity.
  - intros H. rewrite (IH H). reflexivity.
Qed.

Lemma map_set_absent (key : string) (v : Device.t) (m : Registry) :
  map_get key m = None -> map_set key v m = m ++ [(key, v)].
Proof.
  induction m as [| [k v'] rest IH]; simpl; [reflexivity |].
  destruct (String.eqb key k) eqn:E; [discriminate |].
  intros H. rewrite (IH H). reflexivity.
Qed.

Lemma map_get_delete_other (key other : string) (m : Registry) :
  other <> key ->
  map_get other (fst (map_delete key m)) = map_get other m.
Proof.
  intros Hne. induction m as [| [k v] rest IH]; simpl; [reflexivity |].
  destruct (String.eqb key k) eqn:E.
  - apply String.eqb_eq in E. subst k. simpl.
    destruct (String.eqb other key) eqn:E'; [| reflexivity].
    apply String.eqb_eq in E'. contradiction.
  - destruct (map_delete key rest) as [rest' deleted]. simpl in *.
    destruct (String.eqb other k); [reflexivity | exact IH].
Qed.

Lemma map_delete_length (key : string) (m : Registry) (v : Device.t) :
  map_get key m = Some v ->
  S (List.length (fst (map_delete key m))) = List.length m.
Proof.
  induction m as [| [k v'] rest IH]; simpl; [discriminate |].
  destruct (String.eqb key k) eqn:E; [reflexivity |].
  intros H. specialize (IH H).
  destruct (map_delete key rest) as [rest' deleted]. simpl in *. lia.
Qed.

Lemma map_delete_appended (key : string) (v : Device.t) (m : Registry) :
  map_get key m = None -> map_delete key (m ++ [(key, v)]) = (m, true).
Proof.
  induction m as [| [k v'] rest IH]; simpl.
  - rewrite String.eqb_refl. reflexivity.
  - destruct (String.eqb key k) eqn:E; [discriminate |].
    intros H. rewrite (IH H). reflexivity.
Qed.

(** ** Insert and look up *)

(** X12. After [addDevice] the registry answers the device's id with the
    device, stamped with the clock reading of the call, and every other id
    as before.  A device whose id was already registered replaces the old
    entry at its position; a new one goes to the end, so the number of
    devices grows by one only then. *)
Theorem addDevice_then_getDevice (device : Device.t) (w : World) :
  exists w',
    addDevice device w = (Ok tt, w') /\
    map_get (Device.id device) (devices w')
      = Some (Device.set_lastSeen (Some (clock (ticks w))) device) /\
    (forall other,
        other <> Device.id device ->
        map_get other (devices w') = map_get other (devices w)) /\
    List.map fst (devices w')
      = (match map_get (Device.id device) (devices w) with
         | Some _ => List.map fst (devices w)
         | None => List.map fst (devices w) ++ [Device.id device]
         end).
Proof.
  destruct (addDevice_runs device w) as (w' & Hrun & Hdev & _).
  exists w'. split; [exact Hrun |]. rewrite Hdev.
  split; [apply map_get_set_same |].
  split; [intros other Hne; apply map_get_set_other, Hne |].
  destruct (map_get (Device.id device) (devices w)) as [old |] eqn:Hget.
  - exact (map_set_present _ _ old _ Hget).
  - rewrite (map_set_absent _ _ _ Hget), map_app. reflexivity.
Qed.

(** X13. [removeDevice] on a registered id takes exactly that entry away:
    the id is then unknown, every other id answers as before, and the
    registry is one device shorter. *)
Theorem removeDevice_removes_one (id : string) (device : Device.t)
  (w : World) :
  wf_registry (devices w) ->
  map_get id (devices w) = Some device ->
  exists w',
    removeDevice id w = (Ok true, w') /\
    map_get id (devices w') = None /\
    (forall other,
        other <> id -> map_get other (devices w') = map_get other (devices w)) /\
    S (List.length (devices w')) = List.length (devices w).
Proof.
  intros Hwf Hget.
  destruct (removeDevice_runs id device w Hget) as (w' & Hrun & Hdev & _).
  exists w'. split; [exact Hrun |]. rewrite Hdev.
  split; [apply map_get_delete, Hwf |].
  split; [intros other Hne; apply map_get_delete_other, Hne |].
  exact (map_delete_length id (devices w) device Hget).
Qed.

(** X14. Adding a device under an id that was not registered and removing
    it again gives back the device map as it was; both calls hand a
    snapshot to the disk. *)
Theorem add_then_remove_restores (device : Device.t) (w : World) :
  map_get (Device.id device) (devices w) = None ->
  exists w1 w2,
    addDevice device w = (Ok tt, w1) /\
    removeDevice (Device.id device) w1 = (Ok true, w2) /\
    devices w2 = devices w /\
    List.length (disk_log w2) = S (S (List.length (disk_log w))).
Proof.
  intros Habsent.
  destruct (addDevice_runs device w) as (w1 & Hadd & Hdev1 & Hlog1 & _).
  cbv zeta in Hdev1. rewrite (map_set_absent _ _ _ Habsent) in Hdev1.
  assert (Hget1 : map_get (Device.id device) (devices w1)
                  = Some (Device.set_lastSeen (Some (clock (ticks w))) device)).
  { rewrite Hdev1, <- (map_set_absent _ _ _ Habsent). apply map_get_set_same. }
  destruct (removeDevice_runs (Device.id device) _ w1 Hget1)
    as (w2 & Hremove & Hdev2 & Hlog2 & _).
  exists w1, w2. split; [exact Hadd |]. split; [exact Hremove |]. split.
  - rewrite Hdev2, Hdev1, (map_delete_appended _ _ _ Habsent). reflexivity.
  - rewrite Hlog2, Hlog1, !length_app. simpl. lia.
Qed.

(** ** What the status operations touch *)

Lemma restore_online (device : Device.t) (online : option bool) (now : option Z) :
  Device.set_lastSeen (Device.lastSeen device)
    (Device.set_online (Device.online device)
       (Device.set_lastSeen now (Device.set_online online device)))
  = device.
Proof. destruct device; reflexivity. Qed.

Lemma restore_state (device : Device.t) (state : option DeviceState.t)
  (now : option Z) :
  Device.set_lastSeen (Device.lastSeen device)
    (Device.set_state (Device.state device)
       (Device.set_lastSeen now (Device.set_state state device)))
  = device.
Proof. destruct device; reflexivity. Qed.

(** X15. [setDeviceOnlineStatus] and [updateDeviceState] on a registered id
    change the online flag, respectively the state, and the last-seen
    stamp of that device and nothing else: putting the old values of the
    two fields back gives the device as it was, the order of the registry
    is the same, and every other id answers as before. *)
Theorem status_operations_touch_two_fields (id : string) (device : Device.t)
  (w : World) :
  map_get id (devices w) = Some device ->
  (forall online, exists w' stored,
      setDeviceOnlineStatus id online w = (Ok true, w') /\
      map_get id (devices w') = Some stored /\
      Device.online stored = Some online /\
      Device.set_lastSeen (Device.lastSeen device)
        (Device.set_online (Device.online device) stored) = device /\
      List.map fst (devices w') = List.map fst (devices w) /\
      (forall other,
          other <> id ->
          map_get other (devices w') = map_get other (devices w))) /\
  (forall state, exists w' stored,
      updateDeviceState id state w = (Ok true, w') /\
      map_get id (devices w') = Some stored /\
      Device.state stored = Some state /\
      Device.set_lastSeen (Device.lastSeen device)
        (Device.set_state (Device.state device) stored) = device /\
      List.map fst (devices w') = List.map fst (devices w) /\
      (forall other,
          other <> id ->
          map_get other (devices w') = map_get other (devices w))).
Proof.
  intros Hget. split.
  - intros online.
    destruct (setDeviceOnlineStatus_runs id online device w Hget)
      as (w' & Hrun & Hdev & _).
    exists w'. eexists. split; [exact Hrun |]. rewrite Hdev.
    split; [apply map_get_set_same |]. split; [reflexivity |].
    split; [apply restore_online |].
    split; [exact (map_set_present _ _ device _ Hget) |].
    intros other Hne. apply map_get_set_other, Hne.
  - intros state.
    destruct (updateDeviceState_runs id state device w Hget)
      as (w' & Hrun & Hdev & _).
    exists w'. eexists. split; [exact Hrun |]. rewrite Hdev.
    split; [apply map_get_set_same |]. split; [reflexivity |].
    split; [apply restore_state |].
    split; [exact (map_set_present _ _ device _ Hget) |].
    intros other Hne. apply map_get_set_other, Hne.
Qed.

(** X16. [updateDevice] merges the update over the stored device and keeps
    it under the key it had: the keys of the registry and their order do
    not change even when the update carries another [id], which then only
    shows in the device's own [id] field; a [lastSeen] carried by the
    update is overridden by the clock. *)
Theorem updateDevice_keeps_the_key (id : string) (device : Device.t)
  (updates : PartialDevice.t) (w : World) :
  map_get id (devices w) = Some device ->
  exists w' stored,
    updateDevice id updates w = (Ok true, w') /\
    map_get id (devices w') = Some stored /\
    List.map fst (devices w') = List.map fst (devices w) /\
    Device.id stored = override (Device.id device) (PartialDevice.id updates) /\
    Device.lastSeen stored = Some (clock (ticks w)) /\
    Device.set_lastSeen (Device.lastSeen (spread device updates)) stored
      = spread device updates /\
    (forall other,
        other <> id -> map_get other (devices w') = map_get other (devices w)).
Proof.
  intros Hget.
  destruct (updateDevice_runs id updates device w Hget)
    as (w' & Hrun & Hdev & _).
  exists w'. eexists. split; [exact Hrun |]. rewrite Hdev.
  split; [apply map_get_set_same |].
  split; [exact (map_set_present _ _ device _ Hget) |].
  split; [reflexivity |]. split; [reflexivity |].
  split; [destruct device, updates; reflexivity |].
  intros other Hne. apply map_get_set_other, Hne.
Qed.

End RegistryMore.

Lemma removeDevice_removes_one_witness :
  wf_registry (devices Scenario2.mixed_home) /\
  exists w',
    @removeDevice Scenario.unreachable "lamp" Scenario2.mixed_home
      = (Ok true, w') /\
    map_get "lamp" (devices w') = None /\
    map_get "strip" (devices w') = Some Scenario2.tuya_plug.
Proof.
  assert (Hwf : wf_registry (devices Scenario2.mixed_home)).
  { repeat constructor; cbn; intuition discriminate. }
  split; [exact Hwf |].
  destruct (@removeDevice_removes_one Scenario.unreachable "lamp"
              Scenario.lamp Scenario2.mixed_home Hwf eq_refl)
    as (w' & Hrun & Hgone & Hother & _).
  exists w'. split; [exact Hrun |]. split; [exact Hgone |].
  rewrite (Hother "strip"%string ltac:(discriminate)). reflexivity.
Defined.

Lemma add_then_remove_restores_witness :
  exists w1 w2,
    @addDevice Scenario.unreachable Scenario2.tuya_plug Scenario.home
      = (Ok tt, w1) /\
    @removeDevice Scenario.unreachable "strip" w1 = (Ok true, w2) /\
    devices w2 = devices Scenario.home.
Proof.
  destruct (@add_then_remove_restores Scenario.unreachable Scenario2.tuya_plug
              Scenario.home eq_refl) as (w1 & w2 & Hadd & Hremove & Hdev & _).
  exists w1, w2. auto.
Defined.

Lemma status_operations_touch_two_fields_witness :
  exists w' stored,
    @updateDeviceState Scenario.unreachable "lamp" DeviceState.empty
      Scenario2.mixed_home = (Ok true, w') /\
    map_get "lamp" (devices w') = Some stored /\
    Device.state stored = Some DeviceState.empty /\
    map_get "strip" (devices w') = Some Scenario2.tuya_plug.
Proof.
  destruct (@status_operations_touch_two_fields Scenario.unreachable "lamp"
              Scenario.lamp Scenario2.mixed_home eq_refl) as (_ & Hstate).
  destruct (Hstate DeviceState.empty)
    as (w' & stored & Hrun & Hget & Hst & _ & _ & Hother).
  exists w', stored. split; [exact Hrun |]. split; [exact Hget |].
  split; [exact Hst |].
  rewrite (Hother "strip"%string ltac:(discriminate)). reflexivity.
Defined.

Lemma updateDevice_keeps_the_key_witness :
  exists w' stored,
    @updateDevice Scenario.unreachable "lamp"
      (PartialDevice.mk (Some "bulb"%string) None None None None None None
         None None None None None None None None None (Some (Some 99)) None)
      Scenario.home = (Ok true, w') /\
    map_get "lamp" (devices w') = Some stored /\
    List.map fst (devices w') = ["lamp"%string] /\
    Device.id stored = "bulb"%string /\
    Device.lastSeen stored = Some 0.
Proof.
  destruct (@updateDevice_keeps_the_key Scenario.unreachable "lamp"
              Scenario.lamp
              (PartialDevice.mk (Some "bulb"%string) None None None None None
                 None None None None None None None None None None
                 (Some (Some 99)) None)
              Scenario.home eq_refl)
    as (w' & stored & Hrun & Hget & Hkeys & Hid & Hseen & _).
  exists w', stored. auto.
Defined.

(* ================================================================== *)
(** * The registry across a restart *)
(* ================================================================== *)

Section PersistFacts.

Context {env : Environment}.

Lemma keyed_get (id : string) (device : Device.t) (m : Registry) :
  keyed_by_id m -> map_get id m = Some device -> Device.id device = id.
Proof.
  unfold keyed_by_id. induction m as [| [k v] rest IH]; simpl; [discriminate |].
  intros Hk. inversion Hk as [| ? ? Hhead Hrest]; subst. simpl in Hhead.
  destruct (String.eqb id k) eqn:E.
  - apply String.eqb_eq in E. intros [= ->]. congruence.
  - apply IH, Hrest.
Qed.

Lemma map_set_keyed (key : string) (v : Device.t) (m : Registry) :
  key = Device.id v -> keyed_by_id m -> keyed_by_id (map_set key v m).
Proof.
  unfold keyed_by_id. intros Hkey.
  induction m as [| [k v'] rest IH]; simpl; intros Hk.
  - constructor; [exact Hkey | constructor].
  - apply Forall_cons_iff in Hk. destruct Hk as [Hhead Hrest].
    destruct (String.eqb key k) eqn:E.
    + apply String.eqb_eq in E. constructor; [simpl; congruence | exact Hrest].
    + constructor; [exact Hhead | apply IH, Hrest].
Qed.

Lemma map_delete_keyed (key : string) (m : Registry) :
  keyed_by_id m -> keyed_by_id (fst (map_delete key m)).
Proof.
  unfold keyed_by_id.
  induction m as [| [k v] rest IH]; simpl; intros Hk; [constructor |].
  inversion Hk as [| ? ? Hhead Hrest]; subst.
  destruct (String.eqb key k); [exact Hrest |].
  specialize (IH Hrest). destruct (map_delete key rest) as [rest' deleted].
  constructor; assumption.
Qed.

Lemma map_set_ok (key : string) (v : Device.t) (m : Registry) :
  key = Device.id v -> registry_ok m -> registry_ok (map_set key v m).
Proof.
  intros Hkey (Hwf & Hk). split; [apply map_set_wf, Hwf |].
  apply map_set_keyed; assumption.
Qed.

Lemma load_devices_ok (snapshot : list Device.t) :
  forall m, registry_ok m -> registry_ok (load_devices snapshot m).
Proof.
  unfold load_devices.
  induction snapshot as [| d rest IH]; intros m Hok; simpl; [exact Hok |].
  apply IH, map_set_ok; [reflexivity | exact Hok].
Qed.

(** Loading the values of a well-formed registry onto a registry that
    shares no key with it appends them in order. *)
Lemma load_devices_appends (m2 : Registry) :
  forall m1,
    keyed_by_id m2 ->
    wf_registry (m1 ++ m2) ->
    load_devices (map_values m2) m1 = m1 ++ m2.
Proof.
  unfold load_devices, map_values, keyed_by_id, wf_registry.
  induction m2 as [| [k d] rest IH]; intros m1 Hk Hwf; simpl.
  - rewrite app_nil_r. reflexivity.
  - inversion Hk as [| ? ? Hhead Hrest]; subst. simpl in Hhead. subst k.
    assert (Habsent : map_get (Device.id d) m1 = None).
    { apply map_get_absent_keys. intros Hin.
      rewrite map_app in Hwf. simpl in Hwf.
      apply NoDup_remove_2 in Hwf. apply Hwf.
      apply in_or_app. left. exact Hin. }
    rewrite (map_set_absent _ _ _ Habsent).
    rewrite IH; [rewrite <- app_assoc; reflexivity | exact Hrest |].
    rewrite <- app_assoc. exact Hwf.
Qed.

(** X17. Restart after a save: when every device is stored under its own
    id and the write goes through, a registry constructed afterwards from
    the file holds the same devices under the same keys in the same order.
    When the write fails and there was no file, the new registry is
    empty. *)
Theorem restart_restores_registry (w : World) :
  registry_ok (devices w) ->
  exists w1 w2,
    saveRegistry w = (Ok tt, w1) /\
    new_DeviceRegistry w1 = (Ok tt, w2) /\
    (disk_ok (List.length (disk_log w)) = true -> devices w2 = devices w) /\
    (disk_ok (List.length (disk_log w)) = false -> disk w = None ->
     devices w2 = []).
Proof.
  intros (Hwf & Hk).
  destruct (saveRegistry_saves w) as (w1 & Hsave & _ & _ & Hdisk & _).
  exists w1. unfold new_DeviceRegistry, loadRegistry.
  cbn [disk devices net_log disk_log ticks].
  destruct (disk_ok (List.length (disk_log w))); rewrite Hdisk.
  - eexists. split; [exact Hsave |]. split; [reflexivity |].
    split; [| discriminate]. intros _. cbn [devices snap_devices].
    apply (load_devices_appends (devices w) [] Hk Hwf).
  - destruct (disk w) as [old |].
    + eexists. split; [exact Hsave |]. split; [reflexivity |].
      split; [discriminate |]. intros _ H. discriminate H.
    + eexists. split; [exact Hsave |]. split; [reflexivity |].
      split; [discriminate |]. intros _ _. reflexivity.
Qed.

(** X18. Distinct keys with every device under its own id is an invariant:
    a registry constructed from the file has it, and [addDevice],
    [removeDevice], [setDeviceOnlineStatus], [updateDeviceState] and an
    [updateDevice] whose update carries no [id] keep it. *)
Theorem registry_invariant_is_kept (w : World) :
  (forall w', new_DeviceRegistry w = (Ok tt, w') -> registry_ok (devices w')) /\
  (registry_ok (devices w) ->
   (forall device w',
       addDevice device w = (Ok tt, w') -> registry_ok (devices w')) /\
   (forall id done w',
       removeDevice id w = (Ok done, w') -> registry_ok (devices w')) /\
   (forall id online done w',
       setDeviceOnlineStatus id online w = (Ok done, w') ->
       registry_ok (devices w')) /\
   (forall id state done w',
       updateDeviceState id state w = (Ok done, w') ->
       registry_ok (devices w')) /\
   (forall id updates done w',
       PartialDevice.id updates = None ->
       updateDevice id updates w = (Ok done, w') ->
       registry_ok (devices w'))).
Proof.
  split.
  - intros w' H. unfold new_DeviceRegistry, loadRegistry in H.
    cbn [disk devices] in H.
    assert (Hempty : registry_ok []) by (split; constructor).
    destruct (disk w) as [registry |]; injection H as <-; cbn [devices];
      [apply load_devices_ok |]; exact Hempty.
  - intros Hok. split; [| split; [| split; [| split]]].
    + intros device w' H.
      destruct (addDevice_runs device w) as (w'' & Hrun & Hdev & _).
      rewrite Hrun in H. injection H as <-. rewrite Hdev.
      apply map_set_ok; [reflexivity | exact Hok].
    + intros id done w' H.
      destruct (map_get id (devices w)) as [device |] eqn:Hget.
      * destruct (removeDevice_runs id device w Hget) as (w'' & Hrun & Hdev & _).
        rewrite Hrun in H. injection H as _ <-. rewrite Hdev.
        destruct Hok as (Hwf & Hk).
        split; [apply map_delete_wf, Hwf | apply map_delete_keyed, Hk].
      * rewrite (removeDevice_unknown id w Hget) in H. injection H as _ <-.
        exact Hok.
    + intros id online done w' H.
      destruct (map_get id (devices w)) as [device |] eqn:Hget.
      * destruct (setDeviceOnlineStatus_runs id online device w Hget)
          as (w'' & Hrun & Hdev & _).
        rewrite Hrun in H. injection H as _ <-. rewrite Hdev.
        apply map_set_ok; [| exact Hok].
        symmetry. exact (keyed_get id device _ (proj2 Hok) Hget).
      * rewrite (setDeviceOnlineStatus_unknown id online w Hget) in H.
        injection H as _ <-. exact Hok.
    + intros id state done w' H.
      destruct (map_get id (devices w)) as [device |] eqn:Hget.
      * destruct (updateDeviceState_runs id state device w Hget)
          as (w'' & Hrun & Hdev & _).
        rewrite Hrun in H. injection H as _ <-. rewrite Hdev.
        apply map_set_ok; [| exact Hok].
        symmetry. exact (keyed_get id device _ (proj2 Hok) Hget).
      * rewrite (updateDeviceState_unknown id state w Hget) in H.
        injection H as _ <-. exact Hok.
    + intros id updates done w' Hnoid H.
      destruct (map_get id (devices w)) as [device |] eqn:Hget.
      * destruct (updateDevice_runs id updates device w Hget)
          as (w'' & Hrun & Hdev & _).
        rewrite Hrun in H. injection H as _ <-. rewrite Hdev.
        apply map_set_ok; [| exact Hok].
        cbn. rewrite Hnoid. cbn.
        symmetry. exact (keyed_get id device _ (proj2 Hok) Hget).
      * rewrite (updateDevice_unknown id updates w Hget) in H.
        injection H as _ <-. exact Hok.
Qed.

End PersistFacts.

Lemma restart_restores_registry_witness :
  registry_ok (devices Scenario2.mixed_home) /\
  exists w1 w2,
    @saveRegistry Scenario2.working Scenario2.mixed_home = (Ok tt, w1) /\
    new_DeviceRegistry w1 = (Ok tt, w2) /\
    devices w2 = devices Scenario2.mixed_home.
Proof.
  assert (Hok : registry_ok (devices Scenario2.mixed_home)).
  { split; repeat constructor; cbn; intuition discriminate. }
  split; [exact Hok |].
  destruct (@restart_restores_registry Scenario2.working Scenario2.mixed_home
              Hok) as (w1 & w2 & Hsave & Hload & Hsame & _).
  exists w1, w2. split; [exact Hsave |]. split; [exact Hload |].
  exact (Hsame eq_refl).
Defined.

Lemma registry_invariant_is_kept_witness :
  registry_ok (devices Scenario2.mixed_home) /\
  forall w',
    @addDevice Scenario2.working Scenario.lamp Scenario2.mixed_home
      = (Ok tt, w') ->
    registry_ok (devices w').
Proof.
  assert (Hok : registry_ok (devices Scenario2.mixed_home)).
  { split; repeat constructor; cbn; intuition discriminate. }
  split; [exact Hok |].
  destruct (@registry_invariant_is_kept Scenario2.working Scenario2.mixed_home)
    as (_ & Hkept).
  destruct (Hkept Hok) as (Hadd & _).
  exact (Hadd Scenario.lamp).
Defined.

(* ================================================================== *)
(** * More on the registry queries *)
(* ================================================================== *)

Section QueriesMore.

(** ** Statistics and filters *)

Lemma own_replace (k key : string) (value old : Tally) (record : Counter) :
  own key record = Some old ->
  own k (replace key value record)
    = if String.eqb k key then Some value else own k record.
Proof.
  induction record as [| [k' v] rest IH]; simpl; [discriminate |].
  destruct (String.eqb key k') eqn:E; simpl.
  - apply String.eqb_eq in E. subst k'. intros _.
    destruct (String.eqb k key); reflexivity.
  - intros H. destruct (String.eqb k k') eqn:Ek.
    + apply String.eqb_eq in Ek. subst k'.
      rewrite String.eqb_sym in E. rewrite E. reflexivity.
    + apply IH, H.
Qed.

Lemma own_insert_index (k key : string) (value : Tally) (i : N)
  (record : Counter) :
  own key record = None ->
  own k (insert_index i key value record)
    = if String.eqb k key then Some value else own k record.
Proof.
  induction record as [| [k' v] rest IH]; simpl.
  - intros _. destruct (String.eqb k key); reflexivity.
  - destruct (String.eqb key k') eqn:E; [discriminate |]. intros H.
    assert (Hhead : own k ((key, value) :: (k', v) :: rest)
                    = if String.eqb k key then Some value
                      else if String.eqb k k' then Some v else own k rest)
      by reflexivity.
    destruct (array_index k') as [j |]; [| exact Hhead].
    destruct (j <? i)%N; [| exact Hhead].
    simpl. destruct (String.eqb k k') eqn:Ek.
    + apply String.eqb_eq in Ek. subst k'.
      rewrite String.eqb_sym in E. rewrite E. reflexivity.
    + apply IH, H.
Qed.

Lemma own_appended (k key : string) (value : Tally) (record : Counter) :
  own key record = None ->
  own k (record ++ [(key, value)])
    = if String.eqb k key then Some value else own k record.
Proof.
  induction record as [| [k' v] rest IH]; simpl.
  - intros _. destruct (String.eqb k key); reflexivity.
  - destruct (String.eqb key k') eqn:E; [discriminate |]. intros H.
    destruct (String.eqb k k') eqn:Ek.
    + apply String.eqb_eq in Ek. subst k'.
      rewrite String.eqb_sym in E. rewrite E. reflexivity.
    + apply IH, H.
Qed.

(** After [record[key] = value] the key reads as the value and every
    other key as before. *)
Lemma own_define (k key : string) (value : Tally) (record : Counter) :
  own k (define key value record)
    = if String.eqb k key then Some value else own k record.
Proof.
  unfold define. destruct (own key record) as [old |] eqn:Hown.
  - exact (own_replace k key value old record Hown).
  - destruct (array_index key) as [i |].
    + exact (own_insert_index k key value i record Hown).
    + exact (own_appended k key value record Hown).
Qed.

Lemma own_bump (k key : string) (record : Counter) :
  own k (bump key record)
    = if String.eqb k key then next_tally key (own key record)
      else own k record.
Proof.
  unfold bump, next_tally.
  destruct (String.eqb key "__proto__") eqn:Eproto.
  - destruct (String.eqb k key) eqn:Ek; [| reflexivity].
    apply String.eqb_eq in Ek. subst k. reflexivity.
  - destruct (own key record) as [[n | a] |];
      [| | destruct (is_prototype_function key)];
      rewrite own_define; destruct (String.eqb k key); try reflexivity.
    destruct (n =? 0) eqn:En; [apply Z.eqb_eq in En; subst |]; reflexivity.
Qed.

Lemma counted_cons (key_of : Device.t -> string) (key : string)
  (d : Device.t) (ds : list Device.t) :
  counted key_of key (d :: ds)
    = ((if String.eqb key (key_of d) then 1 else 0)
       + counted key_of key ds)%nat.
Proof.
  unfold counted. cbn [List.filter].
  destruct (String.eqb key (key_of d)); reflexivity.
Qed.

Lemma iter_bumped (key bumped : string) (n : nat) (record : Counter) :
  Nat.iter n (next_tally key) (own key (bump bumped record))
    = Nat.iter ((if String.eqb key bumped then 1 else 0) + n)
               (next_tally key) (own key record).
Proof.
  rewrite own_bump. destruct (String.eqb key bumped) eqn:E; [| reflexivity].
  apply String.eqb_eq in E. subst bumped.
  cbn [Nat.add]. rewrite Nat.iter_succ_r. reflexivity.
Qed.

Lemma fold_count_keys (ds : list Device.t) (key : string) :
  forall stats,
    let stats' := List.fold_left count_device ds stats in
    own key (Stats.byType stats')
      = Nat.iter (counted (fun d => DeviceType_name (Device.type d)) key ds)
                 (next_tally key) (own key (Stats.byType stats)) /\
    own key (Stats.byBrand stats')
      = Nat.iter (counted (fun d => Brand_name (Device.brand d)) key ds)
                 (next_tally key) (own key (Stats.byBrand stats)) /\
    own key (Stats.byRoom stats')
      = Nat.iter (counted room_key key ds)
                 (next_tally key) (own key (Stats.byRoom stats)).
Proof.
  induction ds as [| d rest IH]; intros stats; cbn [List.fold_left].
  - unfold counted. cbn. repeat split.
  - destruct (IH (count_device stats d)) as (Ht & Hb & Hr).
    cbv zeta in *. rewrite Ht, Hb, Hr, !counted_cons.
    unfold count_device. cbn [Stats.byType Stats.byBrand Stats.byRoom].
    fold (room_key d). rewrite !iter_bumped. repeat split.
Qed.

Lemma iter_next_tally (key : string) (n : nat) :
  Nat.iter n (next_tally key) None = tally_after key n.
Proof.
  induction n as [| n IH]; [reflexivity |].
  rewrite Nat.iter_succ, IH. unfold next_tally, tally_after.
  destruct (String.eqb key "__proto__"); [destruct n; reflexivity |].
  destruct (is_prototype_function key); destruct n as [| n];
    try reflexivity.
  rewrite (Nat2Z.inj_succ (S n)). reflexivity.
Qed.

Lemma filter_ext_length {A : Type} (p q : A -> bool) (l : list A) :
  (forall x, p x = q x) ->
  List.length (List.filter p l) = List.length (List.filter q l).
Proof.
  intros H. induction l as [| x rest IH]; cbn [List.filter]; [reflexivity |].
  rewrite H. destruct (q x); cbn [List.length]; rewrite IH; reflexivity.
Qed.

Lemma type_partition (ds : list Device.t) :
  (List.length (List.filter (fun d => DeviceType_eqb (Device.type d) light) ds)
   + List.length (List.filter (fun d => DeviceType_eqb (Device.type d) plug) ds)
   + List.length
       (List.filter (fun d => DeviceType_eqb (Device.type d) switch) ds)
   = List.length ds)%nat.
Proof.
  induction ds as [| d rest IH]; cbn [List.filter List.length]; [reflexivity |].
  destruct (Device.type d); cbn [DeviceType_eqb List.length]; lia.
Qed.

(** X19. The counters of [getStats] against the filters.  Under a type's
    name [byType] holds the number of devices that [getDevicesByType]
    returns, and under a brand's name [byBrand] holds the number that
    [getDevicesByBrand] returns; a type or brand without device has no
    entry.  [byRoom] holds under a room the number of devices in it,
    devices without room or with an empty room counting under 'unknown',
    except where the room is a name that plain objects inherit: under the
    name of an inherited function it holds a string, one character longer
    per device, and under '__proto__' it never holds anything.  The three
    types account for every device. *)
Theorem stats_count_what_the_filters_return (m : Registry) :
  (forall type,
      own (DeviceType_name type) (Stats.byType (getStats m))
        = match List.length (getDevicesByType type m) with
          | O => None
          | S n => Some (Count (Z.of_nat (S n)))
          end) /\
  (forall brand,
      own (Brand_name brand) (Stats.byBrand (getStats m))
        = match List.length (getDevicesByBrand brand m) with
          | O => None
          | S n => Some (Count (Z.of_nat (S n)))
          end) /\
  (forall room,
      own room (Stats.byRoom (getStats m))
        = tally_after room
            (List.length
               (List.filter (fun d => String.eqb room (room_key d))
                  (getAllDevices m)))) /\
  (List.length (getDevicesByType light m)
   + List.length (getDevicesByType plug m)
   + List.length (getDevicesByType switch m)
   = List.length (getAllDevices m))%nat.
Proof.
  unfold getStats, getDevicesByType, getDevicesByBrand, getAllDevices.
  split; [| split; [| split]].
  - intros type.
    destruct (fold_count_keys (map_values m) (DeviceType_name type)
                (Stats.mk (Z.of_nat (List.length (map_values m))) [] [] [] 0 0))
      as (Ht & _).
    cbv zeta in Ht. rewrite Ht. cbn [Stats.byType own].
    rewrite iter_next_tally. unfold counted.
    rewrite (filter_ext_length _
               (fun d => DeviceType_eqb (Device.type d) type))
      by (intros d; destruct type, (Device.type d); reflexivity).
    destruct (List.length (List.filter _ _)); [reflexivity |].
    destruct type; reflexivity.
  - intros brand.
    destruct (fold_count_keys (map_values m) (Brand_name brand)
                (Stats.mk (Z.of_nat (List.length (map_values m))) [] [] [] 0 0))
      as (_ & Hb & _).
    cbv zeta in Hb. rewrite Hb. cbn [Stats.byBrand own].
    rewrite iter_next_tally. unfold counted.
    rewrite (filter_ext_length _
               (fun d => Brand_eqb (Device.brand d) brand))
      by (intros d; destruct brand, (Device.brand d); reflexivity).
    destruct (List.length (List.filter _ _)); [reflexivity |].
    destruct brand; reflexivity.
  - intros room.
    destruct (fold_count_keys (map_values m) room
                (Stats.mk (Z.of_nat (List.length (map_values m))) [] [] [] 0 0))
      as (_ & _ & Hr).
    cbv zeta in Hr. rewrite Hr. cbn [Stats.byRoom own].
    rewrite iter_next_tally. reflexivity.
  - apply type_partition.
Qed.

(** Six plugs: two in 'constructor', one each in '10', '__proto__' and
    '2', one without room. *)
Example byRoom_of_odd_rooms :
  Stats.byRoom (getStats Scenario2.odd_rooms)
    = [("2"%string, Count 1); ("10"%string, Count 1);
       ("constructor"%string, Text 2); ("unknown"%string, Count 1)] /\
  Stats.byType (getStats Scenario2.odd_rooms) = [("plug"%string, Count 6)].
Proof. split; reflexivity. Qed.

(** ** Free-text search *)

Lemma lower_latin1_idempotent (c : ascii) :
  lower_latin1 (lower_latin1 c) = lower_latin1 c.
Proof. destruct c as [[] [] [] [] [] [] [] []]; reflexivity. Qed.

Lemma toLowerCase_latin1_idempotent (s : string) :
  toLowerCase_latin1 (toLowerCase_latin1 s) = toLowerCase_latin1 s.
Proof.
  induction s as [| c rest IH]; simpl; [reflexivity |].
  rewrite lower_latin1_idempotent, IH. reflexivity.
Qed.

Lemma startsWith_refl (s : string) : startsWith s s = true.
Proof.
  induction s as [| c rest IH]; simpl; [reflexivity |].
  rewrite Ascii.eqb_refl. exact IH.
Qed.

Lemma includes_refl (s : string) : includes s s = true.
Proof. rewrite includes_unfold, startsWith_refl. reflexivity. Qed.

Lemma search_matches_empty (d : Device.t) : search_matches "" d = true.
Proof. unfold search_matches. rewrite includes_empty. reflexivity. Qed.

Lemma filter_all {A : Type} (p : A -> bool) (l : list A) :
  (forall x, p x = true) -> List.filter p l = l.
Proof.
  intros H. induction l as [| x rest IH]; simpl; [reflexivity |].
  rewrite H, IH. reflexivity.
Qed.

(** X20. [searchDevices] returns every device for the empty query, gives
    the same result for a query and for its lower-case form, and for the
    name of a type or of a brand returns at least the devices of that type
    or brand. *)
Theorem searchDevices_basics (m : Registry) :
  searchDevices "" m = getAllDevices m /\
  (forall query,
      searchDevices (toLowerCase_latin1 query) m = searchDevices query m) /\
  (forall type d,
      In d (getDevicesByType type m) ->
      In d (searchDevices (DeviceType_name type) m)) /\
  (forall brand d,
      In d (getDevicesByBrand brand m) ->
      In d (searchDevices (Brand_name brand) m)).
Proof.
  unfold searchDevices, getAllDevices, getDevicesByType, getDevicesByBrand.
  split; [| split; [| split]].
  - apply filter_all, search_matches_empty.
  - intros query. rewrite toLowerCase_latin1_idempotent. reflexivity.
  - intros type d Hd. apply filter_In in Hd. destruct Hd as (Hin & Ht).
    apply filter_In. split; [exact Hin |].
    unfold search_matches.
    assert (E : Device.type d = type)
      by (destruct (Device.type d), type; try discriminate Ht; reflexivity).
    rewrite E.
    replace (includes (toLowerCase_latin1 (DeviceType_name type))
                      (toLowerCase_latin1 (DeviceType_name type)))
      with true by (symmetry; apply includes_refl).
    rewrite !orb_true_r. reflexivity.
  - intros brand d Hd. apply filter_In in Hd. destruct Hd as (Hin & Hb).
    apply filter_In. split; [exact Hin |].
    unfold search_matches.
    assert (E : Device.brand d = brand)
      by (destruct (Device.brand d), brand; try discriminate Hb; reflexivity).
    rewrite E.
    replace (includes (toLowerCase_latin1 (Brand_name brand))
                      (toLowerCase_latin1 (Brand_name brand)))
      with true by (symmetry; apply includes_refl).
    rewrite !orb_true_r. reflexivity.
Qed.

(** ** The fuzzy lookup at its edges *)

(** X21. [getDeviceByName] returns the first registered device, whatever
    its name, for every query without letter or digit, and for every
    query at all when that device has no alias or an alias without letter
    or digit: the empty string is contained in every string. *)
Theorem getDeviceByName_first_device (query : string) (m : Registry)
  (first : Device.t) (rest : list Device.t) :
  getAllDevices m = first :: rest ->
  normalize query = EmptyString \/ alias_key first = EmptyString ->
  getDeviceByName query m = Some first.
Proof.
  unfold getDeviceByName, getAllDevices. intros -> Hempty.
  cbn [List.find].
  replace (name_matches (normalize query) first) with true; [reflexivity |].
  symmetry. unfold name_matches. fold (alias_key first).
  destruct Hempty as [-> | ->]; rewrite includes_empty.
  - reflexivity.
  - rewrite !orb_true_r. reflexivity.
Qed.

(** ** Rooms *)

Lemma room_is_lower (room : string) (d : Device.t) :
  room_is (toLowerCase_latin1 room) d = room_is room d.
Proof.
  unfold room_is. rewrite toLowerCase_latin1_idempotent. reflexivity.
Qed.

(** X28. [getDevicesByRoom] compares rooms without regard to case and
    never returns a device that has no room.  The [room] parameter of
    [GET /api/devices] filters the same way when it is not empty; an empty
    parameter filters nothing, whereas [getDevicesByRoom] of the empty
    string returns only the devices whose room is the empty string. *)
Theorem rooms_are_compared_without_case (room : string) (m : Registry) :
  getDevicesByRoom (toLowerCase_latin1 room) m = getDevicesByRoom room m /\
  (forall d,
      In d (getDevicesByRoom room m) <->
      In d (getAllDevices m) /\
      exists r,
        Device.room d = Some r /\
        toLowerCase_latin1 r = toLowerCase_latin1 room) /\
  (room <> EmptyString ->
   list_filters (Some room) None None None (getAllDevices m)
     = getDevicesByRoom room m) /\
  list_filters (Some EmptyString) None None None (getAllDevices m)
    = getAllDevices m.
Proof.
  unfold getDevicesByRoom, getAllDevices. split; [| split; [| split]].
  - apply filter_ext. intros d. apply room_is_lower.
  - intros d. rewrite filter_In. unfold room_is.
    destruct (Device.room d) as [r |]; split.
    + intros (Hin & Heq). apply String.eqb_eq in Heq. eauto.
    + intros (Hin & r' & [= <-] & Heq). split; [exact Hin |].
      apply String.eqb_eq, Heq.
    + intros (_ & H). discriminate H.
    + intros (_ & r' & H & _). discriminate H.
  - intros Hne. unfold list_filters, given.
    destruct (String.eqb room EmptyString) eqn:E; [| reflexivity].
    apply String.eqb_eq in E. contradiction.
  - reflexivity.
Qed.

End QueriesMore.

Lemma getDeviceByName_first_device_witness :
  getDeviceByName "Bedroom Lamp" Scenario.plug_then_lamp
    = Some (Scenario.device "kitchen" "Kitchen Plug" None kasa [cap_power]
              None).
Proof.
  apply (getDeviceByName_first_device "Bedroom Lamp" Scenario.plug_then_lamp
           _ _ eq_refl).
  right. reflexivity.
Defined.

(* ================================================================== *)
(** * More on the control surface *)
(* ================================================================== *)

Section SurfaceMore.

Context {env : Environment}.

Lemma respond_with_runs {T : Type} (code : Z) (success : bool)
  (data : option T) (error : option string) (w : World) :
  respond_with code success data error w
    = (Ok (mkHttpOf code
             (mkApiResponseOf success data error (clock (ticks w)))),
       ticked w).
Proof. reflexivity. Qed.

(** X22. Every endpoint that names a device answers an unknown id with 404
    and 'Device not found'; nothing is sent, stored or saved, only the
    clock is read for the envelope. *)
Theorem unknown_id_is_not_found (id : string) (w : World) :
  map_get id (devices w) = None ->
  (forall request,
      control_handler id request w
        = (Ok (failure 404 "Device not found" (ticks w)), ticked w)) /\
  (forall level,
      brightness_handler id level w
        = (Ok (failure 404 "Device not found" (ticks w)), ticked w)) /\
  (forall state,
      power_handler id state w
        = (Ok (failure_of 404 "Device not found" (ticks w)), ticked w)) /\
  (forall r g b brightness,
      color_handler id r g b brightness w
        = (Ok (failure_of 404 "Device not found" (ticks w)), ticked w)) /\
  get_device_handler id w
    = (Ok (failure_of 404 "Device not found" (ticks w)), ticked w).
Proof.
  intros Hget. repeat split; intros;
    unfold control_handler, brightness_handler, power_handler, color_handler,
      get_device_handler;
    rewrite try_catch_bind, getDevice_runs, Hget; reflexivity.
Qed.

(** X23. A control request for a device whose brand has no adapter fails
    before any network exchange: the answer is 500 with the brand's
    message, the network log is as before, and the device is stored with
    [online = false]. *)
Theorem unsupported_brand_is_refused (id : string) (device : Device.t)
  (request : DeviceControlRequest.t) (w : World) :
  map_get id (devices w) = Some device ->
  Device.brand device <> kasa ->
  let message :=
    match Device.brand device with
    | tuya => "Tuya devices not yet supported"%string
    | _ => "Unsupported device brand: unknown"%string
    end in
  exists w',
    control_handler id request w
      = (Ok (failure 500 message (S (S (ticks w)))), w') /\
    net_log w' = net_log w /\
    map_get id (devices w')
      = Some (Device.set_lastSeen (Some (clock (ticks w)))
                (Device.set_online (Some false) device)).
Proof.
  intros Hget Hbrand message.
  rewrite (control_handler_known id device request w Hget).
  assert (Hexec : control_execution device request w = (Throw message, w)).
  { unfold control_execution, bind, getDeviceController. subst message.
    destruct (Device.brand device); [contradiction | reflexivity ..]. }
  rewrite Hexec.
  destruct (catch_marks_offline id device message w Hget)
    as (w' & Hrun & _ & Hstored & _ & Hnet & _).
  exists w'. auto.
Qed.

(** X24. When every step of a control request succeeds on a device stored
    under its own id, the polled state and [online = true] are written
    back with a fresh last-seen stamp, the registry is handed to the disk
    twice (once per write-back), and the answer is 200 with the device's
    name, the action and the polled state. *)
Theorem successful_control_writes_back (id : string) (device : Device.t)
  (request : DeviceControlRequest.t) (state : DeviceState.t) (w w1 : World) :
  map_get id (devices w) = Some device ->
  Device.id device = id ->
  control_execution device request w = (Ok state, w1) ->
  let t := ticks w1 in
  let stored :=
    Device.set_lastSeen (Some (clock (S (S t))))
      (Device.set_online (Some true)
         (Device.set_lastSeen (Some (clock t))
            (Device.set_state (Some state) device))) in
  exists w',
    control_handler id request w
      = (Ok (mkHttp 200
               (mkApiResponse true
                  (Some (ControlData (Device.name device)
                           (DeviceControlRequest.action request) state))
                  None (clock (S (S (S (S t))))))), w') /\
    map_get id (devices w') = Some stored /\
    Device.state stored = Some state /\
    Device.online stored = Some true /\
    List.length (disk_log w') = S (S (List.length (disk_log w))) /\
    net_log w' = net_log w1.
Proof.
  intros Hget Hid Hexec t stored.
  pose proof (network_only_control_execution device request w)
    as ((Hdev & Hdisk & _ & _) & _).
  rewrite (control_handler_known id device request w Hget), Hexec.
  rewrite Hexec in Hdev, Hdisk. cbn [snd] in Hdev, Hdisk. rewrite Hid.
  assert (Hget1 : map_get id (devices w1) = Some device)
    by (rewrite Hdev; exact Hget).
  destruct (updateDeviceState_runs id state device w1 Hget1)
    as (w2 & Hrun2 & Hdev2 & Hlog2 & _ & Hticks2 & Hnet2).
  assert (Hget2 : map_get id (devices w2)
                  = Some (Device.set_lastSeen (Some (clock t))
                            (Device.set_state (Some state) device)))
    by (rewrite Hdev2; apply map_get_set_same).
  destruct (setDeviceOnlineStatus_runs id true _ w2 Hget2)
    as (w3 & Hrun3 & Hdev3 & Hlog3 & _ & Hticks3 & Hnet3).
  unfold try_catch, bind. rewrite Hrun2, Hrun3, respond_runs.
  exists (ticked w3). rewrite Hticks3, Hticks2.
  split; [reflexivity |]. cbn [ticked devices disk_log net_log].
  rewrite Hdev3, Hticks2.
  split; [apply map_get_set_same |]. split; [reflexivity |].
  split; [reflexivity |]. split.
  - rewrite Hlog3, Hlog2, Hdisk, !length_app. simpl. lia.
  - rewrite Hnet3, Hnet2. reflexivity.
Qed.

(** ** Listing *)

Lemma filter_sublist {A : Type} (p : A -> bool) (l : list A) (x : A) :
  In x (List.filter p l) -> In x l.
Proof. intros H. apply filter_In in H. tauto. Qed.

Lemma list_filters_sublist (room type brand online : option string)
  (ds : list Device.t) (d : Device.t) :
  In d (list_filters room type brand online ds) -> In d ds.
Proof.
  unfold list_filters. intros H.
  destruct online; [apply filter_sublist in H |];
    (destruct (given brand); [apply filter_sublist in H |]);
    (destruct (given type); [apply filter_sublist in H |]);
    (destruct (given room); [apply filter_sublist in H |]); exact H.
Qed.

(** X25. [GET /api/devices] with an [online] parameter lists only devices
    whose flag is set and equals the parameter read as ['true'] or not:
    a device whose flag was never set is listed for neither value, though
    [getOnlineDevices] returns it.  What [online=true] lists is always
    among what [getOnlineDevices] returns. *)
Theorem list_online_filter (room type brand : option string) (online : string)
  (w : World) :
  let listed :=
    list_filters room type brand (Some online) (getAllDevices (devices w)) in
  list_handler room type brand (Some online) w
    = (Ok (success_with listed (ticks w)), ticked w) /\
  (forall d, In d listed ->
             In d (getAllDevices (devices w)) /\
             Device.online d = Some (String.eqb online "true")) /\
  (forall d, In d (getAllDevices (devices w)) ->
             Device.online d = None ->
             ~ In d listed /\ In d (getOnlineDevices (devices w))) /\
  (online = "true"%string ->
   forall d, In d listed -> In d (getOnlineDevices (devices w))).
Proof.
  intros listed.
  assert (Hflag : forall d, In d listed ->
                            Device.online d = Some (String.eqb online "true")).
  { intros d Hd. unfold listed, list_filters in Hd.
    apply filter_In in Hd. destruct Hd as (_ & Hd).
    unfold online_equals in Hd.
    destruct (Device.online d) as [flag |]; [| discriminate].
    apply Bool.eqb_prop in Hd. subst. reflexivity. }
  assert (Hsub : forall d, In d listed -> In d (getAllDevices (devices w))).
  { intros d. apply list_filters_sublist. }
  split; [reflexivity |]. split; [auto |]. split.
  - intros d Hin Hnone. split.
    + intros Hd. rewrite (Hflag d Hd) in Hnone. discriminate.
    + unfold getOnlineDevices. apply filter_In. split; [exact Hin |].
      unfold online_is_false. rewrite Hnone. reflexivity.
  - intros -> d Hd. unfold getOnlineDevices. apply filter_In.
    split; [apply Hsub, Hd |].
    unfold online_is_false. rewrite (Hflag d Hd). reflexivity.
Qed.

(** ** Reading one device *)

Lemma try_catch_two {A B C : Type} (c1 : M A) (c2 : A -> M B)
  (rest : B -> M C) (h : string -> M C) (w : World) :
  try_catch (a <- c1 ;; x <- c2 a ;; rest x) h w =
  match (a <- c1 ;; c2 a) w with
  | (Ok x, w1) => try_catch (rest x) h w1
  | (Throw e, w1) => h e w1
  end.
Proof.
  unfold try_catch, bind.
  destruct (c1 w) as [[a | e] w0]; [| reflexivity].
  destruct (c2 a w0) as [[x | e] w1]; reflexivity.
Qed.

Lemma try_catch_bind_congr {A B : Type} (c1 c2 : M A) (k : A -> M B)
  (h : string -> M B) (w : World) :
  c1 w = c2 w -> try_catch (bind c1 k) h w = try_catch (bind c2 k) h w.
Proof. unfold try_catch, bind. intros ->. reflexivity. Qed.

Lemma updateDevice_returns (id : string) (updates : PartialDevice.t)
  (w : World) :
  exists done w', updateDevice id updates w = (Ok done, w').
Proof.
  destruct (map_get id (devices w)) as [device |] eqn:Hget.
  - destruct (updateDevice_runs id updates device w Hget) as (w' & H & _).
    eauto.
  - rewrite (updateDevice_unknown id updates w Hget). eauto.
Qed.

Lemma network_only_poll (device : Device.t) : network_only (poll device).
Proof.
  unfold poll.
  apply network_only_bind; [apply network_only_getDeviceController | intro].
  apply network_only_getState.
Qed.

Lemma set_online_twice (a b : option bool) (device : Device.t) :
  Device.set_online a (Device.set_online b device) = Device.set_online a device.
Proof. destruct device; reflexivity. Qed.

Lemma spread_polled (state : DeviceState.t) (device : Device.t) :
  spread (Device.set_online (Some true) (Device.set_state (Some state) device))
         (polled_update state)
  = Device.set_online (Some true) (Device.set_state (Some state) device).
Proof. destruct device; reflexivity. Qed.

(** The handler on a known device: the poll, then one of the two
    branches, then the answer. *)
Lemma get_device_handler_known (id : string) (device : Device.t) (w : World) :
  map_get id (devices w) = Some device ->
  get_device_handler id w =
  try_catch
    (shown <-
       (fun w0 =>
          match poll device w0 with
          | (Ok state, w1) =>
              let polled :=
                Device.set_online (Some true)
                  (Device.set_state (Some state) device) in
              (assign id polled ;;;
               updateDevice (Device.id polled) (polled_update state) ;;;
               ret polled) w1
          | (Throw _, w1) =>
              let lost := Device.set_online (Some false) device in
              (assign id lost ;;;
               setDeviceOnlineStatus (Device.id lost) false ;;;
               stored <- getDevice id ;;
               ret (match stored with
                    | Some stored => stored
                    | None => lost
                    end)) w1
          end) ;;
     respond_with 200 true (Some shown) None)
    (fun message => respond_with 500 false None (Some message)) w.
Proof.
  intros Hget. unfold get_device_handler.
  rewrite try_catch_bind, getDevice_runs, Hget.
  apply try_catch_bind_congr.
  etransitivity;
    [apply (try_catch_two (getDeviceController device) getState) |].
  change (a <- getDeviceController device ;; getState a) with (poll device).
  destruct (poll device w) as [[state | message] w1]; [| reflexivity].
  unfold assign, polled_update.
  unfold try_catch, bind, get_devices, put_devices, ret.
  cbv beta iota zeta. cbn [devices net_log disk_log disk ticks].
  match goal with
  | |- context [updateDevice ?i ?u ?x] =>
      destruct (updateDevice_returns i u x) as (done & w2 & Hrun)
  end.
  rewrite Hrun. reflexivity.
Qed.

(** X26. [GET /api/devices/:id] on a device stored under its own id always
    answers 200 with the device, whether or not the device can be polled.
    After a successful poll the answer shows the polled state and
    [online = true] with the last-seen stamp the device had before, while
    the registry holds the same device with a fresh stamp.  After a failed
    poll, an unsupported brand included, the answer and the registry both
    hold the device with [online = false] and a fresh stamp. *)
Theorem get_device_degrades (id : string) (device : Device.t) (w : World) :
  map_get id (devices w) = Some device ->
  Device.id device = id ->
  (forall state w1,
      poll device w = (Ok state, w1) ->
      let shown :=
        Device.set_online (Some true) (Device.set_state (Some state) device) in
      exists w',
        get_device_handler id w
          = (Ok (success_with shown (S (S (ticks w1)))), w') /\
        Device.lastSeen shown = Device.lastSeen device /\
        map_get id (devices w')
          = Some (Device.set_lastSeen (Some (clock (ticks w1))) shown)) /\
  (forall message w1,
      poll device w = (Throw message, w1) ->
      let shown :=
        Device.set_lastSeen (Some (clock (ticks w1)))
          (Device.set_online (Some false) device) in
      exists w',
        get_device_handler id w
          = (Ok (success_with shown (S (S (ticks w1)))), w') /\
        map_get id (devices w') = Some shown).
Proof.
  intros Hget Hid.
  pose proof (network_only_poll device w) as ((Hdev & _) & _).
  split.
  - intros state w1 Hpoll shown.
    rewrite (get_device_handler_known id device w Hget).
    unfold try_catch at 1. unfold bind at 1. rewrite Hpoll.
    cbv zeta. fold shown.
    replace (Device.id shown) with id by (symmetry; exact Hid).
    set (w1' := mkWorld (map_set id shown (devices w1)) (net_log w1)
                        (disk_log w1) (disk w1) (ticks w1)).
    assert (Hassign : assign id shown w1 = (Ok tt, w1')) by reflexivity.
    assert (Hget1 : map_get id (devices w1') = Some shown)
      by apply map_get_set_same.
    destruct (updateDevice_runs id (polled_update state) shown w1' Hget1)
      as (w2 & Hrun & Hdev2 & _ & _ & Hticks & _).
    unfold bind. rewrite Hassign, Hrun. cbn [ret].
    rewrite respond_with_runs. exists (ticked w2).
    unfold success_with. rewrite Hticks. cbn [ticks w1'].
    split; [reflexivity |]. split; [reflexivity |].
    cbn [ticked devices]. rewrite Hdev2. cbv zeta.
    rewrite map_get_set_same. unfold shown. rewrite spread_polled.
    reflexivity.
  - intros message w1 Hpoll shown.
    rewrite (get_device_handler_known id device w Hget).
    unfold try_catch at 1. unfold bind at 1. rewrite Hpoll.
    cbv zeta.
    replace (Device.id (Device.set_online (Some false) device)) with id
      by (symmetry; exact Hid).
    set (lost := Device.set_online (Some false) device).
    set (w1' := mkWorld (map_set id lost (devices w1)) (net_log w1)
                        (disk_log w1) (disk w1) (ticks w1)).
    assert (Hassign : assign id lost w1 = (Ok tt, w1')) by reflexivity.
    assert (Hget1 : map_get id (devices w1') = Some lost)
      by apply map_get_set_same.
    destruct (setDeviceOnlineStatus_runs id false lost w1' Hget1)
      as (w2 & Hrun & Hdev2 & _ & _ & Hticks & _).
    cbv zeta in Hdev2. unfold lost in Hdev2 at 1.
    rewrite set_online_twice in Hdev2. cbn [ticks w1'] in Hdev2, Hticks.
    fold shown in Hdev2.
    assert (Hget2 : map_get id (devices w2) = Some shown)
      by (rewrite Hdev2; apply map_get_set_same).
    unfold bind. rewrite Hassign, Hrun, getDevice_runs, Hget2. cbn [ret].
    rewrite respond_with_runs. exists (ticked w2).
    unfold success_with. rewrite Hticks.
    split; [reflexivity | exact Hget2].
Qed.

(** ** Validation at the endpoints *)

(** X27. The power and colour endpoints validate before they act.  On a
    known device a power state other than the strings 'on' and 'off', a
    colour request for a device without the colour capability, a colour
    channel that is not a number in [0, 255] and a brightness that is
    present but not a number in [0, 100] are each answered 400; nothing is
    sent, stored or saved. *)
Theorem endpoints_validate_first (id : string) (device : Device.t)
  (w : World) :
  map_get id (devices w) = Some device ->
  let capable := includes_capability (Device.capabilities device) cap_color in
  (forall state,
      valid_power state = None ->
      exists message,
        power_handler id state w
          = (Ok (failure_of 400 message (ticks w)), ticked w)) /\
  (capable = false ->
   forall r g b brightness,
     color_handler id r g b brightness w
       = (Ok (failure_of 400 "Device does not support color control"
                (ticks w)), ticked w)) /\
  (capable = true ->
   forall r g b brightness,
     valid_rgb r g b = None ->
     color_handler id r g b brightness w
       = (Ok (failure_of 400 "RGB values must be between 0 and 255"
                (ticks w)), ticked w)) /\
  (capable = true ->
   forall r g b brightness rgb,
     valid_rgb r g b = Some rgb ->
     valid_optional_brightness brightness = None ->
     color_handler id r g b brightness w
       = (Ok (failure_of 400 "Brightness must be between 0 and 100"
                (ticks w)), ticked w)) /\
  (forall n, n < 0 \/ 255 < n -> valid_channel (Some (Js.JNum n)) = None) /\
  (forall n,
      n < 0 \/ 100 < n ->
      valid_optional_brightness (Some (Js.JNum n)) = None).
Proof.
  intros Hget capable. repeat split.
  - intros state Hstate. unfold power_handler.
    rewrite try_catch_bind, getDevice_runs, Hget, Hstate.
    eexists. reflexivity.
  - intros Hcap r g b brightness. unfold color_handler.
    rewrite try_catch_bind, getDevice_runs, Hget. fold capable.
    rewrite Hcap. reflexivity.
  - intros Hcap r g b brightness Hrgb. unfold color_handler.
    rewrite try_catch_bind, getDevice_runs, Hget. fold capable.
    rewrite Hcap, Hrgb. reflexivity.
  - intros Hcap r g b brightness rgb Hrgb Hbright. unfold color_handler.
    rewrite try_catch_bind, getDevice_runs, Hget. fold capable.
    rewrite Hcap, Hrgb, Hbright. reflexivity.
  - intros n Hn. unfold valid_channel.
    rewrite (range_check_true 0 255 n Hn). reflexivity.
  - intros n Hn. unfold valid_optional_brightness.
    rewrite (range_check_true 0 100 n Hn). reflexivity.
Qed.

End SurfaceMore.

Lemma unknown_id_is_not_found_witness :
  map_get "ghost" (devices Scenario.home) = None /\
  @control_handler Scenario.unreachable "ghost" Scenario.toggle_request
    Scenario.home
    = (Ok (@failure 404 "Device not found" Scenario.unreachable 0),
       ticked Scenario.home).
Proof.
  split; [reflexivity |].
  exact (proj1 (@unknown_id_is_not_found Scenario.unreachable "ghost"
                  Scenario.home eq_refl) Scenario.toggle_request).
Defined.

Lemma unsupported_brand_is_refused_witness :
  map_get "strip" (devices Scenario2.mixed_home) = Some Scenario2.tuya_plug /\
  exists w',
    @control_handler Scenario2.working "strip" Scenario.toggle_request
      Scenario2.mixed_home
      = (Ok (@failure 500 "Tuya devices not yet supported" Scenario2.working
               2), w') /\
    net_log w' = [].
Proof.
  split; [reflexivity |].
  destruct (@unsupported_brand_is_refused Scenario2.working "strip"
              Scenario2.tuya_plug Scenario.toggle_request Scenario2.mixed_home
              eq_refl ltac:(discriminate)) as (w' & Hrun & Hnet & _).
  exists w'. split; [exact Hrun | exact Hnet].
Defined.

Lemma successful_control_writes_back_witness :
  map_get "lamp" (devices Scenario.home) = Some Scenario.lamp /\
  exists w' stored,
    fst (@control_handler Scenario2.working "lamp" Scenario2.warm_request
           Scenario.home)
      = Ok (mkHttp 200
              (mkApiResponse true
                 (Some (ControlData "Desk Lamp" action_on
                          (DeviceState.mk (Some power_off) None None None
                             None None)))
                 None 4)) /\
    snd (@control_handler Scenario2.working "lamp" Scenario2.warm_request
           Scenario.home) = w' /\
    map_get "lamp" (devices w') = Some stored /\
    Device.online stored = Some true.
Proof.
  split; [reflexivity |].
  destruct (@successful_control_writes_back Scenario2.working "lamp"
              Scenario.lamp Scenario2.warm_request _ Scenario.home _
              eq_refl eq_refl eq_refl)
    as (w' & Hrun & Hstored & _ & Honline & _).
  exists w'. eexists. rewrite Hrun.
  split; [reflexivity |]. split; [reflexivity |].
  split; [exact Hstored | exact Honline].
Defined.

Lemma get_device_degrades_witness :
  map_get "lamp" (devices Scenario.home) = Some Scenario.lamp /\
  Device.id Scenario.lamp = "lamp"%string /\
  exists w',
    @get_device_handler Scenario.unreachable "lamp" Scenario.home
      = (Ok (@success_with Device.t
               (Device.set_lastSeen (Some 0)
                  (Device.set_online (Some false) Scenario.lamp))
               Scenario.unreachable 2), w') /\
    map_get "lamp" (devices w')
      = Some (Device.set_lastSeen (Some 0)
                (Device.set_online (Some false) Scenario.lamp)).
Proof.
  split; [reflexivity |]. split; [reflexivity |].
  destruct (@get_device_degrades Scenario.unreachable "lamp" Scenario.lamp
              Scenario.home eq_refl eq_refl) as (_ & Hlost).
  exact (Hlost "Connection timeout"%string _ eq_refl).
Defined.

Lemma endpoints_validate_first_witness :
  map_get "lamp" (devices Scenario.home) = Some Scenario.lamp /\
  valid_power (Some (Js.JStr "dim")) = None /\
  (exists message,
      @power_handler Scenario.unreachable "lamp" (Some (Js.JStr "dim"))
        Scenario.home
        = (Ok (@failure_of PowerData 400 message Scenario.unreachable 0),
           ticked Scenario.home)) /\
  @color_handler Scenario.unreachable "lamp" (Some (Js.JNum 255))
    (Some (Js.JNum 0)) (Some (Js.JNum 0)) None Scenario.home
    = (Ok (@failure_of ColorData 400 "Device does not support color control"
             Scenario.unreachable 0), ticked Scenario.home).
Proof.
  split; [reflexivity |]. split; [reflexivity |].
  destruct (@endpoints_validate_first Scenario.unreachable "lamp"
              Scenario.lamp Scenario.home eq_refl)
    as (Hpower & Hcap & _).
  split.
  - exact (Hpower (Some (Js.JStr "dim")) eq_refl).
  - exact (Hcap eq_refl _ _ _ _).
Defined.
